(** * Project-management server: validation, service rules and repository

    A shallow embedding of the TypeScript sources

      - middleware/project.middleware.ts        (ThrowError)
      - handler/response.handler.ts             (sendSuccess, sendError)
      - modules/project/model/project.model.ts  (the record types)
      - modules/project/validator/project.validator.ts
      - modules/project/repository/project.repostiory.ts
      - modules/project/service/project.service.ts
      - modules/project/controller (ProjectController)
      - modules/project/routes/project.router.ts
      - config/dbConfig.ts                      (Database)

    Conventions of the embedding.

      - A JavaScript string is a Rocq [string] holding its UTF-8 bytes.
      - A JavaScript number is [NaN], an infinity or a finite value kept as an
        exact rational in lowest terms; rounding to binary64 and the sign of
        zero are not tracked. The arithmetic of the embedding is therefore
        JavaScript's where JavaScript does not round: on safe integers (at
        most 2^53 - 1 in size) with safe results. Statements about computed
        numbers (skip, totalPages) are made for safe integers.
      - A [Date] is its time value in milliseconds ([Z]); [new Date(value)]
        returns a date, returns an invalid date, or throws ([DateResult]).
      - [async] functions become functions in a state-and-exception monad over
        the state of the document store; [throw] is [Throw].
      - The MongoDB collection is an interface ([Collection]) that also tells
        whether [Database.getDB()] returns; an in-memory instance
        ([MemStore]) gives it the standard semantics on a connected
        database.
      - The static fields of [Database] are a record; what the environment
        and the driver decide (the variables read, whether the connection
        string is accepted, whether the server answers) comes with each
        call. *)

From stdpp Require Import gmap strings list fin_maps sorting.
From Stdlib Require Import Ascii ZArith NArith QArith Qcanon Qabs Qround Lia Lqa.
From Stdlib Require Import Sorting.Sorted Sorting.Permutation.

#[local] Open Scope string_scope.
#[local] Open Scope Z_scope.

(* ===================================================================== *)
(** ** JavaScript strings                                                 *)
(* ===================================================================== *)

Module JsString.

Definition chars (s : string) : list ascii := String.list_ascii_of_string s.
Definition of_chars (l : list ascii) : string := String.string_of_list_ascii l.

Definition code (c : ascii) : N := N_of_ascii c.

(** The code points that [trim] and [Number] treat as white space (the
    ECMAScript WhiteSpace and LineTerminator productions), as UTF-8 byte
    sequences: TAB LF VT FF CR SP, U+00A0, U+1680, U+2000..U+200A, U+2028,
    U+2029, U+202F, U+205F, U+3000, U+FEFF. *)
Definition white_space : list (list N) :=
  [ [9]; [10]; [11]; [12]; [13]; [32]; [194; 160]; [225; 154; 128];
    [226; 128; 128]; [226; 128; 129]; [226; 128; 130]; [226; 128; 131];
    [226; 128; 132]; [226; 128; 133]; [226; 128; 134]; [226; 128; 135];
    [226; 128; 136]; [226; 128; 137]; [226; 128; 138]; [226; 128; 168];
    [226; 128; 169]; [226; 128; 175]; [226; 129; 159]; [227; 128; 128];
    [239; 187; 191] ]%N.

(** [strip_prefix p l] is the rest of [l] after the bytes [p]. *)
Fixpoint strip_prefix (p : list N) (l : list ascii) : option (list ascii) :=
  match p, l with
  | [], _ => Some l
  | n :: p', c :: l' => if (code c =? n)%N then strip_prefix p' l' else None
  | _ :: _, [] => None
  end.

(** One leading white-space character removed, if there is one. *)
Fixpoint strip_one (ws : list (list N)) (l : list ascii) : option (list ascii) :=
  match ws with
  | [] => None
  | p :: ws' =>
      match strip_prefix p l with
      | Some r => Some r
      | None => strip_one ws' l
      end
  end.

Fixpoint trimStart_go (fuel : nat) (l : list ascii) : list ascii :=
  match fuel with
  | O => l
  | S fuel' =>
      match strip_one white_space l with
      | Some r => trimStart_go fuel' r
      | None => l
      end
  end.

Definition trimStart_chars (l : list ascii) : list ascii :=
  trimStart_go (length l) l.

(** The same from the end: the reversed string is searched for the reversed
    byte sequences. *)
Definition trimEnd_chars (l : list ascii) : list ascii :=
  let fix go (fuel : nat) (r : list ascii) : list ascii :=
    match fuel with
    | O => r
    | S fuel' =>
        match strip_one (map (@rev N) white_space) r with
        | Some r' => go fuel' r'
        | None => r
        end
    end in
  rev (go (length l) (rev l)).

(** [String.prototype.trim]. *)
Definition trim (s : string) : string :=
  of_chars (trimEnd_chars (trimStart_chars (chars s))).

(** [s.startsWith("-")] for a one-character prefix. *)
Definition startsWith (s : string) (c : ascii) : bool :=
  match s with
  | String a _ => Ascii.eqb a c
  | EmptyString => false
  end.

(** [s.replace(c, "")] for a one-character string pattern: only the first
    occurrence is replaced, wherever it is. *)
Fixpoint replace_first (c : ascii) (s : string) : string :=
  match s with
  | EmptyString => EmptyString
  | String a r => if Ascii.eqb a c then r else String a (replace_first c r)
  end.

(** [arr.includes(s)] on an array of strings. *)
Definition includes (arr : list string) (s : string) : bool :=
  existsb (String.eqb s) arr.

(** A string is falsy exactly when it is empty. *)
Definition truthy (s : string) : bool :=
  match s with EmptyString => false | _ => true end.

End JsString.

(* ===================================================================== *)
(** ** JavaScript numbers                                                 *)
(* ===================================================================== *)

Inductive jsnum : Type :=
| NaN
| Infinity (negative : bool)
| Fin (q : Q).

Module JsNumber.

Definition of_Z (z : Z) : jsnum := Fin (inject_Z z).
Definition of_nat (n : nat) : jsnum := of_Z (Z.of_nat n).

Definition is_zero (q : Q) : bool := Qeq_bool q 0.
Definition is_neg (q : Q) : bool :=
  match Qcompare q 0 with Lt => true | _ => false end.

(** [NaN] and zero are falsy, every other number is truthy. *)
Definition truthy (n : jsnum) : bool :=
  match n with
  | NaN => false
  | Infinity _ => true
  | Fin q => negb (is_zero q)
  end.

(** [a || b] on numbers. *)
Definition or (a b : jsnum) : jsnum := if truthy a then a else b.

(** [a - b] *)
Definition sub (a b : jsnum) : jsnum :=
  match a, b with
  | NaN, _ | _, NaN => NaN
  | Fin x, Fin y => Fin (Qred (x - y))
  | Infinity s, Fin _ => Infinity s
  | Fin _, Infinity s => Infinity (negb s)
  | Infinity s, Infinity t => if Bool.eqb s t then NaN else Infinity s
  end.

(** [a * b] *)
Definition mul (a b : jsnum) : jsnum :=
  match a, b with
  | NaN, _ | _, NaN => NaN
  | Fin x, Fin y => Fin (Qred (x * y))
  | Infinity s, Fin y =>
      if is_zero y then NaN else Infinity (xorb s (is_neg y))
  | Fin x, Infinity s =>
      if is_zero x then NaN else Infinity (xorb s (is_neg x))
  | Infinity s, Infinity t => Infinity (xorb s t)
  end.

(** [a / b]; a zero divisor is read as [+0]. *)
Definition div (a b : jsnum) : jsnum :=
  match a, b with
  | NaN, _ | _, NaN => NaN
  | Fin x, Fin y =>
      if is_zero y
      then (if is_zero x then NaN else Infinity (is_neg x))
      else Fin (Qred (x / y))
  | Fin _, Infinity _ => Fin 0
  | Infinity s, Fin y => Infinity (xorb s (is_neg y))
  | Infinity _, Infinity _ => NaN
  end.

(** [Math.ceil] *)
Definition ceil (a : jsnum) : jsnum :=
  match a with
  | Fin x => Fin (inject_Z (Qceiling x))
  | _ => a
  end.

(** The number as a natural number, when it is one. *)
Definition to_nat (a : jsnum) : option nat :=
  match a with
  | Fin x =>
      if Qeq_bool (inject_Z (Qfloor x)) x && (0 <=? Qfloor x)
      then Some (Z.to_nat (Qfloor x)) else None
  | _ => None
  end.

(** The number as an integer, when it is one. *)
Definition to_Z (a : jsnum) : option Z :=
  match a with
  | Fin x => if Qeq_bool (inject_Z (Qfloor x)) x then Some (Qfloor x) else None
  | _ => None
  end.

(** *** [Number(string)]: the StringNumericLiteral grammar *)

Definition digit (radix : N) (c : ascii) : option N :=
  let n := JsString.code c in
  let v :=
    if (48 <=? n)%N && (n <=? 57)%N then Some (n - 48)%N
    else if (97 <=? n)%N && (n <=? 122)%N then Some (n - 87)%N
    else if (65 <=? n)%N && (n <=? 90)%N then Some (n - 55)%N
    else None in
  match v with
  | Some d => if (d <? radix)%N then Some d else None
  | None => None
  end.

(** The longest run of digits at the front of [l]: its value, its length
    and what follows it. *)
Fixpoint digits (radix : N) (l : list ascii) (acc : N) (count : nat)
  : N * nat * list ascii :=
  match l with
  | c :: l' =>
      match digit radix c with
      | Some d => digits radix l' (acc * radix + d)%N (S count)
      | None => (acc, count, l)
      end
  | [] => (acc, count, l)
  end.

(** [m * 10^e] in lowest terms. *)
Definition scale10 (m : Z) (e : Z) : Q :=
  if 0 <=? e then inject_Z (m * 10 ^ e)
  else Qred (Qmake m (Z.to_pos (10 ^ (- e)))).

(** ExponentPart: nothing, or [e]/[E], an optional sign and digits up to
    the end of the literal. *)
Definition exponent (l : list ascii) : option Z :=
  match l with
  | [] => Some 0
  | c :: l' =>
      if Ascii.eqb c "e" || Ascii.eqb c "E" then
        let '(neg, l'') :=
          match l' with
          | s :: r =>
              if Ascii.eqb s "-" then (true, r)
              else if Ascii.eqb s "+" then (false, r)
              else (false, l')
          | [] => (false, l')
          end in
        match digits 10 l'' 0%N 0%nat with
        | (v, S _, []) => Some (if neg then - Z.of_N v else Z.of_N v)
        | _ => None
        end
      else None
  end.

(** StrUnsignedDecimalLiteral without [Infinity]. *)
Definition unsigned_decimal (l : list ascii) : option Q :=
  let '(ip, n1, r1) := digits 10 l 0%N 0%nat in
  match r1 with
  | c :: r2 =>
      if Ascii.eqb c "." then
        let '(fp, n2, r3) := digits 10 r2 0%N 0%nat in
        match (n1 + n2)%nat, exponent r3 with
        | S _, Some e =>
            Some (scale10 (Z.of_N ip * 10 ^ Z.of_nat n2 + Z.of_N fp)
                          (e - Z.of_nat n2))
        | _, _ => None
        end
      else
        match n1, exponent r1 with
        | S _, Some e => Some (scale10 (Z.of_N ip) e)
        | _, _ => None
        end
  | [] =>
      match n1 with
      | S _ => Some (inject_Z (Z.of_N ip))
      | O => None
      end
  end.

Definition infinity_word : list ascii := JsString.chars "Infinity".

Definition unsigned_literal (l : list ascii) : jsnum :=
  if bool_decide (l = infinity_word) then Infinity false
  else match unsigned_decimal l with
       | Some q => Fin q
       | None => NaN
       end.

Definition negate (n : jsnum) : jsnum :=
  match n with
  | NaN => NaN
  | Infinity s => Infinity (negb s)
  | Fin q => Fin (Qred (- q))
  end.

(** NonDecimalIntegerLiteral: [0x], [0o], [0b] (either case), unsigned. *)
Definition non_decimal (l : list ascii) : option jsnum :=
  match l with
  | z :: p :: r =>
      if Ascii.eqb z "0" then
        let radix :=
          if Ascii.eqb p "x" || Ascii.eqb p "X" then Some 16%N
          else if Ascii.eqb p "o" || Ascii.eqb p "O" then Some 8%N
          else if Ascii.eqb p "b" || Ascii.eqb p "B" then Some 2%N
          else None in
        match radix with
        | Some rd =>
            match digits rd r 0%N 0%nat with
            | (v, S _, []) => Some (of_Z (Z.of_N v))
            | _ => Some NaN
            end
        | None => None
        end
      else None
  | _ => None
  end.

(** [Number(s)] for a string [s]. *)
Definition of_string (s : string) : jsnum :=
  let l := JsString.chars (JsString.trim s) in
  match l with
  | [] => Fin 0
  | c :: r =>
      match non_decimal l with
      | Some n => n
      | None =>
          if Ascii.eqb c "-" then negate (unsigned_literal r)
          else if Ascii.eqb c "+" then unsigned_literal r
          else unsigned_literal l
      end
  end.

End JsNumber.

(** [Number(x)] where [x] is a query parameter: [undefined] when the
    parameter is absent, its text otherwise. *)
Definition Number (x : option string) : jsnum :=
  match x with
  | None => NaN
  | Some s => JsNumber.of_string s
  end.

(* ===================================================================== *)
(** ** JavaScript values of a request body                                *)
(* ===================================================================== *)

(** A field of a JSON request body; [JUndefined] is an absent field. An
    object is the list of its own properties. *)
#[warnings="-register-all"]
Inductive jsval : Type :=
| JUndefined
| JNull
| JBool (b : bool)
| JNum (n : jsnum)
| JStr (s : string)
| JArray (items : list jsval)
| JObject (fields : list (string * jsval)).

Module JsValue.

(** [!v] is [negb (truthy v)]. *)
Definition truthy (v : jsval) : bool :=
  match v with
  | JUndefined | JNull => false
  | JBool b => b
  | JNum n => JsNumber.truthy n
  | JStr s => JsString.truthy s
  | JArray _ | JObject _ => true
  end.

(** [typeof v === "string"] *)
Definition is_string (v : jsval) : bool :=
  match v with JStr _ => true | _ => false end.

(** [v !== undefined] *)
Definition defined (v : jsval) : bool :=
  match v with JUndefined => false | _ => true end.

(** The text of a value that passed the [typeof] test. *)
Definition text (v : jsval) : string :=
  match v with JStr s => s | _ => "" end.

(** [arr.includes(v)] on an array of strings: only a string equal to an
    element is included. *)
Definition included (arr : list string) (v : jsval) : bool :=
  match v with JStr s => JsString.includes arr s | _ => false end.

End JsValue.

(* ===================================================================== *)
(** ** Exceptions and the monad of [async] functions                      *)
(* ===================================================================== *)

(** What the code can throw: the application's [ThrowError]
    (middleware/project.middleware.ts: status code, title, message), the
    [Error] of [Database.getDB], the [BSONError] of [new ObjectId], the
    [TypeError] of the language, and a fault raised by the store. *)
Inductive exn : Type :=
| ThrowError (code : Z) (title message : string)
| Error (message : string)
| TypeError (message : string)
| BSONError (message : string)
| MongoError (message : string).

Inductive outcome (A : Type) : Type :=
| Ok (a : A)
| Throw (e : exn).
Arguments Ok {A} a.
Arguments Throw {A} e.

(** A computation over the state [S] of the store: its outcome and the state
    it leaves. *)
Definition M (S A : Type) : Type := S → outcome A * S.

#[export] Instance M_ret {S} : MRet (M S) := λ A a s, (Ok a, s).
#[export] Instance M_bind {S} : MBind (M S) := λ A B f m s,
  match m s with
  | (Ok a, s') => f a s'
  | (Throw e, s') => (Throw e, s')
  end.

#[export] Instance outcome_ret : MRet outcome := λ A a, Ok a.
#[export] Instance outcome_bind : MBind outcome := λ A B f m,
  match m with
  | Ok a => f a
  | Throw e => Throw e
  end.

Definition throw {S A} (e : exn) : M S A := λ s, (Throw e, s).

(** A step that does not touch the store. *)
Definition lift {S A} (o : outcome A) : M S A := λ s, (o, s).

(** [try { body } catch (error) { handler }] *)
Definition try_catch {S A} (body : M S A) (handler : exn → M S A) : M S A :=
  λ s, match body s with
       | (Ok a, s') => (Ok a, s')
       | (Throw e, s') => handler e s'
       end.

(** The [message] property of a thrown error. *)
Definition exn_message (e : exn) : string :=
  match e with
  | ThrowError _ _ m | Error m | TypeError m | BSONError m | MongoError m => m
  end.

(* ===================================================================== *)
(** ** handler/response.handler.ts                                        *)
(* ===================================================================== *)

(** The envelope written by [res.status(code).json(...)]. *)
Record Response (D : Type) : Type := mkResponse {
  code : Z;
  title : string;
  message : string;
  data : option D
}.
Arguments mkResponse {D} code title message data.
Arguments code {D} r.
Arguments title {D} r.
Arguments message {D} r.
Arguments data {D} r.

Definition sendSuccess {D} (code : Z) (title message : string) (data : option D)
  : Response D :=
  mkResponse code title message data.

Definition sendError {D} (code : Z) (title message : string) : Response D :=
  mkResponse code title message None.

(* ===================================================================== *)
(** ** modules/project/model/project.model.ts                             *)
(* ===================================================================== *)

Definition STATUS_TYPE : Type := string.
Definition Date : Type := Z.

(** What [new Date(value)] does: it returns a date with a time value, it
    returns an invalid date ([getTime()] is [NaN]), or the conversion of
    [value] to a primitive throws a [TypeError] (a JSON object whose
    [toString] property is not a function). *)
Inductive DateResult : Type :=
| ValidDate (t : Date)
| InvalidDate
| DateThrows (message : string).

(** [date.getTime()] when it is not [NaN]. *)
Definition time_value (r : DateResult) : option Date :=
  match r with
  | ValidDate t => Some t
  | InvalidDate | DateThrows _ => None
  end.

(** [ProjectProps]. Besides the fields marked optional in the interface,
    [_id] and [updatedAt] are optional here: the validator builds its result
    from [{}] and never assigns them. *)
Module ProjectProps.
Record t : Type := mk {
  _id : option string;
  name : string;
  clientName : string;
  status : STATUS_TYPE;
  description : option string;
  startDate : Date;
  endDate : option Date;
  createdAt : Date;
  updatedAt : option Date
}.

(** [{ ...data, _id: id }] *)
Definition with_id (data : t) (id : string) : t :=
  mk (Some id) (name data) (clientName data) (status data)
     (description data) (startDate data) (endDate data) (createdAt data)
     (updatedAt data).

(** The key of an optional property, when the object has it. *)
Definition own {A} (field : option A) (key : string) : list string :=
  match field with Some _ => [key] | None => [] end.

(** [Object.keys]: the names of the properties the object has, listed in
    the order of the interface. *)
Definition keys (p : t) : list string :=
  (own (_id p) "_id" ++ ["name"; "clientName"; "status"] ++
   own (description p) "description" ++ ["startDate"] ++
   own (endDate p) "endDate" ++ ["createdAt"] ++
   own (updatedAt p) "updatedAt")%list.
End ProjectProps.

Module ProjectListItem.
Record t : Type := mk {
  id : string;
  name : string;
  clientName : string;
  status : STATUS_TYPE;
  startDate : Date;
  endDate : option Date;
  createdAt : Date
}.
End ProjectListItem.

Module ProjectDetails.
Record t : Type := mk {
  id : string;
  name : string;
  clientName : string;
  status : STATUS_TYPE;
  description : option string;
  startDate : Date;
  endDate : option Date;
  createdAt : Date;
  updatedAt : option Date
}.
End ProjectDetails.

Module ListProjectsParams.
Record t : Type := mk {
  page : jsnum;
  limit : jsnum;
  status : option STATUS_TYPE;
  search : option string;
  sort : option string
}.
End ListProjectsParams.

(** The creation payload as it arrives: [req.body], whose fields are
    whatever the client sent. *)
Module Body.
Record t : Type := mk {
  clientName : jsval;
  name : jsval;
  description : jsval;
  status : jsval;
  startDate : jsval;
  endDate : jsval
}.
End Body.

(* ===================================================================== *)
(** ** [ObjectId] of the bson library                                     *)
(* ===================================================================== *)

Module ObjectId.

(** An identifier is kept as its 24 lower-case hexadecimal digits, which
    is also what [toString] prints. *)
Definition t : Type := string.

Definition is_hex (c : ascii) : bool :=
  match JsNumber.digit 16 c with Some _ => true | None => false end.

Definition lower (c : ascii) : ascii :=
  let n := JsString.code c in
  if (65 <=? n)%N && (n <=? 90)%N then ascii_of_N (n + 32) else c.

(** [ObjectId.isValid(id)] for a string: 24 hexadecimal digits (bson 6;
    the sources do not pin the version of the driver). *)
Definition isValid (id : string) : bool :=
  (length (JsString.chars id) =? 24)%nat &&
  forallb is_hex (JsString.chars id).

(** [new ObjectId(id)]: throws on the strings [isValid] rejects. *)
Definition create (id : string) : outcome t :=
  if isValid id
  then Ok (JsString.of_chars (map lower (JsString.chars id)))
  else Throw (BSONError
    "input must be a 24 character hex string, 12 byte Uint8Array, or an integer").

Definition toString (o : t) : string := o.

End ObjectId.

(* ===================================================================== *)
(** ** The MongoDB collection                                             *)
(* ===================================================================== *)

(** A query filter as the repository and the service build it: [{ _id }],
    [{ status }], [{ $or: [{ name: { $regex, $options: "i" } },
    { clientName: { $regex, $options: "i" } }] }], or several of them. *)
Record Filter : Type := mkFilter {
  f_id : option ObjectId.t;
  f_status : option STATUS_TYPE;
  f_search : option string
}.

(** A sort specification: the keys of the object with their order
    ([1] ascending, [-1] descending). *)
Definition SortOption : Type := list (string * Z).

(** [{ $set: { status, updatedAt } }] *)
Record SetStatus : Type := mkSet {
  set_status : STATUS_TYPE;
  set_updatedAt : Date
}.

(** A stored document with its identifier ([WithId<ProjectProps>]). *)
Definition WithId : Type := ObjectId.t * ProjectProps.t.

(** The operations of the driver that the repository calls, on a store whose
    state is [S]. [find_toArray filter sort skip limit] is
    [find(filter).sort(sort).skip(skip).limit(limit).toArray()];
    [deleteOne] and [updateOne] return [deletedCount] and [modifiedCount].

    The repository reaches the collection through [Database.getDB()]:
    [connected s] tells whether the database is connected in the state [s]
    (whether [getDB] returns rather than throws), and an operation of the
    collection returns only when it is. *)
Class Collection (S : Type) : Type := {
  connected : S → bool;
  insertOne : ProjectProps.t → M S ObjectId.t;
  find_toArray : Filter → SortOption → jsnum → jsnum → M S (list WithId);
  countDocuments : Filter → option nat → M S nat;
  findOne : Filter → M S (option WithId);
  deleteOne : Filter → M S nat;
  updateOne : Filter → SetStatus → M S nat;
  insertOne_connected :
    ∀ data s r s', insertOne data s = (Ok r, s') → connected s = true;
  find_toArray_connected :
    ∀ f o sk lim s r s',
      find_toArray f o sk lim s = (Ok r, s') → connected s = true;
  countDocuments_connected :
    ∀ f lim s r s', countDocuments f lim s = (Ok r, s') → connected s = true;
  findOne_connected :
    ∀ f s r s', findOne f s = (Ok r, s') → connected s = true;
  deleteOne_connected :
    ∀ f s r s', deleteOne f s = (Ok r, s') → connected s = true;
  updateOne_connected :
    ∀ f u s r s', updateOne f u s = (Ok r, s') → connected s = true
}.

(** *** Ordering documents *)

Module Cursor.

Section Insertion.
Context {A : Type} (le : A → A → bool).

Fixpoint insert (x : A) (l : list A) : list A :=
  match l with
  | [] => [x]
  | y :: l' => if le x y then x :: l else y :: insert x l'
  end.

(** A stable sort: equal documents keep their order. *)
Definition sort (l : list A) : list A := foldr insert [] l.
End Insertion.

(** Missing values come before every date. *)
Definition key_le (a b : option Z) : bool :=
  match a, b with
  | None, _ => true
  | Some _, None => false
  | Some x, Some y => x <=? y
  end.

(** The date fields a document can be ordered on; any other field is
    read as missing. *)
Definition field (key : string) (p : ProjectProps.t) : option Z :=
  if String.eqb key "createdAt" then Some (ProjectProps.createdAt p)
  else if String.eqb key "startDate" then Some (ProjectProps.startDate p)
  else if String.eqb key "endDate" then ProjectProps.endDate p
  else if String.eqb key "updatedAt" then ProjectProps.updatedAt p
  else None.

(** [a] may come before [b] under one key of the specification. *)
Definition before (key : string) (order : Z) (a b : WithId) : bool :=
  if order <? 0 then key_le (field key b.2) (field key a.2)
  else key_le (field key a.2) (field key b.2).

(** The whole specification: the first key decides first. *)
Definition by_spec (spec : SortOption) (l : list WithId) : list WithId :=
  foldr (λ '(key, order) acc, sort (before key order) acc) l spec.

End Cursor.

(** *** An in-memory collection *)

#[export] Instance ProjectProps_eq_dec : EqDecision ProjectProps.t.
Proof. solve_decision. Defined.

(** The documents by identifier, and the number of identifiers generated so
    far (the driver's counter). *)
Record MemStore : Type := mkStore {
  documents : gmap string ProjectProps.t;
  generated : N
}.

Module Mem.

Definition hex_digit (d : N) : ascii :=
  if (d <? 10)%N then ascii_of_N (48 + d) else ascii_of_N (87 + d).

(** The 24 hexadecimal digits of a 96-bit identifier. *)
Definition hex24 (n : N) : string :=
  JsString.of_chars
    (map (λ i, hex_digit ((n / 16 ^ N.of_nat i) mod 16)%N) (rev (seq 0 24))).

(** [.skip(n)]: the server refuses anything but a non-negative integer. *)
Definition skip (n : jsnum) (l : list WithId) : outcome (list WithId) :=
  match JsNumber.to_nat n with
  | Some k => Ok (drop k l)
  | None => Throw (MongoError "skip must be a non-negative integer")
  end.

(** [.limit(n)]: [0] is no limit, a negative limit is its absolute
    value. *)
Definition limit (n : jsnum) (l : list WithId) : outcome (list WithId) :=
  match JsNumber.to_Z n with
  | Some 0 => Ok l
  | Some z => Ok (take (Z.abs_nat z) l)
  | None => Throw (MongoError "limit must be an integer")
  end.

Section WithRegex.
(** [regex_test pattern subject]: the server's [$regex] match with
    option ["i"]. *)
Variable regex_test : string → string → bool.

Definition matches (f : Filter) (d : WithId) : bool :=
  match f_id f with Some o => String.eqb d.1 o | None => true end &&
  match f_status f with
  | Some s => String.eqb (ProjectProps.status d.2) s
  | None => true
  end &&
  match f_search f with
  | Some p => regex_test p (ProjectProps.name d.2) ||
              regex_test p (ProjectProps.clientName d.2)
  | None => true
  end.

(** [find(filter)] before any cursor option. *)
Definition selected (f : Filter) (st : MemStore) : list WithId :=
  List.filter (matches f) (map_to_list (documents st)).

Definition mem_insertOne (data : ProjectProps.t) : M MemStore ObjectId.t :=
  λ st,
    let id := hex24 (generated st) in
    match documents st !! id with
    | Some _ => (Throw (MongoError "E11000 duplicate key error"), st)
    | None =>
        (Ok id, mkStore (<[id := ProjectProps.with_id data id]> (documents st))
                        (generated st + 1))
    end.

Definition mem_find_toArray (f : Filter) (spec : SortOption)
    (sk lim : jsnum) : M MemStore (list WithId) :=
  λ st,
    match skip sk (Cursor.by_spec spec (selected f st)) with
    | Ok l => (limit lim l, st)
    | Throw e => (Throw e, st)
    end.

Definition mem_countDocuments (f : Filter) (lim : option nat)
  : M MemStore nat :=
  λ st,
    let n := length (selected f st) in
    (Ok (match lim with Some k => Nat.min n k | None => n end), st).

Definition mem_findOne (f : Filter) : M MemStore (option WithId) :=
  λ st, (Ok (head (selected f st)), st).

Definition mem_deleteOne (f : Filter) : M MemStore nat :=
  λ st,
    match head (selected f st) with
    | Some d => (Ok 1%nat, mkStore (delete d.1 (documents st)) (generated st))
    | None => (Ok 0%nat, st)
    end.

(** [modifiedCount] counts the documents the update really changed. *)
Definition mem_updateOne (f : Filter) (u : SetStatus) : M MemStore nat :=
  λ st,
    match head (selected f st) with
    | Some d =>
        let p := d.2 in
        let p' := ProjectProps.mk
                    (ProjectProps._id p) (ProjectProps.name p)
                    (ProjectProps.clientName p) (set_status u)
                    (ProjectProps.description p) (ProjectProps.startDate p)
                    (ProjectProps.endDate p) (ProjectProps.createdAt p)
                    (Some (set_updatedAt u)) in
        if decide (p' = p) then (Ok 0%nat, st)
        else (Ok 1%nat, mkStore (<[d.1 := p']> (documents st)) (generated st))
    | None => (Ok 0%nat, st)
    end.

(** The in-memory collection of a connected database. *)
Definition collection : Collection MemStore := {|
  connected := λ _, true;
  insertOne := mem_insertOne;
  find_toArray := mem_find_toArray;
  countDocuments := mem_countDocuments;
  findOne := mem_findOne;
  deleteOne := mem_deleteOne;
  updateOne := mem_updateOne;
  insertOne_connected := λ _ _ _ _ _, eq_refl;
  find_toArray_connected := λ _ _ _ _ _ _ _ _, eq_refl;
  countDocuments_connected := λ _ _ _ _ _ _, eq_refl;
  findOne_connected := λ _ _ _ _ _, eq_refl;
  deleteOne_connected := λ _ _ _ _ _, eq_refl;
  updateOne_connected := λ _ _ _ _ _ _, eq_refl
|}.
End WithRegex.

End Mem.

(* ===================================================================== *)
(** ** modules/project/validator/project.validator.ts                     *)
(* ===================================================================== *)

Module ProjectValidator.

Definition VALIDATION_STATUS_CODE : Z := 400.
Definition VALIDATION_TITLE : string := "VALIDATION_ERROR".
Definition ALLOWED_STATUSES : list string := ["active"; "on_hold"; "completed"].

Definition invalid {A} (message : string) : outcome A :=
  Throw (ThrowError VALIDATION_STATUS_CODE VALIDATION_TITLE message).

(** Client Name Validation *)
Definition check_clientName (clientName : jsval) : outcome string :=
  if negb (JsValue.truthy clientName) ||
     negb (JsValue.is_string clientName) ||
     String.eqb (JsString.trim (JsValue.text clientName)) ""
  then invalid "Client name is required"
  else Ok (JsString.trim (JsValue.text clientName)).

(** Project Name Validation *)
Definition check_name (name : jsval) : outcome string :=
  if negb (JsValue.truthy name) ||
     negb (JsValue.is_string name) ||
     String.eqb (JsString.trim (JsValue.text name)) ""
  then invalid "Project name is required"
  else Ok (JsString.trim (JsValue.text name)).

(** Description (Optional) *)
Definition check_description (description : jsval) : outcome (option string) :=
  if JsValue.defined description then
    if negb (JsValue.is_string description) ||
       String.eqb (JsString.trim (JsValue.text description)) ""
    then invalid "Description must be a non-empty string if provided"
    else Ok (Some (JsString.trim (JsValue.text description)))
  else Ok None.

(** Status Validation *)
Definition check_status (status : jsval) : outcome STATUS_TYPE :=
  if negb (JsValue.truthy status) ||
     negb (JsValue.included ALLOWED_STATUSES status)
  then invalid "Invalid or missing project status"
  else Ok (JsValue.text status).

Section WithDate.
(** [new Date(value)] *)
Variable newDate : jsval → DateResult.

(** Start Date Validation *)
Definition check_startDate (startDate : jsval) : outcome Date :=
  if negb (JsValue.truthy startDate)
  then invalid "Start date is required"
  else
    match newDate startDate with
    | DateThrows message => Throw (TypeError message)
    | InvalidDate => invalid "Start date must be a valid ISO date"
    | ValidDate parsedStart => Ok parsedStart
    end.

(** End Date (Optional) *)
Definition check_endDate (parsedStart : Date) (endDate : jsval)
  : outcome (option Date) :=
  if JsValue.defined endDate then
    match newDate endDate with
    | DateThrows message => Throw (TypeError message)
    | InvalidDate => invalid "End date must be a valid ISO date"
    | ValidDate parsedEnd =>
        if parsedEnd <? parsedStart
        then invalid "End date cannot be before start date"
        else Ok (Some parsedEnd)
    end
  else Ok None.

(** [createProject(data)]: the sections above in the order of the source,
    the first failure ending the call; [now] is the clock reading of
    [new Date()]. The result has no [_id] and no [updatedAt]. *)
Definition createProject (now : Z) (data : Body.t)
  : outcome ProjectProps.t :=
  v_clientName ← check_clientName (Body.clientName data);
  v_name ← check_name (Body.name data);
  v_description ← check_description (Body.description data);
  v_status ← check_status (Body.status data);
  parsedStart ← check_startDate (Body.startDate data);
  v_endDate ← check_endDate parsedStart (Body.endDate data);
  mret (ProjectProps.mk None v_name v_clientName v_status v_description
          parsedStart v_endDate now None).
End WithDate.

End ProjectValidator.

(* ===================================================================== *)
(** ** modules/project/repository/project.repostiory.ts                   *)
(* ===================================================================== *)

Module ProjectRepository.

Section WithCollection.
Context {S : Type} {C : Collection S}.

Definition by_id (o : ObjectId.t) : Filter := mkFilter (Some o) None None.

(** [Database.getDB().collection(this.projectCollectionName)]: [getDB]
    throws unless the database is connected. *)
Definition collection : M S unit :=
  λ s, if connected s then (Ok (), s)
       else (Throw (Error
               "Database not connected. Call Database.connect() first."), s).

Definition createProject (data : ProjectProps.t) : M S ProjectProps.t :=
  _ ← collection;
  insertedId ← insertOne data;
  mret (ProjectProps.with_id data (ObjectId.toString insertedId)).

Definition to_list_item (project : WithId) : ProjectListItem.t :=
  ProjectListItem.mk
    (ObjectId.toString project.1)
    (ProjectProps.name project.2)
    (ProjectProps.clientName project.2)
    (ProjectProps.status project.2)
    (ProjectProps.startDate project.2)
    (ProjectProps.endDate project.2)
    (ProjectProps.createdAt project.2).

Definition listProjects (filter : Filter) (sortOption : SortOption)
    (skip limit : jsnum) : M S (list ProjectListItem.t * nat) :=
  _ ← collection;
  (* Fetch paginated data *)
  projectsRaw ← find_toArray filter sortOption skip limit;
  (* Count total documents *)
  total ← countDocuments filter None;
  (* Map to table-friendly format *)
  mret (map to_list_item projectsRaw, total).

Definition to_details (data : WithId) : ProjectDetails.t :=
  ProjectDetails.mk
    (ObjectId.toString data.1)
    (ProjectProps.name data.2)
    (ProjectProps.clientName data.2)
    (ProjectProps.status data.2)
    (ProjectProps.description data.2)
    (ProjectProps.startDate data.2)
    (ProjectProps.endDate data.2)
    (ProjectProps.createdAt data.2)
    (ProjectProps.updatedAt data.2).

Definition getProjectDataById (id : string) : M S (option ProjectDetails.t) :=
  _ ← collection;
  oid ← lift (ObjectId.create id);
  data ← findOne (by_id oid);
  match data with
  | None => mret None
  | Some d => mret (Some (to_details d))
  end.

Definition getProjectExistanceById (id : string) : M S bool :=
  (* Validate if the provided ID is a valid MongoDB ObjectId *)
  if negb (ObjectId.isValid id) then mret false
  else
    (* Get the projects collection from the database *)
    _ ← collection;
    oid ← lift (ObjectId.create id);
    (* Count documents matching the ID with a limit of 1 *)
    exists_ ← countDocuments (by_id oid) (Some 1%nat);
    mret (0 <? exists_)%nat.

Definition deleteProjectById (id : string) : M S bool :=
  _ ← collection;
  oid ← lift (ObjectId.create id);
  deletedCount ← deleteOne (by_id oid);
  mret (deletedCount =? 1)%nat.

(** [now] is the clock reading of [new Date()]. *)
Definition updateProjectStatusById (now : Z) (id : string)
    (status : STATUS_TYPE) : M S bool :=
  _ ← collection;
  oid ← lift (ObjectId.create id);
  modifiedCount ← updateOne (by_id oid) (mkSet status now);
  mret (modifiedCount =? 1)%nat.
End WithCollection.

End ProjectRepository.

(* ===================================================================== *)
(** ** modules/project/service/project.service.ts                         *)
(* ===================================================================== *)

Record Pagination : Type := mkPagination {
  total : nat;
  page : jsnum;
  limit : jsnum;
  totalPages : jsnum
}.

Record ProjectList : Type := mkList {
  list_data : list ProjectListItem.t;
  pagination : Pagination
}.

Module ProjectService.

Definition allowedSortFields : list string := ["createdAt"; "startDate"].
Definition ALLOWED_STATUSES : list string := ["active"; "on_hold"; "completed"].

(** The value of an optional string parameter when it is truthy. *)
Definition given (x : option string) : option string :=
  match x with
  | Some s => if JsString.truthy s then Some s else None
  | None => None
  end.

(** The sort specification built from the [sort] parameter. *)
Definition sortOption_of (sort : option string) : outcome SortOption :=
  match given sort with
  | Some sort =>
      let order := if JsString.startsWith sort "-" then -1 else 1 in
      let field := JsString.replace_first "-" sort in
      if JsString.includes allowedSortFields field
      then Ok [(field, order)]
      else Throw (ThrowError 400 "Invalid Sort Field"
                    "Sorting not allowed on this field")
  | None =>
      (* Default sorting *)
      Ok [("createdAt", -1)]
  end.

(** [(page - 1) * limit] *)
Definition skip_of (page limit : jsnum) : jsnum :=
  JsNumber.mul (JsNumber.sub page (Fin 1)) limit.

(** The query filter built from the [status] and [search] parameters. *)
Definition filter_of (params : ListProjectsParams.t) : Filter :=
  mkFilter None (given (ListProjectsParams.status params))
           (given (ListProjectsParams.search params)).

Section WithCollection.
Context {S : Type} {C : Collection S}.
Variable newDate : jsval → DateResult.

Definition createProject (now : Z) (data : Body.t) : M S ProjectProps.t :=
  validatedBody ← lift (ProjectValidator.createProject newDate now data);
  result ← ProjectRepository.createProject validatedBody;
  if negb (match ProjectProps._id result with
           | Some id => JsString.truthy id
           | None => false
           end)
  then throw (ThrowError 500 "FAILURE" "Failed to create project")
  else mret result.

Definition listProjects (params : ListProjectsParams.t) : M S ProjectList :=
  let page := ListProjectsParams.page params in
  let limit := ListProjectsParams.limit params in
  let skip := skip_of page limit in
  let filter := filter_of params in
  sortOption ← lift (sortOption_of (ListProjectsParams.sort params));
  '(projects, total) ← ProjectRepository.listProjects filter sortOption skip limit;
  mret (mkList projects
          (mkPagination total page limit
             (JsNumber.ceil (JsNumber.div (JsNumber.of_nat total) limit)))).

Definition projectDeatilsById (id : string) : M S ProjectDetails.t :=
  if negb (ObjectId.isValid id)
  then throw (ThrowError 400 "VALIDTION_ERROR" "Invalid id")
  else
    data ← ProjectRepository.getProjectDataById id;
    match data with
    | None => throw (ThrowError 404 "NOT_FOUND" "Project not found")
    | Some d => mret d
    end.

Definition removeProjectById (id : string) : M S unit :=
  if negb (ObjectId.isValid id)
  then throw (ThrowError 400 "VALIDTION_ERROR" "Invalid id")
  else
    projectExists ← ProjectRepository.getProjectExistanceById id;
    if negb projectExists
    then throw (ThrowError 404 "NOT_FOUND" "Project not found")
    else
      result ← ProjectRepository.deleteProjectById id;
      if negb result
      then throw (ThrowError 500 "FAILURE" "Failed to delete project")
      else mret ().

Definition updateProjectStatusById (now : Z) (id : string) (status : jsval)
  : M S unit :=
  if negb (ObjectId.isValid id)
  then throw (ThrowError 400 "VALIDTION_ERROR" "Invalid id")
  else
    if negb (JsValue.truthy status) ||
       negb (JsValue.included ALLOWED_STATUSES status)
    then throw (ThrowError 400 "VALIDATION_ERROR"
                  "Invalid or missing project status")
    else
      projectExists ← ProjectRepository.getProjectExistanceById id;
      if negb projectExists
      then throw (ThrowError 404 "NOT_FOUND" "Project not found")
      else
        result ← ProjectRepository.updateProjectStatusById
                   now id (JsValue.text status);
        if negb result
        then throw (ThrowError 500 "FAILURE"
                      "Failed to update status of a  project")
        else mret ().
End WithCollection.

End ProjectService.

(* ===================================================================== *)
(** ** modules/project/controller: ProjectController                      *)
(* ===================================================================== *)

(** [req.query] of the list endpoint for a query string that gives each
    parameter at most once and without brackets: the parameter is absent or
    a string. (For a repeated or bracketed parameter Express gives an array
    or an object, which the casts of the handler pass on unconverted; such
    requests are not values of this record, and the statements about the
    list handler are about the requests that are.) *)
Module Query.
Record t : Type := mk {
  page : option string;
  limit : option string;
  status : option string;
  search : option string;
  sort : option string
}.
End Query.

Module ProjectController.

(** The [catch] clause shared by the handlers: a [ThrowError] is reported
    with its own code and title, any other error as a 500. *)
Definition on_error {D} (error : exn) : Response D :=
  match error with
  | ThrowError code title message => sendError code title message
  | _ => sendError 500 "Internal Server Error" (exn_message error)
  end.

(** The parameters the list handler passes to the service. *)
Definition list_params (query : Query.t) : ListProjectsParams.t :=
  let page := JsNumber.or (Number (Query.page query)) (Fin 1) in
  let limit := JsNumber.or (Number (Query.limit query)) (Fin 10) in
  let status := Query.status query in
  let search := Query.search query in
  let sort := Query.sort query in
  ListProjectsParams.mk page limit status search sort.

Section WithCollection.
Context {S : Type} {C : Collection S}.
Variable newDate : jsval → DateResult.

Definition createProject (now : Z) (body : Body.t)
  : M S (Response ProjectProps.t) :=
  try_catch
    (data ← ProjectService.createProject newDate now body;
     mret (sendSuccess 201 "SUCCESS" "Project created successfully"
             (Some data)))
    (λ error, mret (on_error error)).

Definition listProjects (query : Query.t) : M S (Response ProjectList) :=
  try_catch
    (data ← ProjectService.listProjects (list_params query);
     mret (sendSuccess 200 "Projects List" "Data fetched successfully"
             (Some data)))
    (λ error, mret (on_error error)).

Definition projectDetailsById (id : string)
  : M S (Response ProjectDetails.t) :=
  try_catch
    (if negb (JsString.truthy id)
     then mret (sendError 400 "VALIDATION_ERROR" "Id is required")
     else
       data ← ProjectService.projectDeatilsById id;
       mret (sendSuccess 200 "Project Details" "Data fetched succesfully"
               (Some data)))
    (λ error, mret (on_error error)).

Definition removeProjectById (id : string) : M S (Response unit) :=
  try_catch
    (if negb (JsString.truthy id)
     then mret (sendError 400 "VALIDATION_ERROR" "Id is required")
     else
       _ ← ProjectService.removeProjectById id;
       mret (sendSuccess 200 "Project Deletion Process"
               "Project deleted successfully" None))
    (λ error, mret (on_error error)).

Definition updateProjectStatusById (now : Z) (id : string) (status : jsval)
  : M S (Response unit) :=
  try_catch
    (if negb (JsString.truthy id)
     then mret (sendError 400 "VALIDATION_ERROR" "Id is required")
     else
       _ ← ProjectService.updateProjectStatusById now id status;
       mret (sendSuccess 200 "Project Status Update"
               "Project status updated successfully" None))
    (λ error, mret (on_error error)).
End WithCollection.

End ProjectController.

(* ===================================================================== *)
(** ** Concrete parameters and stores for the examples                    *)
(* ===================================================================== *)

Module Sample.

(** Days from 1970-01-01 to the civil date [y-m-d]. *)
Definition days_from_civil (y m d : Z) : Z :=
  let y' := if m <=? 2 then y - 1 else y in
  let era := y' / 400 in
  let yoe := y' - era * 400 in
  let mp := (m + 9) mod 12 in
  let doy := (153 * mp + 2) / 5 + d - 1 in
  let doe := yoe * 365 + yoe / 4 - yoe / 100 + doy in
  era * 146097 + doe - 719468.

Definition leap (y : Z) : bool :=
  ((y mod 4 =? 0) && negb (y mod 100 =? 0)) || (y mod 400 =? 0).

Definition days_in_month (y m : Z) : Z :=
  if m =? 2 then (if leap y then 29 else 28)
  else if (m =? 4) || (m =? 6) || (m =? 9) || (m =? 11) then 30 else 31.

Definition number_of (l : list ascii) : option Z :=
  match JsNumber.digits 10 l 0%N 0%nat with
  | (v, S _, []) => Some (Z.of_N v)
  | _ => None
  end.

(** The time value of a date-only ISO string [YYYY-MM-DD] that names a
    day of the calendar (midnight UTC). *)
Definition date_only (s : string) : option Z :=
  match JsString.chars s with
  | [y1; y2; y3; y4; s1; m1; m2; s2; d1; d2] =>
      if Ascii.eqb s1 "-" && Ascii.eqb s2 "-" then
        match number_of [y1; y2; y3; y4], number_of [m1; m2], number_of [d1; d2] with
        | Some y, Some m, Some d =>
            if (1 <=? m) && (m <=? 12) && (1 <=? d) && (d <=? days_in_month y m)
            then Some (days_from_civil y m d * 86400000)
            else None
        | _, _, _ => None
        end
      else None
  | _ => None
  end.

(** The conversion of an object to a primitive throws when the object has
    a property [toString] of its own (in a JSON value it is never a
    function), and the conversion of an array when one of its elements
    does. *)
Fixpoint unprintable (v : jsval) : bool :=
  match v with
  | JObject fields => existsb (λ f, String.eqb f.1 "toString") fields
  | JArray items => existsb unprintable items
  | _ => false
  end.

Definition parsed (t : option Z) : DateResult :=
  match t with Some t => ValidDate t | None => InvalidDate end.

(** A [new Date(value)] for the examples: numbers, booleans and [null] are
    converted as JavaScript does (the number is the time value, at most
    8.64e15 in size, truncated to an integer); of the strings only the
    date-only ISO form is read; an object that converts to a primitive gives
    an invalid date, and of the arrays only those of one string are read. *)
Definition newDate (v : jsval) : DateResult :=
  match v with
  | JUndefined => InvalidDate
  | JNull => ValidDate 0
  | JBool b => ValidDate (if b then 1 else 0)
  | JNum (Fin q) =>
      if Qle_bool (Qabs q) (inject_Z 8640000000000000)
      then ValidDate (if Qle_bool 0 q then Qfloor q else Qceiling q)
      else InvalidDate
  | JNum _ => InvalidDate
  | JStr s => parsed (date_only s)
  | JArray _ | JObject _ =>
      if unprintable v
      then DateThrows "Cannot convert object to primitive value"
      else
        match v with
        | JArray [JStr s] => parsed (date_only s)
        | _ => InvalidDate
        end
  end.

Definition lower (c : ascii) : ascii := ObjectId.lower c.

Fixpoint prefix_i (p s : list ascii) : bool :=
  match p, s with
  | [], _ => true
  | a :: p', b :: s' => Ascii.eqb (lower a) (lower b) && prefix_i p' s'
  | _ :: _, [] => false
  end.

Fixpoint contains_i (p s : list ascii) : bool :=
  prefix_i p s ||
  match s with
  | [] => false
  | _ :: s' => contains_i p s'
  end.

(** A [$regex] match for the examples: the pattern is searched as a plain
    text, ignoring the case of ASCII letters. *)
Definition regex_test (pattern subject : string) : bool :=
  contains_i (JsString.chars pattern) (JsString.chars subject).

Definition collection : Collection MemStore := Mem.collection regex_test.

Definition project (name client status : string) (start : Z)
    (finish : option Z) (created : Z) : ProjectProps.t :=
  ProjectProps.mk None name client status None start finish created None.

Definition empty : MemStore := mkStore ∅ 0.

(** The store after [docs] have been inserted one after the other. *)
Definition populated (docs : list ProjectProps.t) : MemStore :=
  foldl (λ st d, (Mem.mem_insertOne d st).2) empty docs.

(** Three projects; their identifiers end in 0, 1 and 2. *)
Definition three : MemStore :=
  populated
    [ project "Website" "Acme" "active" 1704844800000 None 1700000000000;
      project "Audit" "Globex" "on_hold" 1701388800000 (Some 1709251200000)
              1700000001000;
      project "Migration" "Initech" "completed" 1706745600000 None
              1700000002000 ].

(** Twenty-five projects. *)
Definition twenty_five : MemStore :=
  populated
    (map (λ i, project "Batch" "Acme" "active" (Z.of_nat i) None
                 (1700000000000 + Z.of_nat i))
         (seq 0 25)).

Definition body (clientName name status startDate endDate : jsval) : Body.t :=
  Body.mk clientName name JUndefined status startDate endDate.

(** The collection as a request sees it when another request deletes the
    same document between its two calls: the document is gone and its own
    [deleteOne] reports that it deleted nothing. *)
Definition raced : Collection MemStore := {|
  connected := λ _, true;
  insertOne := Mem.mem_insertOne;
  find_toArray := Mem.mem_find_toArray regex_test;
  countDocuments := Mem.mem_countDocuments regex_test;
  findOne := Mem.mem_findOne regex_test;
  deleteOne := λ f st, (Ok 0%nat, (Mem.mem_deleteOne regex_test f st).2);
  updateOne := Mem.mem_updateOne regex_test;
  insertOne_connected := λ _ _ _ _ _, eq_refl;
  find_toArray_connected := λ _ _ _ _ _ _ _ _, eq_refl;
  countDocuments_connected := λ _ _ _ _ _ _, eq_refl;
  findOne_connected := λ _ _ _ _ _, eq_refl;
  deleteOne_connected := λ _ _ _ _ _, eq_refl;
  updateOne_connected := λ _ _ _ _ _ _, eq_refl
|}.

(** The collection before [Database.connect()] has succeeded: [getDB]
    throws, and no operation of the driver is reached. *)
Definition unreached {A} : M MemStore A :=
  throw (MongoError "Client must be connected before running operations").

Definition disconnected : Collection MemStore := {|
  connected := λ _, false;
  insertOne := λ _, unreached;
  find_toArray := λ _ _ _ _, unreached;
  countDocuments := λ _ _, unreached;
  findOne := λ _, unreached;
  deleteOne := λ _, unreached;
  updateOne := λ _ _, unreached;
  insertOne_connected := ltac:(intros; discriminate);
  find_toArray_connected := ltac:(intros; discriminate);
  countDocuments_connected := ltac:(intros; discriminate);
  findOne_connected := ltac:(intros; discriminate);
  deleteOne_connected := ltac:(intros; discriminate);
  updateOne_connected := ltac:(intros; discriminate)
|}.

End Sample.

(** [f <$> m]: the result of [m] passed through [f]. *)
#[export] Instance M_fmap {S} : FMap (M S) := λ A B f m s,
  match m s with
  | (Ok a, s') => (Ok (f a), s')
  | (Throw e, s') => (Throw e, s')
  end.

(* ===================================================================== *)
(** ** config/dbConfig.ts                                                 *)
(* ===================================================================== *)

Module Database.

(** What [connect] finds outside the class: the two environment variables,
    whether [new MongoClient(uri)] accepts the connection string, whether
    [client.connect()] succeeds, and whether [client.db(name)] takes the
    name. *)
Record Env : Type := mkEnv {
  MONGO_URI : option string;
  DB_NAME : option string;
  accepts : option string → bool;
  reachable : bool;
  names : option string → bool
}.

Record MongoClient : Type := mkClient {
  uri : option string;
  is_open : bool
}.

(** The handle returned by [client.db(name)], told apart by the name it was
    asked for (without one the driver takes the name of the connection
    string). *)
Record Db : Type := mkDb {
  dbName : option string
}.

(** The two static fields of the class and the lines written with
    [console.log]. *)
Record t : Type := mk {
  db : option Db;
  client : option MongoClient;
  console : list string
}.

(** Before the first call. *)
Definition initial : t := mk None None [].

(** What a call can throw: the [Error] of [getDB], or whatever the driver
    throws. *)
Inductive thrown : Type :=
| Error (message : string)
| DriverError.

(** [connect()] *)
Definition connect (env : Env) (s : t) : (thrown + unit) * t :=
  (* Prevent multiple connections in case connect() is called again *)
  match db s with
  | Some _ => (inr (), s)
  | None =>
      if negb (accepts env (MONGO_URI env)) then (inl DriverError, s)
      else
        let s1 := mk None (Some (mkClient (MONGO_URI env) false)) (console s) in
        if negb (reachable env) then (inl DriverError, s1)
        else
          let s2 := mk None (Some (mkClient (MONGO_URI env) true)) (console s) in
          if negb (names env (DB_NAME env)) then (inl DriverError, s2)
          else
            (inr (),
             mk (Some (mkDb (DB_NAME env)))
                (Some (mkClient (MONGO_URI env) true))
                (console s ++ ["Mongodb connected"]))
  end.

(** [getDB()] *)
Definition getDB (s : t) : thrown + Db :=
  match db s with
  | None => inl (Error "Database not connected. Call Database.connect() first.")
  | Some d => inr d
  end.

(** [close()]: the two fields are left as they are. [closes] tells whether
    [client.close()] returns rather than throws; when it throws the client
    is taken to stay as it was. *)
Definition close (closes : bool) (s : t) : (thrown + unit) * t :=
  match client s with
  | Some c =>
      if negb closes then (inl DriverError, s)
      else
        (inr (),
         mk (db s) (Some (mkClient (uri c) false))
            (console s ++ ["Mongodb connection is closed"]))
  | None => (inr (), s)
  end.

End Database.

(* ===================================================================== *)
(** ** modules/project/routes/project.router.ts                           *)
(* ===================================================================== *)

(** The five routes of the router, each with what its handler reads from the
    request (and the clock reading where the handler stamps a date). *)
Inductive Request : Type :=
| GET_projects (query : Query.t)
| POST_projects (now : Z) (body : Body.t)
| GET_project (id : string)
| PATCH_project_status (now : Z) (id : string) (status : jsval)
| DELETE_project (id : string).

Inductive Answer : Type :=
| Listed (response : Response ProjectList)
| Created (response : Response ProjectProps.t)
| Details (response : Response ProjectDetails.t)
| Updated (response : Response unit)
| Deleted (response : Response unit).

Module Router.

Section WithCollection.
Context {S : Type} {C : Collection S}.
Variable newDate : jsval → DateResult.

(** The handler the router calls for a request. *)
Definition dispatch (request : Request) : M S Answer :=
  match request with
  | GET_projects query =>
      Listed <$> ProjectController.listProjects query
  | POST_projects now body =>
      Created <$> ProjectController.createProject newDate now body
  | GET_project id =>
      Details <$> ProjectController.projectDetailsById id
  | PATCH_project_status now id status =>
      Updated <$> ProjectController.updateProjectStatusById now id status
  | DELETE_project id =>
      Deleted <$> ProjectController.removeProjectById id
  end.

(** The store after a sequence of requests, served one after the other. *)
Definition serve (requests : list Request) (st : S) : S :=
  foldl (λ st request, (dispatch request st).2) st requests.
End WithCollection.

End Router.

(** The HTTP status code of an answer. *)
Definition status_code (a : Answer) : Z :=
  match a with
  | Listed r => code r
  | Created r => code r
  | Details r => code r
  | Updated r | Deleted r => code r
  end.

(* ===================================================================== *)
(** * Properties                                                          *)
(* ===================================================================== *)

(** ** The vocabulary of the specification *)

(** A status of the enumeration {active, on_hold, completed}. *)
Definition allowed_status (v : jsval) : Prop :=
  v = JStr "active" ∨ v = JStr "on_hold" ∨ v = JStr "completed".

(** A string that is not empty after trimming. *)
Definition nonblank (v : jsval) : Prop :=
  ∃ s, v = JStr s ∧ JsString.trim s ≠ "".

(** An identifier is well formed when [ObjectId.isValid] accepts it. *)
Definition well_formed (id : string) : Prop := ObjectId.isValid id = true.
Definition malformed (id : string) : Prop := ObjectId.isValid id = false.

(** The sections before the end date pass (validation stops at the first
    section that fails), and [start] is the parsed start date. *)
Definition passes_up_to_startDate (newDate : jsval → DateResult)
    (data : Body.t) (start : Z) : Prop :=
  nonblank (Body.clientName data) ∧
  nonblank (Body.name data) ∧
  (Body.description data = JUndefined ∨ nonblank (Body.description data)) ∧
  allowed_status (Body.status data) ∧
  JsValue.truthy (Body.startDate data) = true ∧
  newDate (Body.startDate data) = ValidDate start.

(** The date an item is ordered on. *)
Definition item_date (field : string) (i : ProjectListItem.t) : Z :=
  if String.eqb field "createdAt" then ProjectListItem.createdAt i
  else ProjectListItem.startDate i.

(** The items are in non-decreasing order of [field], or in non-increasing
    order when [descending]. *)
Definition ordered_on (field : string) (descending : bool)
    (l : list ProjectListItem.t) : Prop :=
  StronglySorted
    (λ a b, if descending then item_date field b <= item_date field a
            else item_date field a <= item_date field b) l.

(** The sort token as the specification reads it: a leading ['-'] is
    removed, the rest names the field. *)
Definition strip_leading_dash (s : string) : string :=
  match s with
  | String a r => if Ascii.eqb a "-" then r else s
  | EmptyString => s
  end.

Fixpoint no_dash (s : string) : bool :=
  match s with
  | EmptyString => true
  | String a r => negb (Ascii.eqb a "-") && no_dash r
  end.

(** A stored project as the data model wants it: it carries its own
    identifier, a status of the enumeration, a name and a client name that
    are not empty, no empty description, and an end date that is not before
    the start date. *)
Definition record_ok (id : string) (p : ProjectProps.t) : Prop :=
  ProjectProps._id p = Some id ∧
  well_formed id ∧
  allowed_status (JStr (ProjectProps.status p)) ∧
  ProjectProps.name p ≠ "" ∧
  ProjectProps.clientName p ≠ "" ∧
  ProjectProps.description p ≠ Some "" ∧
  (∀ e, ProjectProps.endDate p = Some e → ProjectProps.startDate p <= e).

Definition store_ok (st : MemStore) : Prop :=
  ∀ id p, documents st !! id = Some p → record_ok id p.

(** The parameters of a list call with another page number. *)
Definition at_page (params : ListProjectsParams.t) (p : nat)
  : ListProjectsParams.t :=
  ListProjectsParams.mk (JsNumber.of_nat p)
    (ListProjectsParams.limit params) (ListProjectsParams.status params)
    (ListProjectsParams.search params) (ListProjectsParams.sort params).

(** The items page [p] of a listing returns (none when the call fails). *)
Definition page_items (rx : string → string → bool)
    (params : ListProjectsParams.t) (st : MemStore) (p : nat)
  : list ProjectListItem.t :=
  match (ProjectService.listProjects (C := Mem.collection rx)
           (at_page params p) st).1 with
  | Ok r => list_data r
  | Throw _ => []
  end.

(** The messages of the validator. *)
Definition validation_messages : list string :=
  [ "Client name is required"; "Project name is required";
    "Description must be a non-empty string if provided";
    "Invalid or missing project status"; "Start date is required";
    "Start date must be a valid ISO date"; "End date must be a valid ISO date";
    "End date cannot be before start date" ].

(** A safe integer ([Number.isSafeInteger]): binary64 holds it exactly. On
    safe integers whose result is a safe integer the subtraction and the
    multiplication of the embedding are JavaScript's, and so is
    [Math.ceil(a / b)] of two safe integers; outside of this range
    JavaScript rounds, and the statements about computed numbers below are
    made for safe integers only. *)
Definition safe (z : Z) : Prop := Z.abs z <= 9007199254740991.

(** An operation of the collection as the repository reaches it: through
    [Database.getDB()], which throws unless the database is connected. *)
Definition reached {S A} {C : Collection S} (operation : M S A) : M S A :=
  _ ← ProjectRepository.collection; operation.

(** The document after [{ $set: { status, updatedAt } }]. *)
Definition with_status (p : ProjectProps.t) (status : string) (now : Z)
  : ProjectProps.t :=
  ProjectProps.mk (ProjectProps._id p) (ProjectProps.name p)
    (ProjectProps.clientName p) status (ProjectProps.description p)
    (ProjectProps.startDate p) (ProjectProps.endDate p)
    (ProjectProps.createdAt p) (Some now).

(** The status codes a route of the router answers with. *)
Definition route_codes (request : Request) : list Z :=
  match request with
  | GET_projects _ => [200; 400; 500]
  | POST_projects _ _ => [201; 400; 500]
  | GET_project _ => [200; 400; 404]
  | PATCH_project_status _ _ _ => [200; 400; 404; 500]
  | DELETE_project _ => [200; 400; 404]
  end.

(** A call of the [Database] class from outside, with what it finds there
    (the environment of a [connect], whether the driver's [close] returns),
    and the state of the class after a sequence of calls. *)
Inductive DatabaseCall : Type :=
| Connect (env : Database.Env)
| Close (closes : bool).

Definition after_call (s : Database.t) (call : DatabaseCall) : Database.t :=
  match call with
  | Connect env => (Database.connect env s).2
  | Close closes => (Database.close closes s).2
  end.

Definition after_calls (calls : list DatabaseCall) (s : Database.t)
  : Database.t :=
  foldl after_call s calls.


(** The lines of the console that report a connection. *)
Definition connections (s : Database.t) : nat :=
  length (filter (λ line, line = "Mongodb connected") (Database.console s)).

(** An environment for the examples: the driver refuses a missing
    connection string and takes every database name. *)
Definition local_env (name : string) (reachable : bool) : Database.Env :=
  Database.mkEnv (Some "mongodb://localhost:27017") (Some name)
    (λ uri, bool_decide (is_Some uri)) reachable (λ _, true).

(** ** The embedding on sample inputs *)

Example Number_samples :
  map Number
    [ None; Some "abc"; Some "12px"; Some ""; Some "0"; Some "-0"; Some "3";
      Some " 10 "; Some "-2"; Some "2.5"; Some "1e3"; Some "0x1F";
      Some "Infinity" ] =
    [ NaN; NaN; NaN; Fin 0; Fin 0; Fin 0; Fin 3; Fin 10; Fin (-2); Fin (5 # 2);
      Fin 1000; Fin 31; Infinity false ].
Proof. vm_compute. reflexivity. Qed.

Example trim_samples :
  map JsString.trim ["  Acme Corp  "; "Acme"; "   "; ""] =
    ["Acme Corp"; "Acme"; ""; ""].
Proof. vm_compute. reflexivity. Qed.

Example replace_samples :
  map (JsString.replace_first "-")
    ["-createdAt"; "startDate"; "start-Date"; "--startDate"] =
    ["createdAt"; "startDate"; "startDate"; "-startDate"].
Proof. reflexivity. Qed.

Example isValid_samples :
  map ObjectId.isValid
    [""; "abc"; "507f1f77bcf86cd799439011"; "507F1F77BCF86CD799439011";
     "507f1f77bcf86cd79943901"; "507f1f77bcf86cd79943901z"] =
    [false; false; true; true; false; false].
Proof. vm_compute. reflexivity. Qed.

Example createProject_sample :
  ProjectValidator.createProject Sample.newDate 1700000000000
    (Body.mk (JStr " Acme ") (JStr "Website ") (JStr "Redesign")
       (JStr "active") (JStr "2024-01-10") (JStr "2024-03-01")) =
    Ok (ProjectProps.mk None "Website" "Acme" "active" (Some "Redesign")
          1704844800000 (Some 1709251200000) 1700000000000 None).
Proof. vm_compute. reflexivity. Qed.

(** ** Identifiers *)

Lemma create_well_formed id :
  well_formed id → ∃ oid, ObjectId.create id = Ok oid.
Proof. unfold well_formed, ObjectId.create. intros ->. eauto. Qed.

Lemma create_malformed id :
  malformed id → ∃ msg, ObjectId.create id = Throw (BSONError msg).
Proof. unfold malformed, ObjectId.create. intros ->. eauto. Qed.

(** ** The status test shared by the validator and the service *)

Lemma status_test_spec v :
  negb (JsValue.truthy v) ||
  negb (JsValue.included ProjectService.ALLOWED_STATUSES v) = false
  ↔ allowed_status v.
Proof.
  unfold allowed_status. split.
  - intros H. apply orb_false_elim in H as [_ H].
    apply negb_false_iff in H. destruct v as [| | |?|s|?|?]; simpl in H; try discriminate.
    unfold JsString.includes in H. simpl in H.
    rewrite !orb_true_iff in H. rewrite !String.eqb_eq in H.
    destruct H as [->|[->|[->|?]]]; auto; discriminate.
  - intros [->|[->| ->]]; reflexivity.
Qed.

Lemma status_test_rejects v :
  ¬ allowed_status v →
  negb (JsValue.truthy v) ||
  negb (JsValue.included ProjectService.ALLOWED_STATUSES v) = true.
Proof.
  intros H. apply not_false_iff_true. intros E. apply H, status_test_spec, E.
Qed.

(** ** Service: identifiers are checked first *)

Section ServiceIds.
Context {S : Type} {C : Collection S}.

Lemma projectDeatilsById_malformed id (st : S) :
  malformed id →
  ProjectService.projectDeatilsById id st =
    (Throw (ThrowError 400 "VALIDTION_ERROR" "Invalid id"), st).
Proof. unfold malformed, ProjectService.projectDeatilsById. intros ->. reflexivity. Qed.

Lemma removeProjectById_malformed id (st : S) :
  malformed id →
  ProjectService.removeProjectById id st =
    (Throw (ThrowError 400 "VALIDTION_ERROR" "Invalid id"), st).
Proof. unfold malformed, ProjectService.removeProjectById. intros ->. reflexivity. Qed.

Lemma updateProjectStatusById_malformed now id status (st : S) :
  malformed id →
  ProjectService.updateProjectStatusById now id status st =
    (Throw (ThrowError 400 "VALIDTION_ERROR" "Invalid id"), st).
Proof. unfold malformed, ProjectService.updateProjectStatusById. intros ->. reflexivity. Qed.

Lemma collection_connected (st : S) :
  connected st = true → ProjectRepository.collection st = (Ok (), st).
Proof. unfold ProjectRepository.collection. by intros ->. Qed.

Lemma collection_disconnected (st : S) :
  connected st = false →
  ProjectRepository.collection st =
    (Throw (Error "Database not connected. Call Database.connect() first."),
     st).
Proof. unfold ProjectRepository.collection. by intros ->. Qed.

Lemma reached_connected {A} (operation : M S A) (st : S) :
  connected st = true → reached operation st = operation st.
Proof.
  intros H. unfold reached, mbind, M_bind.
  by rewrite (collection_connected st H).
Qed.

Lemma reached_disconnected {A} (operation : M S A) (st : S) :
  connected st = false →
  reached operation st =
    (Throw (Error "Database not connected. Call Database.connect() first."),
     st).
Proof.
  intros H. unfold reached, mbind, M_bind.
  by rewrite (collection_disconnected st H).
Qed.

(** With a well-formed identifier the answer of [projectDeatilsById] is
    decided by the store's [findOne]. *)
Lemma projectDeatilsById_well_formed id oid (st : S) :
  well_formed id → ObjectId.create id = Ok oid →
  ProjectService.projectDeatilsById id st =
    match reached (findOne (ProjectRepository.by_id oid)) st with
    | (Ok (Some d), st') => (Ok (ProjectRepository.to_details d), st')
    | (Ok None, st') =>
        (Throw (ThrowError 404 "NOT_FOUND" "Project not found"), st')
    | (Throw e, st') => (Throw e, st')
    end.
Proof.
  unfold well_formed, ProjectService.projectDeatilsById,
    ProjectRepository.getProjectDataById. intros -> Hc. simpl.
  unfold reached, mbind, M_bind, lift.
  destruct (ProjectRepository.collection st) as [[[]|e] st0]; [|reflexivity].
  rewrite Hc.
  destruct (findOne _ st0) as [[[d|]|e] st']; reflexivity.
Qed.

(** A status outside the enumeration is refused before the store is
    asked anything. *)
Lemma updateProjectStatusById_rejects_status now id status (st : S) :
  well_formed id → ¬ allowed_status status →
  ProjectService.updateProjectStatusById now id status st =
    (Throw (ThrowError 400 "VALIDATION_ERROR"
              "Invalid or missing project status"), st).
Proof.
  intros Hid Hst. unfold ProjectService.updateProjectStatusById.
  red in Hid. rewrite Hid. simpl negb. cbv iota.
  rewrite (status_test_rejects _ Hst). reflexivity.
Qed.

(** With a well-formed identifier and a status of the enumeration the
    answer is decided by what the store reports. *)
Lemma updateProjectStatusById_well_formed now id oid status (st : S) :
  well_formed id → ObjectId.create id = Ok oid → allowed_status status →
  ProjectService.updateProjectStatusById now id status st =
    match reached (countDocuments (ProjectRepository.by_id oid) (Some 1%nat))
            st with
    | (Throw e, st1) => (Throw e, st1)
    | (Ok exists_, st1) =>
        if (0 <? exists_)%nat then
          match reached (updateOne (ProjectRepository.by_id oid)
                           (mkSet (JsValue.text status) now)) st1 with
          | (Throw e, st2) => (Throw e, st2)
          | (Ok modifiedCount, st2) =>
              if (modifiedCount =? 1)%nat then (Ok (), st2)
              else (Throw (ThrowError 500 "FAILURE"
                             "Failed to update status of a  project"), st2)
          end
        else (Throw (ThrowError 404 "NOT_FOUND" "Project not found"), st1)
    end.
Proof.
  intros Hid Hc Hst.
  unfold ProjectService.updateProjectStatusById,
    ProjectRepository.getProjectExistanceById,
    ProjectRepository.updateProjectStatusById.
  red in Hid. rewrite Hid. simpl negb. cbv iota.
  rewrite (proj2 (status_test_spec status) Hst). simpl.
  unfold reached, mbind, M_bind, lift.
  destruct (ProjectRepository.collection st) as [[[]|e] st0]; [|reflexivity].
  rewrite Hc.
  destruct (countDocuments _ _ st0) as [[n|e] st1]; simpl; try reflexivity.
  destruct (0 <? n)%nat; simpl; try reflexivity.
  destruct (ProjectRepository.collection st1) as [[[]|e] st1']; [|reflexivity].
  destruct (updateOne _ _ st1') as [[d|e] st2]; simpl; try reflexivity.
  destruct (d =? 1)%nat; reflexivity.
Qed.

(** Without a connection the three operations that take an identifier
    throw the error of [Database.getDB()] once the identifier (and the
    status) have passed their tests. *)
Lemma service_disconnected now id status (st : S) :
  well_formed id → connected st = false →
  let e := Error "Database not connected. Call Database.connect() first." in
  ProjectService.projectDeatilsById id st = (Throw e, st) ∧
  ProjectService.removeProjectById id st = (Throw e, st) ∧
  (allowed_status status →
   ProjectService.updateProjectStatusById now id status st = (Throw e, st)).
Proof.
  unfold well_formed. intros Hid Hdb. simpl. split_and!.
  - unfold ProjectService.projectDeatilsById,
      ProjectRepository.getProjectDataById.
    rewrite Hid. simpl. unfold mbind, M_bind.
    by rewrite (collection_disconnected st Hdb).
  - unfold ProjectService.removeProjectById,
      ProjectRepository.getProjectExistanceById.
    rewrite Hid. simpl. unfold mbind, M_bind.
    by rewrite (collection_disconnected st Hdb).
  - intros Hst. unfold ProjectService.updateProjectStatusById,
      ProjectRepository.getProjectExistanceById.
    rewrite Hid. simpl negb. cbv iota.
    rewrite (proj2 (status_test_spec status) Hst). simpl.
    unfold mbind, M_bind.
    by rewrite (collection_disconnected st Hdb).
Qed.
End ServiceIds.

(** C4, at a failing input. For the malformed identifier ["abc"] the call
    [projectDeatilsById] fails with code 400 and leaves the store as it was,
    whatever the store is; the kind it reports is spelled
    ["VALIDTION_ERROR"], which is not ["VALIDATION_ERROR"]. *)
Theorem projectDeatilsById_abc_kind :
  ∀ (S : Type) (C : Collection S) (st : S),
    ProjectService.projectDeatilsById "abc" st =
      (Throw (ThrowError 400 "VALIDTION_ERROR" "Invalid id"), st) ∧
    "VALIDTION_ERROR" ≠ "VALIDATION_ERROR".
Proof.
  intros S C st. split.
  - apply projectDeatilsById_malformed. reflexivity.
  - discriminate.
Qed.

(** C9. [updateProjectStatusById] tests the status before it asks the store
    whether the project exists: for a well-formed identifier and a status
    that is absent or outside {active, on_hold, completed} the call fails
    with 400 VALIDATION_ERROR "Invalid or missing project status" and the
    store is not consulted; so this is also the answer when no record
    matches, and it is not a 404. *)
Theorem updateProjectStatusById_status_first :
  ∀ (S : Type) (C : Collection S) (now : Z) (id : string) (status : jsval)
    (st : S),
    well_formed id →
    ¬ allowed_status status →
    ProjectService.updateProjectStatusById now id status st =
      (Throw (ThrowError 400 "VALIDATION_ERROR"
                "Invalid or missing project status"), st) ∧
    (ProjectService.updateProjectStatusById now id status st).1 ≠
      Throw (ThrowError 404 "NOT_FOUND" "Project not found").
Proof.
  intros S C now id status st Hid Hst.
  rewrite (updateProjectStatusById_rejects_status now id status st Hid Hst).
  split; [reflexivity | simpl; discriminate].
Qed.

Lemma updateProjectStatusById_status_first_witness :
  documents Sample.three !! "aaaaaaaaaaaaaaaaaaaaaaaa" = None ∧
  ProjectService.updateProjectStatusById (C := Sample.collection)
    1700000100000 "aaaaaaaaaaaaaaaaaaaaaaaa" (JStr "archived") Sample.three =
    (Throw (ThrowError 400 "VALIDATION_ERROR"
              "Invalid or missing project status"), Sample.three).
Proof.
  split; [vm_compute; reflexivity|].
  apply (updateProjectStatusById_status_first MemStore Sample.collection
           1700000100000 "aaaaaaaaaaaaaaaaaaaaaaaa" (JStr "archived")
           Sample.three).
  - reflexivity.
  - intros [H|[H|H]]; discriminate H.
Defined.

(** ** Repository: malformed identifiers *)

Section RepositoryIds.
Context {S : Type} {C : Collection S}.

Lemma getProjectExistanceById_malformed id (st : S) :
  malformed id →
  ProjectRepository.getProjectExistanceById id st = (Ok false, st).
Proof.
  unfold malformed, ProjectRepository.getProjectExistanceById.
  intros ->. reflexivity.
Qed.

Lemma getProjectDataById_malformed id msg (st : S) :
  ObjectId.create id = Throw (BSONError msg) →
  ProjectRepository.getProjectDataById id st =
    if connected st then (Throw (BSONError msg), st)
    else (Throw (Error
            "Database not connected. Call Database.connect() first."), st).
Proof.
  unfold ProjectRepository.getProjectDataById, ProjectRepository.collection.
  unfold mbind, M_bind, lift. intros ->. by destruct (connected st).
Qed.

Lemma deleteProjectById_malformed id msg (st : S) :
  ObjectId.create id = Throw (BSONError msg) →
  ProjectRepository.deleteProjectById id st =
    if connected st then (Throw (BSONError msg), st)
    else (Throw (Error
            "Database not connected. Call Database.connect() first."), st).
Proof.
  unfold ProjectRepository.deleteProjectById, ProjectRepository.collection.
  unfold mbind, M_bind, lift. intros ->. by destruct (connected st).
Qed.

Lemma updateProjectStatusById_repo_malformed now id status msg (st : S) :
  ObjectId.create id = Throw (BSONError msg) →
  ProjectRepository.updateProjectStatusById now id status st =
    if connected st then (Throw (BSONError msg), st)
    else (Throw (Error
            "Database not connected. Call Database.connect() first."), st).
Proof.
  unfold ProjectRepository.updateProjectStatusById,
    ProjectRepository.collection.
  unfold mbind, M_bind, lift. intros ->. by destruct (connected st).
Qed.
End RepositoryIds.

(** C3, counterexample. With the malformed identifier ["abc"] the repository's
    [getProjectDataById] does not answer "not found": on a connected
    database it raises the [BSONError] of [new ObjectId]. *)
Lemma getProjectDataById_abc_raises :
  malformed "abc" ∧
  (ProjectRepository.getProjectDataById (C := Sample.collection) "abc"
     Sample.three).1 =
    Throw (BSONError
      "input must be a 24 character hex string, 12 byte Uint8Array, or an integer") ∧
  (ProjectRepository.getProjectDataById (C := Sample.collection) "abc"
     Sample.three).1 ≠ Ok None.
Proof.
  split; [reflexivity|].
  rewrite (getProjectDataById_malformed "abc" _ Sample.three eq_refl).
  split; [reflexivity | discriminate].
Qed.

(** Before [Database.connect()] the same call raises the error of
    [Database.getDB()], which is evaluated first, and not the [BSONError]. *)
Lemma getProjectDataById_abc_disconnected :
  ProjectRepository.getProjectDataById (C := Sample.disconnected) "abc"
    Sample.empty =
    (Throw (Error "Database not connected. Call Database.connect() first."),
     Sample.empty).
Proof. reflexivity. Qed.

(** C3, amended. For every malformed identifier, on every store:
    [getProjectExistanceById] returns [false] without a query, connected or
    not; [getProjectDataById], [deleteProjectById] and
    [updateProjectStatusById] raise an exception and leave the store as it
    was - the error of [Database.getDB()] when the database is not
    connected, the [BSONError] of [new ObjectId] when it is; and the three
    service operations that take an identifier fail with code 400 before
    they call the repository. *)
Theorem repository_malformed_id :
  ∀ (S : Type) (C : Collection S) (now : Z) (id : string)
    (status : STATUS_TYPE) (st : S),
    malformed id →
    ProjectRepository.getProjectExistanceById id st = (Ok false, st) ∧
    (∃ e,
       (if connected st
        then ∃ msg, e = BSONError msg ∧ ObjectId.create id = Throw e
        else e = Error "Database not connected. Call Database.connect() first.") ∧
       ProjectRepository.getProjectDataById id st = (Throw e, st) ∧
       ProjectRepository.deleteProjectById id st = (Throw e, st) ∧
       ProjectRepository.updateProjectStatusById now id status st =
         (Throw e, st)) ∧
    (∃ e,
       e = ThrowError 400 "VALIDTION_ERROR" "Invalid id" ∧
       ProjectService.projectDeatilsById id st = (Throw e, st) ∧
       ProjectService.removeProjectById id st = (Throw e, st) ∧
       ProjectService.updateProjectStatusById now id (JStr status) st =
         (Throw e, st)).
Proof.
  intros S C now id status st Hid. split; [|split].
  - by apply getProjectExistanceById_malformed.
  - destruct (create_malformed id Hid) as [msg Hmsg].
    rewrite (getProjectDataById_malformed id msg st Hmsg),
      (deleteProjectById_malformed id msg st Hmsg),
      (updateProjectStatusById_repo_malformed now id status msg st Hmsg).
    destruct (connected st).
    + exists (BSONError msg). split_and!; try reflexivity. by exists msg.
    + eexists. split_and!; reflexivity.
  - eexists. split; [reflexivity|]. repeat split.
    + by apply projectDeatilsById_malformed.
    + by apply removeProjectById_malformed.
    + by apply updateProjectStatusById_malformed.
Qed.

Lemma repository_malformed_id_witness :
  ProjectRepository.getProjectExistanceById (C := Sample.collection)
    "not-an-id" Sample.three = (Ok false, Sample.three).
Proof.
  apply (repository_malformed_id MemStore Sample.collection 0 "not-an-id"
           "active" Sample.three).
  reflexivity.
Defined.

(** ** Validator: the sections one by one *)

Lemma trim_empty : JsString.trim "" = "".
Proof. reflexivity. Qed.

Lemma nonblank_test v :
  nonblank v →
  negb (JsValue.truthy v) || negb (JsValue.is_string v) ||
  String.eqb (JsString.trim (JsValue.text v)) "" = false.
Proof.
  intros (s & -> & Hs). simpl.
  destruct s as [|a s]; [by rewrite trim_empty in Hs|]. simpl.
  by apply String.eqb_neq.
Qed.

Lemma check_clientName_nonblank v :
  nonblank v →
  ProjectValidator.check_clientName v = Ok (JsString.trim (JsValue.text v)).
Proof.
  intros H. unfold ProjectValidator.check_clientName.
  by rewrite (nonblank_test v H).
Qed.

Lemma check_name_nonblank v :
  nonblank v →
  ProjectValidator.check_name v = Ok (JsString.trim (JsValue.text v)).
Proof.
  intros H. unfold ProjectValidator.check_name.
  by rewrite (nonblank_test v H).
Qed.

Lemma check_description_given v :
  v = JUndefined ∨ nonblank v →
  ProjectValidator.check_description v =
    Ok (if JsValue.defined v then Some (JsString.trim (JsValue.text v)) else None).
Proof.
  intros [->|H]; [reflexivity|].
  unfold ProjectValidator.check_description.
  pose proof (nonblank_test v H) as E.
  destruct H as (s & -> & Hs). simpl in *.
  apply orb_false_elim in E as [_ E]. by rewrite E.
Qed.

Lemma check_status_allowed v :
  allowed_status v →
  ProjectValidator.check_status v = Ok (JsValue.text v).
Proof.
  intros H. unfold ProjectValidator.check_status.
  change ProjectValidator.ALLOWED_STATUSES with ProjectService.ALLOWED_STATUSES.
  by rewrite (proj2 (status_test_spec v) H).
Qed.

Lemma check_status_rejected v :
  ¬ allowed_status v →
  ProjectValidator.check_status v =
    ProjectValidator.invalid "Invalid or missing project status".
Proof.
  intros H. unfold ProjectValidator.check_status.
  change ProjectValidator.ALLOWED_STATUSES with ProjectService.ALLOWED_STATUSES.
  by rewrite (status_test_rejects v H).
Qed.

(** Each section either passes or fails with its own message. *)
Lemma check_clientName_cases v :
  (∃ c, ProjectValidator.check_clientName v = Ok c) ∨
  ProjectValidator.check_clientName v =
    ProjectValidator.invalid "Client name is required".
Proof.
  unfold ProjectValidator.check_clientName.
  destruct (_ || _); eauto.
Qed.

Lemma check_name_cases v :
  (∃ c, ProjectValidator.check_name v = Ok c) ∨
  ProjectValidator.check_name v =
    ProjectValidator.invalid "Project name is required".
Proof.
  unfold ProjectValidator.check_name.
  destruct (_ || _); eauto.
Qed.

Lemma check_description_cases v :
  (∃ c, ProjectValidator.check_description v = Ok c) ∨
  ProjectValidator.check_description v =
    ProjectValidator.invalid "Description must be a non-empty string if provided".
Proof.
  unfold ProjectValidator.check_description.
  destruct (JsValue.defined v); [destruct (_ || _)|]; eauto.
Qed.

Lemma createProject_up_to_startDate newDate now data start :
  passes_up_to_startDate newDate data start →
  ProjectValidator.createProject newDate now data =
    match ProjectValidator.check_endDate newDate start (Body.endDate data) with
    | Ok v_endDate =>
        Ok (ProjectProps.mk None
              (JsString.trim (JsValue.text (Body.name data)))
              (JsString.trim (JsValue.text (Body.clientName data)))
              (JsValue.text (Body.status data))
              (if JsValue.defined (Body.description data)
               then Some (JsString.trim (JsValue.text (Body.description data)))
               else None)
              start v_endDate now None)
    | Throw e => Throw e
    end.
Proof.
  intros (Hc & Hn & Hd & Hs & Ht & Hp).
  unfold ProjectValidator.createProject.
  rewrite (check_clientName_nonblank _ Hc), (check_name_nonblank _ Hn),
    (check_description_given _ Hd), (check_status_allowed _ Hs).
  unfold ProjectValidator.check_startDate. rewrite Ht, Hp. reflexivity.
Qed.

(** What an accepted payload looks like, field by field. *)
Lemma createProject_accepted newDate now data r :
  ProjectValidator.createProject newDate now data = Ok r →
  ∃ c n d s start e,
    ProjectValidator.check_clientName (Body.clientName data) = Ok c ∧
    ProjectValidator.check_name (Body.name data) = Ok n ∧
    ProjectValidator.check_description (Body.description data) = Ok d ∧
    ProjectValidator.check_status (Body.status data) = Ok s ∧
    ProjectValidator.check_startDate newDate (Body.startDate data) = Ok start ∧
    ProjectValidator.check_endDate newDate start (Body.endDate data) = Ok e ∧
    r = ProjectProps.mk None n c s d start e now None.
Proof.
  unfold ProjectValidator.createProject, mbind, outcome_bind, mret, outcome_ret.
  destruct (ProjectValidator.check_clientName _) as [c|] eqn:Ec; [|discriminate].
  destruct (ProjectValidator.check_name _) as [n|] eqn:En; [|discriminate].
  destruct (ProjectValidator.check_description _) as [d|] eqn:Ed; [|discriminate].
  destruct (ProjectValidator.check_status _) as [s|] eqn:Es; [|discriminate].
  destruct (ProjectValidator.check_startDate _ _) as [start|] eqn:Et;
    [|discriminate].
  destruct (ProjectValidator.check_endDate _ _ _) as [e|] eqn:Ee; [|discriminate].
  intros [= <-]. exists c, n, d, s, start, e. repeat split; assumption.
Qed.

Lemma check_endDate_ok newDate start v e :
  ProjectValidator.check_endDate newDate start v = Ok e →
  match e with
  | Some parsedEnd =>
      v ≠ JUndefined ∧ newDate v = ValidDate parsedEnd ∧ start <= parsedEnd
  | None => v = JUndefined
  end.
Proof.
  unfold ProjectValidator.check_endDate.
  destruct v; simpl; try (intros [= <-]; reflexivity);
    (destruct (newDate _) as [p| |]; [|discriminate|discriminate];
     destruct (Z.ltb_spec p start); [discriminate|];
     intros [= <-]; repeat split; [discriminate | lia]).
Qed.

(** C2, counterexample. The payload has an end date that does not parse, but
    no client name: the validator fails with "Client name is required", not
    with "End date must be a valid ISO date". *)
Lemma createProject_endDate_not_first :
  let data := Sample.body JUndefined (JStr "Website") (JStr "active")
                (JStr "2024-01-10") (JStr "soon") in
  Body.endDate data ≠ JUndefined ∧
  Sample.newDate (Body.endDate data) = InvalidDate ∧
  ProjectValidator.createProject Sample.newDate 1700000000000 data =
    Throw (ThrowError 400 "VALIDATION_ERROR" "Client name is required") ∧
  ProjectValidator.createProject Sample.newDate 1700000000000 data ≠
    Throw (ThrowError 400 "VALIDATION_ERROR" "End date must be a valid ISO date").
Proof.
  simpl. split; [discriminate|]. split; [reflexivity|].
  split; [reflexivity|]. vm_compute. discriminate.
Qed.

(** C2, amended. (1) Every record the validator produces has an end date
    exactly when the payload has one, it is the parsed end date, and it is
    not before the start date. (2) For a payload with an end date whose
    earlier sections pass (client name, name, description, status, start
    date): when [new Date(endDate)] returns, an end date that does not
    parse fails with 400 VALIDATION_ERROR "End date must be a valid ISO
    date", one strictly before the parsed start date fails with "End date
    cannot be before start date", and any other is the end date of the
    record; when [new Date(endDate)] throws (a [TypeError]), the validator
    throws the same error and reports no validation message. *)
Theorem createProject_endDate :
  ∀ (newDate : jsval → DateResult) (now : Z) (data : Body.t),
    (∀ r, ProjectValidator.createProject newDate now data = Ok r →
       match ProjectProps.endDate r with
       | Some e =>
           Body.endDate data ≠ JUndefined ∧
           newDate (Body.endDate data) = ValidDate e ∧
           ProjectProps.startDate r <= e
       | None => Body.endDate data = JUndefined
       end) ∧
    (∀ start,
       Body.endDate data ≠ JUndefined →
       passes_up_to_startDate newDate data start →
       match newDate (Body.endDate data) with
       | InvalidDate =>
           ProjectValidator.createProject newDate now data =
             Throw (ThrowError 400 "VALIDATION_ERROR"
                      "End date must be a valid ISO date")
       | ValidDate e =>
           (e < start →
            ProjectValidator.createProject newDate now data =
              Throw (ThrowError 400 "VALIDATION_ERROR"
                       "End date cannot be before start date")) ∧
           (start <= e →
            ∃ r, ProjectValidator.createProject newDate now data = Ok r ∧
                 ProjectProps.endDate r = Some e ∧
                 ProjectProps.startDate r = start)
       | DateThrows message =>
           ProjectValidator.createProject newDate now data =
             Throw (TypeError message)
       end).
Proof.
  intros newDate now data. split.
  - intros r Hr.
    destruct (createProject_accepted _ _ _ _ Hr)
      as (c & n & d & s & start & e & _ & _ & _ & _ & _ & He & ->).
    simpl. exact (check_endDate_ok _ _ _ _ He).
  - intros start Hdef Hpass.
    rewrite (createProject_up_to_startDate _ now _ _ Hpass).
    unfold ProjectValidator.check_endDate.
    destruct (Body.endDate data) eqn:E; try congruence; simpl;
      (destruct (newDate _) as [p| |]; [|reflexivity|reflexivity];
       split; intros Hlt;
       [ by rewrite (proj2 (Z.ltb_lt p start) Hlt)
       | rewrite (proj2 (Z.ltb_ge p start) Hlt); eauto ]).
Qed.

Lemma createProject_endDate_witness :
  ProjectValidator.createProject Sample.newDate 1700000000000
    (Sample.body (JStr "Acme") (JStr "Website") (JStr "active")
       (JStr "2024-01-10") (JStr "2024-01-05")) =
    Throw (ThrowError 400 "VALIDATION_ERROR"
             "End date cannot be before start date").
Proof.
  pose proof (proj2 (createProject_endDate Sample.newDate 1700000000000
    (Sample.body (JStr "Acme") (JStr "Website") (JStr "active")
       (JStr "2024-01-10") (JStr "2024-01-05"))) 1704844800000) as H.
  simpl in H. apply H.
  - discriminate.
  - unfold passes_up_to_startDate. simpl. split_and!.
    + exists "Acme". split; [reflexivity | vm_compute; discriminate].
    + exists "Website". split; [reflexivity | vm_compute; discriminate].
    + by left.
    + by left.
    + reflexivity.
    + reflexivity.
  - vm_compute. reflexivity.
Defined.

(** ** Creation: a rejected payload never reaches the store *)

Section Creation.
Context {S : Type} {C : Collection S}.

Lemma createProject_rejected newDate now data e (st : S) :
  ProjectValidator.createProject newDate now data = Throw e →
  ProjectService.createProject newDate now data st = (Throw e, st).
Proof.
  unfold ProjectService.createProject, mbind, M_bind, lift.
  intros ->. reflexivity.
Qed.
End Creation.

(** The first section that fails decides the message. *)
Lemma createProject_status_rejected newDate now data :
  ¬ allowed_status (Body.status data) →
  ∃ message,
    ProjectValidator.createProject newDate now data =
      ProjectValidator.invalid message ∧
    message ∈ [ "Client name is required"; "Project name is required";
                "Description must be a non-empty string if provided";
                "Invalid or missing project status" ] ∧
    (nonblank (Body.clientName data) →
     nonblank (Body.name data) →
     Body.description data = JUndefined ∨ nonblank (Body.description data) →
     message = "Invalid or missing project status").
Proof.
  intros Hs. unfold ProjectValidator.createProject.
  destruct (check_clientName_cases (Body.clientName data)) as [[c Ec]|Ec].
  2:{ exists "Client name is required". rewrite Ec. split_and!;
        [reflexivity | set_solver |].
      intros H. by rewrite (check_clientName_nonblank _ H) in Ec. }
  destruct (check_name_cases (Body.name data)) as [[n En]|En].
  2:{ exists "Project name is required". rewrite Ec, En. split_and!;
        [reflexivity | set_solver |].
      intros _ H. by rewrite (check_name_nonblank _ H) in En. }
  destruct (check_description_cases (Body.description data)) as [[d Ed]|Ed].
  2:{ exists "Description must be a non-empty string if provided".
      rewrite Ec, En, Ed. split_and!; [reflexivity | set_solver |].
      intros _ _ H. by rewrite (check_description_given _ H) in Ed. }
  exists "Invalid or missing project status".
  rewrite Ec, En, Ed, (check_status_rejected _ Hs).
  split_and!; [reflexivity | set_solver | done].
Qed.

(** C5, counterexample. The payload has a status outside the enumeration and
    no client name: creation fails with "Client name is required", not with
    "Invalid or missing project status". *)
Lemma createProject_status_not_first :
  let data := Sample.body JUndefined (JStr "Website") (JStr "archived")
                (JStr "2024-01-10") JUndefined in
  ¬ allowed_status (Body.status data) ∧
  ProjectService.createProject (C := Sample.collection) Sample.newDate
      1700000000000 data Sample.empty =
    (Throw (ThrowError 400 "VALIDATION_ERROR" "Client name is required"),
     Sample.empty) ∧
  "Client name is required" ≠ "Invalid or missing project status".
Proof.
  simpl. split_and!.
  - intros [H|[H|H]]; discriminate H.
  - reflexivity.
  - discriminate.
Qed.

(** C5, amended. For every creation payload whose status is absent or not
    one of {active, on_hold, completed}, on every store, [createProject]
    fails with a 400 VALIDATION_ERROR and leaves the store as it was (nothing
    is inserted); the message is that of the first section that fails, and it
    is "Invalid or missing project status" whenever the client name, the name
    and the description pass their sections. *)
Theorem createProject_invalid_status :
  ∀ (S : Type) (C : Collection S) (newDate : jsval → DateResult) (now : Z)
    (data : Body.t) (st : S),
    ¬ allowed_status (Body.status data) →
    ∃ message,
      ProjectService.createProject newDate now data st =
        (Throw (ThrowError 400 "VALIDATION_ERROR" message), st) ∧
      message ∈ [ "Client name is required"; "Project name is required";
                  "Description must be a non-empty string if provided";
                  "Invalid or missing project status" ] ∧
      (nonblank (Body.clientName data) →
       nonblank (Body.name data) →
       Body.description data = JUndefined ∨ nonblank (Body.description data) →
       message = "Invalid or missing project status").
Proof.
  intros S C newDate now data st Hs.
  destruct (createProject_status_rejected newDate now data Hs)
    as (message & E & Hin & Hmsg).
  exists message. split_and!; [|exact Hin|exact Hmsg].
  by apply createProject_rejected.
Qed.

Lemma createProject_invalid_status_witness :
  ∃ message,
    ProjectService.createProject (C := Sample.collection) Sample.newDate
      1700000000000
      (Sample.body (JStr "Acme") (JStr "Website") (JStr "archived")
         (JStr "2024-01-10") JUndefined)
      Sample.three =
      (Throw (ThrowError 400 "VALIDATION_ERROR" message), Sample.three) ∧
    message = "Invalid or missing project status".
Proof.
  destruct (createProject_invalid_status MemStore Sample.collection
              Sample.newDate 1700000000000
              (Sample.body (JStr "Acme") (JStr "Website") (JStr "archived")
                 (JStr "2024-01-10") JUndefined)
              Sample.three) as (message & E & _ & Hmsg).
  - intros [H|[H|H]]; discriminate H.
  - exists message. split; [exact E|]. apply Hmsg.
    + exists "Acme". split; [reflexivity | vm_compute; discriminate].
    + exists "Website". split; [reflexivity | vm_compute; discriminate].
    + by left.
Defined.

(** ** The in-memory collection, queried by identifier *)

Lemma filter_by_key {A} (l : list (string * A)) (k : string) :
  NoDup l.*1 →
  (∀ x, (k, x) ∈ l → List.filter (λ d, String.eqb d.1 k) l = [(k, x)]) ∧
  (k ∉ l.*1 → List.filter (λ d, String.eqb d.1 k) l = []).
Proof.
  induction l as [|[k' x'] l IH]; simpl; intros Hnd.
  - split; [intros x Hx; by apply elem_of_nil in Hx | done].
  - apply NoDup_cons in Hnd as [Hk' Hnd]. destruct (IH Hnd) as [IH1 IH2].
    split.
    + intros x Hx. apply elem_of_cons in Hx as [[= <- <-]|Hx].
      * rewrite String.eqb_refl. by rewrite IH2.
      * assert (k ≠ k') as Hne.
        { intros ->. apply Hk'. apply list_elem_of_fmap. by exists (k', x). }
        rewrite (proj2 (String.eqb_neq k' k)) by done. by apply IH1.
    + intros Hk. apply not_elem_of_cons in Hk as [Hne Hk].
      rewrite (proj2 (String.eqb_neq k' k)) by done. by apply IH2.
Qed.

Lemma selected_by_id rx (oid : ObjectId.t) (st : MemStore) :
  Mem.selected rx (ProjectRepository.by_id oid) st =
    match documents st !! oid with
    | Some p => [(oid, p)]
    | None => []
    end.
Proof.
  unfold Mem.selected.
  rewrite (List.filter_ext (Mem.matches rx (ProjectRepository.by_id oid))
             (λ d, String.eqb d.1 oid)).
  2:{ intros d. unfold Mem.matches. simpl. by rewrite !andb_true_r. }
  destruct (filter_by_key (map_to_list (documents st)) oid
              (NoDup_fst_map_to_list _)) as [H1 H2].
  destruct (documents st !! oid) as [p|] eqn:E.
  - apply H1. by apply elem_of_map_to_list.
  - apply H2. intros Hin. apply list_elem_of_fmap in Hin as [[k x] [Hk Hx]].
    simpl in Hk. subst k. apply elem_of_map_to_list in Hx.
    unfold ObjectId.t in *. congruence.
Qed.

(** ** Removal *)

Section Removal.
Context {S : Type} {C : Collection S}.

(** [removeProjectById] in terms of what the store reports: the existence
    query comes first, and [deleteOne] is called only after it found the
    project. *)
Lemma removeProjectById_well_formed id oid (st : S) :
  well_formed id → ObjectId.create id = Ok oid →
  ProjectService.removeProjectById id st =
    match reached (countDocuments (ProjectRepository.by_id oid) (Some 1%nat))
            st with
    | (Throw e, st1) => (Throw e, st1)
    | (Ok exists_, st1) =>
        if (0 <? exists_)%nat then
          match reached (deleteOne (ProjectRepository.by_id oid)) st1 with
          | (Throw e, st2) => (Throw e, st2)
          | (Ok deletedCount, st2) =>
              if (deletedCount =? 1)%nat then (Ok (), st2)
              else (Throw (ThrowError 500 "FAILURE" "Failed to delete project"),
                    st2)
          end
        else (Throw (ThrowError 404 "NOT_FOUND" "Project not found"), st1)
    end.
Proof.
  unfold well_formed, ProjectService.removeProjectById,
    ProjectRepository.getProjectExistanceById,
    ProjectRepository.deleteProjectById.
  intros Hv Hc. rewrite Hv. simpl. unfold reached, mbind, M_bind, lift.
  destruct (ProjectRepository.collection st) as [[[]|e] st0]; [|reflexivity].
  rewrite Hc.
  destruct (countDocuments _ _ st0) as [[n|e] st1]; simpl; try reflexivity.
  destruct (0 <? n)%nat; simpl; try reflexivity.
  destruct (ProjectRepository.collection st1) as [[[]|e] st1']; [|reflexivity].
  destruct (deleteOne _ st1') as [[d|e] st2]; simpl; try reflexivity.
  destruct (d =? 1)%nat; reflexivity.
Qed.
End Removal.

(** The in-memory collection is that of a connected database. *)
Lemma reached_mem {A} rx (operation : M MemStore A) (st : MemStore) :
  reached (C := Mem.collection rx) operation st = operation st.
Proof. reflexivity. Qed.

Ltac reach_mem :=
  unfold reached, ProjectRepository.collection, mbind, M_bind; simpl.

(** C7. (1) On every store and for every well-formed identifier,
    [removeProjectById] first asks the store whether the project exists; when
    the store finds none it fails with 404 NOT_FOUND and [deleteOne] is not
    called (the state is the one the query left); when the project exists and
    the store reports a [deletedCount] other than 1 it fails with 500
    FAILURE; otherwise it succeeds. (2) On the in-memory collection a missing
    project gives 404 with the store unchanged, and deleting an existing
    project succeeds, removes exactly that document, and deleting it again
    fails with 404. *)
Theorem removeProjectById_spec :
  (∀ (S : Type) (C : Collection S) (id : string) (st : S),
     well_formed id →
     ∃ oid, ObjectId.create id = Ok oid ∧
     ∀ exists_ st1,
       countDocuments (ProjectRepository.by_id oid) (Some 1%nat) st =
         (Ok exists_, st1) →
       (exists_ = 0%nat →
        ProjectService.removeProjectById id st =
          (Throw (ThrowError 404 "NOT_FOUND" "Project not found"), st1)) ∧
       (∀ deletedCount st2,
          (0 < exists_)%nat →
          deleteOne (ProjectRepository.by_id oid) st1 = (Ok deletedCount, st2) →
          (deletedCount ≠ 1%nat →
           ProjectService.removeProjectById id st =
             (Throw (ThrowError 500 "FAILURE" "Failed to delete project"), st2)) ∧
          (deletedCount = 1%nat →
           ProjectService.removeProjectById id st = (Ok (), st2)))) ∧
  (∀ (rx : string → string → bool) (id : string) (oid : ObjectId.t)
     (st : MemStore),
     well_formed id → ObjectId.create id = Ok oid →
     (documents st !! oid = None →
      ProjectService.removeProjectById (C := Mem.collection rx) id st =
        (Throw (ThrowError 404 "NOT_FOUND" "Project not found"), st)) ∧
     (∀ p, documents st !! oid = Some p →
        ∃ st',
          ProjectService.removeProjectById (C := Mem.collection rx) id st =
            (Ok (), st') ∧
          documents st' = delete oid (documents st) ∧
          ProjectService.removeProjectById (C := Mem.collection rx) id st' =
            (Throw (ThrowError 404 "NOT_FOUND" "Project not found"), st'))).
Proof.
  split.
  - intros S C id st Hid.
    destruct (create_well_formed id Hid) as [oid Hoid].
    exists oid. split; [exact Hoid|].
    intros n st1 Hcount.
    rewrite (removeProjectById_well_formed id oid st Hid Hoid).
    rewrite (reached_connected _ st (countDocuments_connected _ _ _ _ _ Hcount)).
    rewrite Hcount.
    split.
    + by intros ->.
    + intros d st2 Hn Hdel.
      rewrite (proj2 (Nat.ltb_lt 0 n) Hn).
      rewrite (reached_connected _ st1 (deleteOne_connected _ _ _ _ Hdel)).
      rewrite Hdel.
      split.
      * intros Hd. by rewrite (proj2 (Nat.eqb_neq d 1) Hd).
      * by intros ->.
  - intros rx id oid st Hid Hoid.
    assert (Hnone : ∀ st0 : MemStore, documents st0 !! oid = None →
      ProjectService.removeProjectById (C := Mem.collection rx) id st0 =
        (Throw (ThrowError 404 "NOT_FOUND" "Project not found"), st0)).
    { intros st0 E.
      rewrite (removeProjectById_well_formed id oid st0 Hid Hoid).
      reach_mem.
      unfold Mem.mem_countDocuments. by rewrite selected_by_id, E. }
    split; [apply Hnone|].
    intros p E.
    exists (mkStore (delete oid (documents st)) (generated st)).
    split_and!.
    + rewrite (removeProjectById_well_formed id oid st Hid Hoid).
      reach_mem.
      unfold Mem.mem_countDocuments, Mem.mem_deleteOne.
      by rewrite !selected_by_id, E.
    + reflexivity.
    + apply Hnone. simpl. apply lookup_delete_eq.
Qed.

Lemma removeProjectById_spec_witness :
  (∃ st',
     ProjectService.removeProjectById (C := Sample.collection)
       "000000000000000000000001" Sample.three = (Ok (), st') ∧
     ProjectService.removeProjectById (C := Sample.collection)
       "000000000000000000000001" st' =
       (Throw (ThrowError 404 "NOT_FOUND" "Project not found"), st')) ∧
  (∃ st2,
     ProjectService.removeProjectById (C := Sample.raced)
       "000000000000000000000001" Sample.three =
       (Throw (ThrowError 500 "FAILURE" "Failed to delete project"), st2)).
Proof.
  split.
  - destruct (proj2 removeProjectById_spec Sample.regex_test
                "000000000000000000000001" "000000000000000000000001"
                Sample.three eq_refl eq_refl) as [_ H].
    destruct (H (ProjectProps.with_id
                   (Sample.project "Audit" "Globex" "on_hold" 1701388800000
                      (Some 1709251200000) 1700000001000)
                   "000000000000000000000001"))
      as (st' & H1 & _ & H2).
    + vm_compute. reflexivity.
    + exists st'. split; assumption.
  - destruct (proj1 removeProjectById_spec MemStore Sample.raced
                "000000000000000000000001" Sample.three eq_refl)
      as (oid & Hoid & H).
    injection Hoid as <-.
    eexists.
    refine (proj1 (proj2 (H 1%nat Sample.three _) 0%nat _ _ _) _).
    + vm_compute. reflexivity.
    + lia.
    + reflexivity.
    + discriminate.
Defined.

(** ** Generated identifiers are well formed *)

Lemma hex_digit_ok (d : N) :
  (d < 16)%N →
  ObjectId.is_hex (Mem.hex_digit d) = true ∧
  ObjectId.lower (Mem.hex_digit d) = Mem.hex_digit d.
Proof.
  intros Hd.
  assert (d = 0 ∨ d = 1 ∨ d = 2 ∨ d = 3 ∨ d = 4 ∨ d = 5 ∨ d = 6 ∨ d = 7 ∨
          d = 8 ∨ d = 9 ∨ d = 10 ∨ d = 11 ∨ d = 12 ∨ d = 13 ∨ d = 14 ∨
          d = 15)%N as H by lia.
  repeat (destruct H as [->|H]; [split; reflexivity|]).
  subst d. split; reflexivity.
Qed.

Lemma hex24_chars (n : N) :
  JsString.chars (Mem.hex24 n) =
    map (λ i, Mem.hex_digit ((n / 16 ^ N.of_nat i) mod 16)%N) (rev (seq 0 24)).
Proof.
  unfold Mem.hex24, JsString.chars, JsString.of_chars.
  apply String.list_ascii_of_string_of_list_ascii.
Qed.

Lemma hex24_well_formed (n : N) : well_formed (Mem.hex24 n).
Proof.
  unfold well_formed, ObjectId.isValid. rewrite hex24_chars.
  apply andb_true_intro. split.
  - reflexivity.
  - apply forallb_forall. intros c Hc. apply in_map_iff in Hc as (i & <- & _).
    apply hex_digit_ok. apply N.mod_lt. lia.
Qed.

Lemma hex24_create (n : N) : ObjectId.create (Mem.hex24 n) = Ok (Mem.hex24 n).
Proof.
  unfold ObjectId.create. rewrite (hex24_well_formed n). f_equal.
  rewrite hex24_chars, List.map_map.
  erewrite List.map_ext.
  - unfold Mem.hex24. reflexivity.
  - intros i. apply hex_digit_ok. apply N.mod_lt. lia.
Qed.

Lemma hex24_truthy (n : N) : JsString.truthy (Mem.hex24 n) = true.
Proof. reflexivity. Qed.

(** ** Creation on the in-memory collection *)

Lemma createProject_mem rx newDate now data (st : MemStore) res st' :
  ProjectService.createProject (C := Mem.collection rx) newDate now data st =
    (Ok res, st') →
  let id := Mem.hex24 (generated st) in
  ∃ v,
    ProjectValidator.createProject newDate now data = Ok v ∧
    res = ProjectProps.with_id v id ∧
    documents st !! id = None ∧
    st' = mkStore (<[id := res]> (documents st)) (generated st + 1).
Proof.
  unfold ProjectService.createProject, ProjectRepository.createProject.
  unfold mbind, M_bind, lift, mret, M_ret. simpl.
  destruct (ProjectValidator.createProject newDate now data) as [v|e];
    [|discriminate].
  unfold Mem.mem_insertOne.
  destruct (documents st !! Mem.hex24 (generated st)) eqn:E; [discriminate|].
  cbn [ProjectProps._id ProjectProps.with_id]. unfold ObjectId.toString.
  rewrite hex24_truthy. cbn [negb].
  intros [= <- <-]. exists v. done.
Qed.

Lemma check_description_ok v d :
  ProjectValidator.check_description v = Ok d →
  d = if JsValue.defined v then Some (JsString.trim (JsValue.text v)) else None.
Proof.
  unfold ProjectValidator.check_description.
  destruct (JsValue.defined v); [destruct (_ || _)|]; by intros [= <-].
Qed.

Lemma check_endDate_defined newDate start v e :
  ProjectValidator.check_endDate newDate start v = Ok e →
  ProjectProps.own e "endDate" =
    if JsValue.defined v then ["endDate"] else [].
Proof.
  unfold ProjectValidator.check_endDate.
  destruct (JsValue.defined v); [|by intros [= <-]].
  destruct (newDate v) as [parsedEnd| |]; [|discriminate|discriminate].
  destruct (_ <? _); [discriminate|]. by intros [= <-].
Qed.

(** C10. For every payload the validator accepts, the properties of the
    record it returns are name, clientName, status, startDate and createdAt,
    with description and endDate exactly when the payload has them; it has
    no [_id] and no [updatedAt]. When such a payload is created on the
    in-memory collection, the stored document is the returned record (the
    validated fields and the new identifier) without an [updatedAt], this
    is what [projectDeatilsById] reads back, and a status update that
    succeeds sets [updatedAt] to its clock reading. *)
Theorem createProject_fields :
  ∀ (newDate : jsval → DateResult) (now : Z) (data : Body.t),
    (∀ r, ProjectValidator.createProject newDate now data = Ok r →
       ProjectProps.keys r =
         (["name"; "clientName"; "status"] ++
          (if JsValue.defined (Body.description data)
           then ["description"] else []) ++
          ["startDate"] ++
          (if JsValue.defined (Body.endDate data) then ["endDate"] else []) ++
          ["createdAt"])%list ∧
       ProjectProps._id r = None ∧
       ProjectProps.updatedAt r = None) ∧
    (∀ rx (st : MemStore) res st',
       ProjectService.createProject (C := Mem.collection rx) newDate now data st =
         (Ok res, st') →
       ∃ id,
         ProjectProps._id res = Some id ∧
         documents st' !! id = Some res ∧
         ProjectProps.updatedAt res = None ∧
         (∃ details,
            ProjectService.projectDeatilsById (C := Mem.collection rx) id st' =
              (Ok details, st') ∧
            ProjectDetails.updatedAt details = None) ∧
         (∀ now' status st'',
            ProjectService.updateProjectStatusById (C := Mem.collection rx)
              now' id status st' = (Ok (), st'') →
            ∃ p, documents st'' !! id = Some p ∧
                 ProjectProps.updatedAt p = Some now' ∧
                 JStr (ProjectProps.status p) = status)).
Proof.
  intros newDate now data. split.
  - intros r Hr.
    destruct (createProject_accepted _ _ _ _ Hr)
      as (c & n & d & s & start & e & _ & _ & Hd & _ & _ & He & ->).
    unfold ProjectProps.keys. simpl.
    rewrite (check_endDate_defined _ _ _ _ He), (check_description_ok _ _ Hd).
    split_and!; [|reflexivity|reflexivity].
    by destruct (JsValue.defined (Body.description data)).
  - intros rx st res st' Hcreate.
    destruct (createProject_mem _ _ _ _ _ _ _ Hcreate) as (v & Hv & Hres & Hfresh & Hst').
    set (id := Mem.hex24 (generated st)) in *.
    destruct (createProject_accepted _ _ _ _ Hv)
      as (c & n & d & s & start & e & _ & _ & _ & _ & _ & _ & Ev).
    assert (Hup : ProjectProps.updatedAt res = None) by (by subst res v).
    assert (Hlook : documents st' !! id = Some res).
    { subst st'. simpl. apply lookup_insert_eq. }
    exists id. split_and!.
    + by subst res.
    + exact Hlook.
    + exact Hup.
    + exists (ProjectRepository.to_details (id, res)). split; [|exact Hup].
      rewrite (projectDeatilsById_well_formed id id st'
                 (hex24_well_formed _) (hex24_create _)).
      reach_mem. unfold Mem.mem_findOne. rewrite selected_by_id.
      unfold ObjectId.t in *. by rewrite Hlook.
    + intros now' status st'' Hupd.
      destruct (negb (JsValue.truthy status) ||
                negb (JsValue.included ProjectService.ALLOWED_STATUSES status))
        eqn:Est.
      { rewrite (updateProjectStatusById_rejects_status now' id status st')
          in Hupd; [discriminate | apply hex24_well_formed |].
        intros Hal. apply status_test_spec in Hal. congruence. }
      apply status_test_spec in Est.
      rewrite (updateProjectStatusById_well_formed now' id id status st'
                 (hex24_well_formed _) (hex24_create _) Est) in Hupd.
      unfold reached, ProjectRepository.collection, mbind, M_bind in Hupd.
      simpl in Hupd. unfold Mem.mem_countDocuments, Mem.mem_updateOne in Hupd.
      rewrite !selected_by_id in Hupd. unfold ObjectId.t in *.
      rewrite Hlook in Hupd. simpl in Hupd.
      destruct (decide _) as [|Hne] in Hupd; [discriminate|].
      simpl in Hupd. injection Hupd as <-.
      eexists. split; [simpl; apply lookup_insert_eq|]. simpl.
      split; [reflexivity|].
      by destruct Est as [->|[->| ->]].
Qed.

Lemma createProject_fields_witness :
  (∃ r,
     ProjectValidator.createProject Sample.newDate 1700000000000
       (Sample.body (JStr " Acme ") (JStr "Website") (JStr "active")
          (JStr "2024-01-10") (JStr "2024-03-01")) = Ok r ∧
     ProjectProps.keys r =
       ["name"; "clientName"; "status"; "startDate"; "endDate"; "createdAt"]) ∧
  (∃ res st',
     ProjectService.createProject (C := Sample.collection) Sample.newDate
       1700000000000
       (Sample.body (JStr " Acme ") (JStr "Website") (JStr "active")
          (JStr "2024-01-10") (JStr "2024-03-01")) Sample.three =
       (Ok res, st') ∧
     ∃ id, documents st' !! id = Some res ∧ ProjectProps.updatedAt res = None).
Proof.
  pose proof (createProject_fields Sample.newDate 1700000000000
    (Sample.body (JStr " Acme ") (JStr "Website") (JStr "active")
       (JStr "2024-01-10") (JStr "2024-03-01"))) as [H1 H2].
  split.
  - eexists. split; [vm_compute; reflexivity|].
    refine (proj1 (H1 _ _)). vm_compute. reflexivity.
  - eexists. eexists. split; [vm_compute; reflexivity|].
    edestruct (H2 Sample.regex_test Sample.three) as (id & _ & Hl & Hu & _);
      [vm_compute; reflexivity|].
    exists id. split; [exact Hl | exact Hu].
Defined.

(** ** Ordering documents *)

Section SortFacts.
Context {A : Type} (le : A → A → bool).
Hypothesis le_total : ∀ a b, le a b = false → le b a = true.
Hypothesis le_trans : ∀ a b c, le a b = true → le b c = true → le a c = true.

Lemma insert_permutation x l : Cursor.insert le x l ≡ₚ x :: l.
Proof.
  induction l as [|y l IH]; simpl; [done|].
  destruct (le x y); [done|]. rewrite IH. apply perm_swap.
Qed.

Lemma sort_permutation l : Cursor.sort le l ≡ₚ l.
Proof.
  induction l as [|x l IH]; simpl; [done|].
  fold (Cursor.sort le l). by rewrite insert_permutation, IH.
Qed.

Lemma insert_sorted x l :
  StronglySorted (λ a b, le a b = true) l →
  StronglySorted (λ a b, le a b = true) (Cursor.insert le x l).
Proof.
  induction l as [|y l IH]; simpl; intros Hl.
  - repeat constructor.
  - apply StronglySorted_inv in Hl as [Hl Hy].
    destruct (le x y) eqn:E.
    + constructor; [by constructor|].
      constructor; [done|].
      eapply Forall_impl; [exact Hy|]. simpl. eauto.
    + constructor; [by apply IH|].
      rewrite insert_permutation. constructor; [by apply le_total | done].
Qed.

Lemma sort_sorted l : StronglySorted (λ a b, le a b = true) (Cursor.sort le l).
Proof.
  induction l as [|x l IH]; simpl; [constructor|].
  by apply insert_sorted.
Qed.
End SortFacts.

Lemma key_le_total a b : Cursor.key_le a b = false → Cursor.key_le b a = true.
Proof.
  destruct a as [x|], b as [y|]; simpl; try done.
  intros H. apply Z.leb_gt in H. apply Z.leb_le. lia.
Qed.

Lemma key_le_trans a b c :
  Cursor.key_le a b = true → Cursor.key_le b c = true → Cursor.key_le a c = true.
Proof.
  destruct a as [x|], b as [y|], c as [z|]; simpl; try done.
  rewrite !Z.leb_le. lia.
Qed.

Lemma before_total key order a b :
  Cursor.before key order a b = false → Cursor.before key order b a = true.
Proof. unfold Cursor.before. destruct (order <? 0); apply key_le_total. Qed.

Lemma before_trans key order a b c :
  Cursor.before key order a b = true → Cursor.before key order b c = true →
  Cursor.before key order a c = true.
Proof.
  unfold Cursor.before. destruct (order <? 0); eauto using key_le_trans.
Qed.

(** A one-key specification leaves the documents in the order of that
    key. *)
Lemma by_spec_sorted key order l :
  StronglySorted (λ a b, Cursor.before key order a b = true)
    (Cursor.by_spec [(key, order)] l).
Proof.
  simpl. apply sort_sorted; [apply before_total | apply before_trans].
Qed.

Lemma by_spec_length spec l : length (Cursor.by_spec spec l) = length l.
Proof.
  induction spec as [|[key order] spec IH]; simpl; [done|].
  by rewrite (Permutation_length (sort_permutation _ _)).
Qed.

Lemma StronglySorted_take {A} (R : A → A → Prop) n l :
  StronglySorted R l → StronglySorted R (take n l).
Proof.
  intros H. rewrite <-(take_drop n l) in H. by apply StronglySorted_app_1_l in H.
Qed.

Lemma StronglySorted_drop {A} (R : A → A → Prop) n l :
  StronglySorted R l → StronglySorted R (drop n l).
Proof.
  intros H. rewrite <-(take_drop n l) in H. by apply StronglySorted_app_1_r in H.
Qed.

Lemma StronglySorted_map {A B} (f : A → B) (R : B → B → Prop) l :
  StronglySorted (λ a b, R (f a) (f b)) l → StronglySorted R (map f l).
Proof.
  induction 1 as [|x l Hl IH Hx]; simpl; constructor; [done|].
  by apply Forall_map.
Qed.

Lemma StronglySorted_weaken {A} (R R' : A → A → Prop) l :
  (∀ a b, R a b → R' a b) → StronglySorted R l → StronglySorted R' l.
Proof.
  intros HR. induction 1 as [|x l Hl IH Hx]; constructor; [done|].
  eapply Forall_impl; [exact Hx|]. auto.
Qed.

Lemma skip_ok n l l' : Mem.skip n l = Ok l' → ∃ k, l' = drop k l.
Proof. unfold Mem.skip. destruct (JsNumber.to_nat n); intros [= <-]. eauto. Qed.

Lemma limit_ok n l l' : Mem.limit n l = Ok l' → l' = l ∨ ∃ k, l' = take k l.
Proof.
  unfold Mem.limit. destruct (JsNumber.to_Z n) as [[| |]|]; intros [= <-]; eauto.
Qed.

(** ** Listing on the in-memory collection *)

Lemma replace_first_no_dash s : no_dash s = true → JsString.replace_first "-" s = s.
Proof.
  induction s as [|a s IH]; simpl; [done|].
  intros H. apply andb_prop in H as [Ha Hs]. apply negb_true_iff in Ha.
  rewrite Ha. by rewrite IH.
Qed.

(** [replace] and the specification's reading agree on a token that starts
    with ['-'] and on a token without any ['-']. *)
Lemma replace_first_regular s :
  JsString.startsWith s "-" = true ∨ no_dash s = true →
  JsString.replace_first "-" s = strip_leading_dash s.
Proof.
  destruct s as [|a s]; [done|]. simpl. intros [H|H].
  - by rewrite H.
  - apply andb_prop in H as [Ha Hs]. apply negb_true_iff in Ha.
    rewrite Ha. by rewrite replace_first_no_dash.
Qed.

Lemma sortOption_of_absent sort :
  sort = None ∨ sort = Some "" →
  ProjectService.sortOption_of sort = Ok [("createdAt", -1)].
Proof. by intros [-> | ->]. Qed.

Lemma sortOption_of_token s :
  s ≠ "" →
  ProjectService.sortOption_of (Some s) =
    if JsString.includes ProjectService.allowedSortFields
         (JsString.replace_first "-" s)
    then Ok [(JsString.replace_first "-" s,
              if JsString.startsWith s "-" then -1 else 1)]
    else Throw (ThrowError 400 "Invalid Sort Field"
                  "Sorting not allowed on this field").
Proof. by destruct s. Qed.

Lemma includes_allowedSortFields field :
  JsString.includes ProjectService.allowedSortFields field = true ↔
  field = "createdAt" ∨ field = "startDate".
Proof.
  unfold JsString.includes. simpl.
  rewrite !orb_true_iff, !String.eqb_eq. intuition discriminate.
Qed.

(** Every specification the service builds has one key, one of the two
    sortable fields, with order [1] or [-1]. *)
Lemma sortOption_of_ok sort spec :
  ProjectService.sortOption_of sort = Ok spec →
  ∃ field order,
    spec = [(field, order)] ∧
    (field = "createdAt" ∨ field = "startDate") ∧
    (order = 1 ∨ order = -1).
Proof.
  unfold ProjectService.sortOption_of.
  destruct (ProjectService.given sort) as [s|].
  - destruct (JsString.includes _ _) eqn:E; [|discriminate].
    intros [= <-]. eexists _, _. split; [reflexivity|].
    split; [by apply includes_allowedSortFields|].
    destruct (JsString.startsWith s "-"); auto.
  - intros [= <-]. eexists _, _. split; [reflexivity|]. auto.
Qed.

Section ListingMem.
Variable rx : string → string → bool.

(** [listProjects] on the in-memory collection: the documents the filter
    selects are ordered, [skip] of them are dropped and [limit] kept; the
    total counts every selected document. *)
Lemma listProjects_mem params spec (st : MemStore) :
  ProjectService.sortOption_of (ListProjectsParams.sort params) = Ok spec →
  ProjectService.listProjects (C := Mem.collection rx) params st =
    let page := ListProjectsParams.page params in
    let limit := ListProjectsParams.limit params in
    let found := Mem.selected rx (ProjectService.filter_of params) st in
    match Mem.skip (ProjectService.skip_of page limit)
            (Cursor.by_spec spec found) with
    | Ok l =>
        match Mem.limit limit l with
        | Ok l' =>
            (Ok (mkList (map ProjectRepository.to_list_item l')
                   (mkPagination (length found) page limit
                      (JsNumber.ceil
                         (JsNumber.div (JsNumber.of_nat (length found)) limit)))),
             st)
        | Throw e => (Throw e, st)
        end
    | Throw e => (Throw e, st)
    end.
Proof.
  intros Hs. unfold ProjectService.listProjects, ProjectRepository.listProjects.
  unfold mbind, M_bind, lift. rewrite Hs. simpl.
  unfold Mem.mem_find_toArray.
  destruct (Mem.skip _ _) as [l|e]; [|reflexivity].
  destruct (Mem.limit _ l) as [l'|e]; reflexivity.
Qed.

Lemma listProjects_rejected params e (st : MemStore) :
  ProjectService.sortOption_of (ListProjectsParams.sort params) = Throw e →
  ProjectService.listProjects (C := Mem.collection rx) params st = (Throw e, st).
Proof.
  intros Hs. unfold ProjectService.listProjects, mbind, M_bind, lift.
  by rewrite Hs.
Qed.

Lemma before_item field order a b :
  field = "createdAt" ∨ field = "startDate" →
  Cursor.before field order a b = true →
  if order <? 0
  then item_date field (ProjectRepository.to_list_item b) <=
       item_date field (ProjectRepository.to_list_item a)
  else item_date field (ProjectRepository.to_list_item a) <=
       item_date field (ProjectRepository.to_list_item b).
Proof.
  unfold Cursor.before, item_date.
  intros [-> | ->]; simpl; destruct (order <? 0); simpl;
    by rewrite Z.leb_le.
Qed.

(** The page [listProjects] returns is in the order of the specification. *)
Lemma listProjects_ordered params field order (st : MemStore) r st' :
  ProjectService.sortOption_of (ListProjectsParams.sort params) =
    Ok [(field, order)] →
  ProjectService.listProjects (C := Mem.collection rx) params st = (Ok r, st') →
  ordered_on field (order <? 0) (list_data r).
Proof.
  intros Hs Hr.
  destruct (sortOption_of_ok _ _ Hs) as (f & o & [= <- <-] & Hf & _).
  rewrite (listProjects_mem _ _ _ Hs) in Hr. simpl in Hr.
  destruct (Mem.skip _ _) as [l|] eqn:Hskip; [|discriminate].
  destruct (Mem.limit _ l) as [l'|] eqn:Hlimit; [|discriminate].
  injection Hr as <- <-. simpl.
  apply StronglySorted_map.
  assert (Hsorted : StronglySorted
            (λ a b, Cursor.before field order a b = true) l').
  { apply skip_ok in Hskip as [k ->].
    pose proof (StronglySorted_drop _ k _
      (sort_sorted (Cursor.before field order) (before_total field order)
         (before_trans field order)
         (Mem.selected rx (ProjectService.filter_of params) st))) as Hd.
    apply limit_ok in Hlimit as [-> | [k' ->]]; [exact Hd|].
    by apply StronglySorted_take. }
  eapply StronglySorted_weaken; [|exact Hsorted].
  intros a b Hab. by apply before_item.
Qed.
End ListingMem.

(** On a token that starts with ['-'] or has no ['-'] at all, and on an
    absent (or empty) token, [listProjects] does what the specification
    says: the field after the leading ['-'] is refused unless it is
    createdAt or startDate, the page is ordered on it, descending exactly
    when the token starts with ['-'], and without a token the page is in
    descending order of createdAt. *)
Lemma listProjects_regular_token rx params (st : MemStore) :
  (∀ s, ListProjectsParams.sort params = Some s → s ≠ "" →
     JsString.startsWith s "-" = true ∨ no_dash s = true →
     let field := strip_leading_dash s in
     (field ≠ "createdAt" → field ≠ "startDate" →
      ProjectService.listProjects (C := Mem.collection rx) params st =
        (Throw (ThrowError 400 "Invalid Sort Field"
                  "Sorting not allowed on this field"), st)) ∧
     (field = "createdAt" ∨ field = "startDate" →
      ∀ r st',
        ProjectService.listProjects (C := Mem.collection rx) params st =
          (Ok r, st') →
        ordered_on field (JsString.startsWith s "-") (list_data r))) ∧
  (ListProjectsParams.sort params = None ∨
   ListProjectsParams.sort params = Some "" →
   ∀ r st',
     ProjectService.listProjects (C := Mem.collection rx) params st =
       (Ok r, st') →
     ordered_on "createdAt" true (list_data r)).
Proof.
  split.
  - intros s Hs Hne Hreg field. subst field.
    pose proof (sortOption_of_token s Hne) as Ht.
    rewrite (replace_first_regular s Hreg) in Ht. rewrite <-Hs in Ht at 1.
    split.
    + intros H1 H2. apply listProjects_rejected. rewrite Ht.
      destruct (JsString.includes _ _) eqn:E; [|done].
      apply includes_allowedSortFields in E as [E|E]; contradiction.
    + intros Hf r st' Hr.
      rewrite (proj2 (includes_allowedSortFields _) Hf) in Ht.
      pose proof (listProjects_ordered rx params _ _ st r st' Ht Hr) as Ho.
      by destruct (JsString.startsWith s "-").
  - intros Hs r st' Hr.
    exact (listProjects_ordered rx params _ _ st r st'
             (sortOption_of_absent _ Hs) Hr).
Qed.

(** C1, at a failing input. The token ["start-Date"] has no leading ['-'],
    so the field it names is ["start-Date"], which is neither createdAt nor
    startDate; yet [listProjects] does not fail: [replace] removes the inner
    ['-'], the field becomes startDate, and the three sample projects come
    back in ascending order of startDate. *)
Theorem listProjects_inner_dash :
  strip_leading_dash "start-Date" = "start-Date" ∧
  ProjectService.sortOption_of (Some "start-Date") = Ok [("startDate", 1)] ∧
  ∃ r,
    ProjectService.listProjects (C := Sample.collection)
      (ListProjectsParams.mk (Fin 1) (Fin 10) None None (Some "start-Date"))
      Sample.three = (Ok r, Sample.three) ∧
    map ProjectListItem.startDate (list_data r) =
      [1701388800000; 1704844800000; 1706745600000].
Proof.
  split; [reflexivity|]. split; [reflexivity|].
  eexists. split; vm_compute; reflexivity.
Qed.

(** ** Whole numbers as JavaScript numbers *)

Lemma Qred_inject_Z z : Qred (inject_Z z) = inject_Z z.
Proof. apply Qred_identity. simpl. apply Z.gcd_1_r. Qed.

Lemma of_Z_sub a b :
  JsNumber.sub (JsNumber.of_Z a) (JsNumber.of_Z b) = JsNumber.of_Z (a - b).
Proof.
  unfold JsNumber.sub, JsNumber.of_Z. f_equal.
  unfold Qminus. rewrite <-inject_Z_opp, <-inject_Z_plus.
  apply Qred_inject_Z.
Qed.

Lemma of_Z_mul a b :
  JsNumber.mul (JsNumber.of_Z a) (JsNumber.of_Z b) = JsNumber.of_Z (a * b).
Proof.
  unfold JsNumber.mul, JsNumber.of_Z. f_equal.
  rewrite <-inject_Z_mult. apply Qred_inject_Z.
Qed.

Lemma to_Z_of_Z z : JsNumber.to_Z (JsNumber.of_Z z) = Some z.
Proof.
  unfold JsNumber.to_Z, JsNumber.of_Z. rewrite Qfloor_Z.
  by rewrite Qeq_bool_refl.
Qed.

Lemma to_nat_of_Z z :
  0 <= z → JsNumber.to_nat (JsNumber.of_Z z) = Some (Z.to_nat z).
Proof.
  intros Hz. unfold JsNumber.to_nat, JsNumber.of_Z. rewrite Qfloor_Z.
  rewrite Qeq_bool_refl. by rewrite (proj2 (Z.leb_le 0 z) Hz).
Qed.

(** [(page - 1) * limit] on whole numbers. *)
Lemma skip_of_nat (p l : nat) :
  (1 <= p)%nat →
  ProjectService.skip_of (JsNumber.of_nat p) (JsNumber.of_nat l) =
    JsNumber.of_nat ((p - 1) * l).
Proof.
  intros Hp. unfold ProjectService.skip_of, JsNumber.of_nat.
  change (Fin 1) with (JsNumber.of_Z 1).
  rewrite of_Z_sub, of_Z_mul. f_equal.
  rewrite Nat2Z.inj_mul, Nat2Z.inj_sub by lia. reflexivity.
Qed.

(** [Math.ceil(total / limit)] on whole numbers is the least [k] with
    [total <= k * limit]. *)
Lemma ceil_div_nat (t l : nat) :
  (1 <= l)%nat →
  ∃ k : Z,
    JsNumber.ceil (JsNumber.div (JsNumber.of_nat t) (JsNumber.of_nat l)) =
      JsNumber.of_Z k ∧
    (k - 1) * Z.of_nat l < Z.of_nat t <= k * Z.of_nat l.
Proof.
  intros Hl. unfold JsNumber.div, JsNumber.of_nat, JsNumber.of_Z, JsNumber.ceil.
  assert (Hpos : (0 < inject_Z (Z.of_nat l))%Q).
  { rewrite <-(Zlt_Qlt 0). lia. }
  assert (Hz : JsNumber.is_zero (inject_Z (Z.of_nat l)) = false).
  { unfold JsNumber.is_zero. apply not_true_is_false. intros H.
    apply Qeq_bool_eq in H. rewrite H in Hpos. by apply Qlt_irrefl in Hpos. }
  rewrite Hz. set (x := Qred _). exists (Qceiling x). split; [reflexivity|].
  assert (Hx : (x * inject_Z (Z.of_nat l) == inject_Z (Z.of_nat t))%Q).
  { unfold x. rewrite Qred_correct. field. intros H. rewrite H in Hpos.
    by apply Qlt_irrefl in Hpos. }
  split.
  - rewrite Zlt_Qlt, inject_Z_mult, <-Hx.
    apply Qmult_lt_r; [exact Hpos|]. apply Qceiling_lt.
  - rewrite Zle_Qle, inject_Z_mult, <-Hx.
    apply Qmult_le_r; [exact Hpos|]. apply Qle_ceiling.
Qed.

Lemma limit_nat (l : nat) (docs : list WithId) :
  (1 <= l)%nat → Mem.limit (JsNumber.of_nat l) docs = Ok (take l docs).
Proof.
  intros Hl. unfold Mem.limit, JsNumber.of_nat. rewrite to_Z_of_Z.
  destruct (Z.of_nat l) as [|q|q] eqn:E; try lia.
  rewrite <-E. by rewrite Zabs2Nat.id.
Qed.

Lemma skip_nat (k : nat) (docs : list WithId) :
  Mem.skip (JsNumber.of_nat k) docs = Ok (drop k docs).
Proof.
  unfold Mem.skip, JsNumber.of_nat. rewrite to_nat_of_Z by lia.
  by rewrite Nat2Z.id.
Qed.

(** ** The list endpoint *)

Section ListEndpoint.
Context {S : Type} {C : Collection S}.

(** The handler wraps what the service returns. *)
Lemma listProjects_success query r (st st' : S) :
  ProjectService.listProjects (ProjectController.list_params query) st =
    (Ok r, st') →
  ProjectController.listProjects query st =
    (Ok (sendSuccess 200 "Projects List" "Data fetched successfully" (Some r)),
     st').
Proof.
  intros H. unfold ProjectController.listProjects, try_catch, mbind, M_bind.
  by rewrite H.
Qed.

Lemma listProjects_failure query e (st st' : S) :
  ProjectService.listProjects (ProjectController.list_params query) st =
    (Throw e, st') →
  ProjectController.listProjects query st =
    (Ok (ProjectController.on_error e), st').
Proof.
  intros H. unfold ProjectController.listProjects, try_catch, mbind, M_bind.
  by rewrite H.
Qed.
End ListEndpoint.

(** What a successful [listProjects] did, on any store: the sort token was
    accepted, the cursor was run with skip [(page - 1) * limit] and the
    limit, the matching documents were counted, and the result carries the
    mapped documents with the metadata. *)
Lemma listProjects_returns {S : Type} {C : Collection S} params r (st st' : S) :
  ProjectService.listProjects params st = (Ok r, st') →
  let page := ListProjectsParams.page params in
  let limit := ListProjectsParams.limit params in
  let filter := ProjectService.filter_of params in
  ∃ spec projectsRaw st1 total,
    ProjectService.sortOption_of (ListProjectsParams.sort params) = Ok spec ∧
    find_toArray filter spec
      (JsNumber.mul (JsNumber.sub page (Fin 1)) limit) limit st =
      (Ok projectsRaw, st1) ∧
    countDocuments filter None st1 = (Ok total, st') ∧
    r = mkList (map ProjectRepository.to_list_item projectsRaw)
          (mkPagination total page limit
             (JsNumber.ceil (JsNumber.div (JsNumber.of_nat total) limit))).
Proof.
  unfold ProjectService.listProjects, ProjectRepository.listProjects.
  unfold ProjectRepository.collection.
  unfold mbind, M_bind, lift, mret, M_ret, ProjectService.skip_of.
  destruct (ProjectService.sortOption_of _) as [spec|]; [|discriminate].
  destruct (connected st); [|discriminate].
  destruct (find_toArray _ _ _ _ st) as [[raw|] st1] eqn:Hfind; [|discriminate].
  destruct (countDocuments _ _ st1) as [[total|] st2] eqn:Hcount;
    [|discriminate].
  intros [= <- <-]. by exists spec, raw, st1, total.
Qed.

(** [Math.ceil(total / limit)] for a limit that is a whole number other
    than zero. *)
Lemma ceil_div_Z (t : nat) (b : Z) :
  b ≠ 0 →
  JsNumber.ceil (JsNumber.div (JsNumber.of_nat t) (JsNumber.of_Z b)) =
    JsNumber.of_Z (Qceiling (inject_Z (Z.of_nat t) / inject_Z b)).
Proof.
  intros Hb. unfold JsNumber.div, JsNumber.of_nat, JsNumber.of_Z, JsNumber.ceil.
  assert (Hz : JsNumber.is_zero (inject_Z b) = false).
  { unfold JsNumber.is_zero. apply not_true_is_false. intros H.
    apply Qeq_bool_eq in H. apply Hb.
    unfold Qeq in H. simpl in H. lia. }
  rewrite Hz. do 2 f_equal. apply Qceiling_comp, Qred_correct.
Qed.

(** C6. (1) In the list handler [page] is 1 and [limit] is 10 when the query
    parameter is absent or not numeric ([Number] gives [NaN]).
    (2) On every store, a list call whose [page] and [limit] are safe
    integers [a] and [b], with [a - 1] and [(a - 1) * b] safe, and that
    returns, has run the cursor with skip [(a - 1) * b] and limit [b], and
    its metadata is the total the store counted, page, limit and, for a
    safe total and [b] other than zero, totalPages = the ceiling of
    [total / b].
    (3) On the in-memory collection, for whole numbers [page >= 1] and
    [limit >= 1] with [page * limit] safe and a safe number of selected
    documents, the call returns the ordered selection without its first
    [(page - 1) * limit] documents, cut to [limit], total is the number of
    selected documents and totalPages is the least [k] with
    [total <= k * limit].
    (4) With [page = 3], [limit = 10] and 25 selected documents the handler
    answers 200 with 5 items, total 25 and totalPages 3. *)
Theorem listProjects_pagination :
  (∀ query : Query.t,
     (Number (Query.page query) = NaN →
      ListProjectsParams.page (ProjectController.list_params query) = Fin 1) ∧
     (Number (Query.limit query) = NaN →
      ListProjectsParams.limit (ProjectController.list_params query) = Fin 10)) ∧
  (∀ (S : Type) (C : Collection S) (params : ListProjectsParams.t)
     (r : ProjectList) (st st' : S) (a b : Z),
     ProjectService.listProjects params st = (Ok r, st') →
     ListProjectsParams.page params = JsNumber.of_Z a →
     ListProjectsParams.limit params = JsNumber.of_Z b →
     safe a → safe b → safe (a - 1) → safe ((a - 1) * b) →
     let filter := ProjectService.filter_of params in
     ∃ spec projectsRaw st1 counted,
       ProjectService.sortOption_of (ListProjectsParams.sort params) = Ok spec ∧
       find_toArray filter spec
         (JsNumber.of_Z ((a - 1) * b)) (JsNumber.of_Z b) st =
         (Ok projectsRaw, st1) ∧
       countDocuments filter None st1 = (Ok counted, st') ∧
       list_data r = map ProjectRepository.to_list_item projectsRaw ∧
       total (pagination r) = counted ∧
       page (pagination r) = JsNumber.of_Z a ∧
       limit (pagination r) = JsNumber.of_Z b ∧
       (b ≠ 0 → safe (Z.of_nat counted) →
        totalPages (pagination r) =
          JsNumber.of_Z
            (Qceiling (inject_Z (Z.of_nat counted) / inject_Z b)))) ∧
  (∀ (rx : string → string → bool) (params : ListProjectsParams.t)
     (st : MemStore) (p l : nat) spec,
     let found := Mem.selected rx (ProjectService.filter_of params) st in
     ListProjectsParams.page params = JsNumber.of_nat p →
     ListProjectsParams.limit params = JsNumber.of_nat l →
     (1 <= p)%nat → (1 <= l)%nat →
     safe (Z.of_nat (p * l)) → safe (Z.of_nat (length found)) →
     ProjectService.sortOption_of (ListProjectsParams.sort params) = Ok spec →
     ∃ k : Z,
       (k - 1) * Z.of_nat l < Z.of_nat (length found) <= k * Z.of_nat l ∧
       ProjectService.listProjects (C := Mem.collection rx) params st =
         (Ok (mkList
                (map ProjectRepository.to_list_item
                   (take l (drop ((p - 1) * l) (Cursor.by_spec spec found))))
                (mkPagination (length found) (JsNumber.of_nat p)
                   (JsNumber.of_nat l) (JsNumber.of_Z k))),
          st)) ∧
  (∀ (rx : string → string → bool) (query : Query.t) (st : MemStore) spec,
     let params := ProjectController.list_params query in
     ListProjectsParams.page params = Fin 3 →
     ListProjectsParams.limit params = Fin 10 →
     length (Mem.selected rx (ProjectService.filter_of params) st) = 25%nat →
     ProjectService.sortOption_of (Query.sort query) = Ok spec →
     ∃ r,
       ProjectController.listProjects (C := Mem.collection rx) query st =
         (Ok (sendSuccess 200 "Projects List" "Data fetched successfully"
                (Some r)), st) ∧
       length (list_data r) = 5%nat ∧
       total (pagination r) = 25%nat ∧
       totalPages (pagination r) = Fin 3).
Proof.
  assert (Hwhole : ∀ (rx : string → string → bool)
     (params : ListProjectsParams.t) (st : MemStore) (p l : nat) spec,
     let found := Mem.selected rx (ProjectService.filter_of params) st in
     ListProjectsParams.page params = JsNumber.of_nat p →
     ListProjectsParams.limit params = JsNumber.of_nat l →
     (1 <= p)%nat → (1 <= l)%nat →
     ProjectService.sortOption_of (ListProjectsParams.sort params) = Ok spec →
     ∃ k : Z,
       (k - 1) * Z.of_nat l < Z.of_nat (length found) <= k * Z.of_nat l ∧
       ProjectService.listProjects (C := Mem.collection rx) params st =
         (Ok (mkList
                (map ProjectRepository.to_list_item
                   (take l (drop ((p - 1) * l) (Cursor.by_spec spec found))))
                (mkPagination (length found) (JsNumber.of_nat p)
                   (JsNumber.of_nat l) (JsNumber.of_Z k))),
          st)).
  { intros rx params st p l spec found Hp Hl Hp1 Hl1 Hs.
    destruct (ceil_div_nat (length found) l Hl1) as (k & Hk & Hbounds).
    exists k. split; [exact Hbounds|].
    rewrite (listProjects_mem rx params spec st Hs). cbv zeta.
    fold found. rewrite Hp, Hl.
    rewrite (skip_of_nat p l Hp1), skip_nat, (limit_nat l _ Hl1).
    by rewrite Hk. }
  split_and!.
  - intros query. unfold ProjectController.list_params. simpl.
    split; by intros ->.
  - intros S C params r st st' a b Hr Ha Hb _ _ _ _ filter.
    destruct (listProjects_returns params r st st' Hr)
      as (spec & raw & st1 & counted & Hs & Hfind & Hcount & ->).
    rewrite Ha, Hb in Hfind. change (Fin 1) with (JsNumber.of_Z 1) in Hfind.
    rewrite of_Z_sub, of_Z_mul in Hfind.
    exists spec, raw, st1, counted. simpl. rewrite Ha, Hb.
    split_and!; try done.
    intros Hb0 _. by apply ceil_div_Z.
  - intros rx params st p l spec found Hp Hl Hp1 Hl1 _ _ Hs.
    by apply Hwhole.
  - intros rx query st spec params Hp Hl Hfound Hs.
    destruct (Hwhole rx params st 3%nat 10%nat spec Hp Hl
                ltac:(lia) ltac:(lia) Hs) as (k & Hbounds & Hrun).
    eexists. split; [apply listProjects_success, Hrun|]. simpl.
    rewrite Hfound in Hbounds. assert (k = 3) as -> by lia.
    split_and!; [|exact Hfound|reflexivity].
    rewrite length_map, length_take, length_drop, by_spec_length, Hfound.
    reflexivity.
Qed.

Lemma listProjects_pagination_witness :
  ∃ r,
    ProjectController.listProjects (C := Sample.collection)
      (Query.mk (Some "3") (Some "10") None None None) Sample.twenty_five =
      (Ok (sendSuccess 200 "Projects List" "Data fetched successfully"
             (Some r)), Sample.twenty_five) ∧
    length (list_data r) = 5%nat ∧
    total (pagination r) = 25%nat ∧
    totalPages (pagination r) = Fin 3.
Proof.
  refine (proj2 (proj2 (proj2 listProjects_pagination)) Sample.regex_test
            (Query.mk (Some "3") (Some "10") None None None)
            Sample.twenty_five [("createdAt", -1)] _ _ _ _).
  - vm_compute. reflexivity.
  - vm_compute. reflexivity.
  - vm_compute. reflexivity.
  - reflexivity.
Defined.

(** ** Zero and negative [page] and [limit] *)

Lemma truthy_zero q : (q == 0)%Q → JsNumber.truthy (Fin q) = false.
Proof.
  intros H. unfold JsNumber.truthy, JsNumber.is_zero.
  by rewrite (proj2 (Qeq_bool_iff q 0) H).
Qed.

Lemma truthy_negative q : (q < 0)%Q → JsNumber.truthy (Fin q) = true.
Proof.
  intros H. unfold JsNumber.truthy, JsNumber.is_zero.
  apply negb_true_iff, not_true_is_false. intros E.
  apply Qeq_bool_eq in E. rewrite E in H. by apply Qlt_irrefl in H.
Qed.

(** C8, counterexample. With [page=-1] and [limit=-10] both negative
    numbers are passed to the service as they are, and the skip
    [(-1 - 1) * -10] is 20, which is not negative. *)
Lemma negative_page_and_limit_skip :
  let params := ProjectController.list_params
                  (Query.mk (Some "-1") (Some "-10") None None None) in
  ListProjectsParams.page params = Fin (-1) ∧
  ListProjectsParams.limit params = Fin (-10) ∧
  ProjectService.skip_of (ListProjectsParams.page params)
    (ListProjectsParams.limit params) = Fin 20 ∧
  ¬ (20 < 0)%Q.
Proof.
  simpl. split_and!; try reflexivity. intros H. discriminate H.
Qed.

(** C8, amended. In the list handler a [page] or [limit] parameter whose
    number is zero gives the same parameters as an absent one (page 1,
    limit 10); a negative safe integer is passed to the service as it is;
    and for a page [a] and a limit [b] that are safe integers, with [a - 1]
    and [(a - 1) * b] safe, the skip the service computes is [(a - 1) * b],
    which is negative exactly when [a < 1] with a positive [b], or [a > 1]
    with a negative [b] - so a negative page with the default or any
    positive limit gives a negative skip. *)
Theorem list_params_zero_negative :
  ∀ (query : Query.t),
    let params := ProjectController.list_params query in
    (∀ q, Number (Query.page query) = Fin q → (q == 0)%Q →
       ListProjectsParams.page params = Fin 1 ∧
       params = ProjectController.list_params
                  (Query.mk None (Query.limit query) (Query.status query)
                     (Query.search query) (Query.sort query))) ∧
    (∀ q, Number (Query.limit query) = Fin q → (q == 0)%Q →
       ListProjectsParams.limit params = Fin 10 ∧
       params = ProjectController.list_params
                  (Query.mk (Query.page query) None (Query.status query)
                     (Query.search query) (Query.sort query))) ∧
    (∀ z, Number (Query.page query) = JsNumber.of_Z z → z < 0 → safe z →
       ListProjectsParams.page params = JsNumber.of_Z z) ∧
    (∀ z, Number (Query.limit query) = JsNumber.of_Z z → z < 0 → safe z →
       ListProjectsParams.limit params = JsNumber.of_Z z) ∧
    (∀ a b,
       ListProjectsParams.page params = JsNumber.of_Z a →
       ListProjectsParams.limit params = JsNumber.of_Z b →
       safe a → safe b → safe (a - 1) → safe ((a - 1) * b) →
       ProjectService.skip_of (ListProjectsParams.page params)
         (ListProjectsParams.limit params) = JsNumber.of_Z ((a - 1) * b) ∧
       ((a - 1) * b < 0 ↔ a < 1 ∧ 0 < b ∨ 1 < a ∧ b < 0) ∧
       (a < 0 → 0 < b → (a - 1) * b < 0)).
Proof.
  intros query params. unfold params, ProjectController.list_params.
  simpl. split_and!.
  - intros q Hq Hz. rewrite Hq. unfold JsNumber.or.
    by rewrite (truthy_zero q Hz).
  - intros q Hq Hz. rewrite Hq. unfold JsNumber.or.
    by rewrite (truthy_zero q Hz).
  - intros z Hq Hn _. unfold JsNumber.or. rewrite Hq.
    unfold JsNumber.of_Z. rewrite truthy_negative; [done|].
    change (inject_Z z < inject_Z 0)%Q. by rewrite <-Zlt_Qlt.
  - intros z Hq Hn _. unfold JsNumber.or. rewrite Hq.
    unfold JsNumber.of_Z. rewrite truthy_negative; [done|].
    change (inject_Z z < inject_Z 0)%Q. by rewrite <-Zlt_Qlt.
  - intros a b -> -> _ _ _ _. split_and!.
    + unfold ProjectService.skip_of. change (Fin 1) with (JsNumber.of_Z 1).
      by rewrite of_Z_sub, of_Z_mul.
    + destruct (Z.lt_trichotomy a 1) as [Ha|[Ha|Ha]],
        (Z.lt_trichotomy b 0) as [Hb|[Hb|Hb]];
        split; intros H; try nia; try (subst; lia);
        try (left; split; lia); try (right; split; lia).
    + nia.
Qed.

Lemma list_params_zero_negative_witness :
  ProjectController.list_params (Query.mk (Some "0") (Some "0") None None None) =
    ProjectController.list_params (Query.mk None None None None None) ∧
  ListProjectsParams.page
    (ProjectController.list_params
       (Query.mk (Some "-1") None None None None)) = Fin (-1) ∧
  ProjectService.skip_of (Fin (-1)) (Fin 10) = Fin (-20).
Proof.
  pose proof (list_params_zero_negative
    (Query.mk (Some "0") (Some "0") None None None)) as (Hp & Hl & _).
  pose proof (list_params_zero_negative
    (Query.mk (Some "-1") None None None None)) as (_ & _ & Hn & _ & Hs).
  split_and!.
  - etransitivity; [exact (proj2 (Hp 0%Q eq_refl ltac:(reflexivity)))|].
    exact (proj2 (proj1 (proj2 (list_params_zero_negative
             (Query.mk None (Some "0") None None None)))
             0%Q eq_refl ltac:(reflexivity))).
  - apply (Hn (-1)); [reflexivity | lia | unfold safe; simpl; lia].
  - apply (Hs (-1) 10); try reflexivity; unfold safe; simpl; lia.
Defined.

(* ===================================================================== *)
(** * Further properties                                                  *)
(* ===================================================================== *)

(** ** Validator: what is accepted, and how a payload is refused *)

Lemma nonblank_of_test v :
  negb (JsValue.truthy v) || negb (JsValue.is_string v) ||
  String.eqb (JsString.trim (JsValue.text v)) "" = false →
  nonblank v.
Proof.
  intros H. apply orb_false_elim in H as [H Ht].
  apply orb_false_elim in H as [_ Hs]. apply negb_false_iff in Hs.
  destruct v; try discriminate. exists s. split; [done|].
  by apply String.eqb_neq.
Qed.

Lemma check_clientName_inv v c :
  ProjectValidator.check_clientName v = Ok c →
  nonblank v ∧ c = JsString.trim (JsValue.text v).
Proof.
  unfold ProjectValidator.check_clientName.
  destruct (_ || _) eqn:E; [discriminate|]. intros [= <-].
  split; [by apply nonblank_of_test | done].
Qed.

Lemma check_name_inv v c :
  ProjectValidator.check_name v = Ok c →
  nonblank v ∧ c = JsString.trim (JsValue.text v).
Proof.
  unfold ProjectValidator.check_name.
  destruct (_ || _) eqn:E; [discriminate|]. intros [= <-].
  split; [by apply nonblank_of_test | done].
Qed.

Lemma check_description_inv v d :
  ProjectValidator.check_description v = Ok d →
  v = JUndefined ∨ nonblank v.
Proof.
  unfold ProjectValidator.check_description.
  destruct v; simpl; auto; try discriminate.
  destruct (String.eqb _ _) eqn:E; [discriminate|]. intros _. right.
  exists s. split; [done|]. by apply String.eqb_neq.
Qed.

Lemma check_status_inv v s :
  ProjectValidator.check_status v = Ok s →
  allowed_status v ∧ s = JsValue.text v.
Proof.
  unfold ProjectValidator.check_status.
  change ProjectValidator.ALLOWED_STATUSES with ProjectService.ALLOWED_STATUSES.
  destruct (_ || _) eqn:E; [discriminate|]. intros [= <-].
  split; [by apply status_test_spec | done].
Qed.

Lemma check_startDate_inv newDate v start :
  ProjectValidator.check_startDate newDate v = Ok start →
  JsValue.truthy v = true ∧ newDate v = ValidDate start.
Proof.
  unfold ProjectValidator.check_startDate.
  destruct (JsValue.truthy v); simpl; [|discriminate].
  destruct (newDate v); [|discriminate|discriminate]. by intros [= <-].
Qed.

Lemma check_endDate_value newDate start v e :
  ProjectValidator.check_endDate newDate start v = Ok e →
  e = if JsValue.defined v then time_value (newDate v) else None.
Proof.
  unfold ProjectValidator.check_endDate.
  destruct (JsValue.defined v); [|by intros [= <-]].
  destruct (newDate v); [|discriminate|discriminate].
  destruct (_ <? _); [discriminate|]. by intros [= <-].
Qed.

(** X1. The validator accepts a payload exactly when every rule holds: the
    client name and the name are non-blank strings, the description is
    absent or a non-blank string, the status is of the enumeration, the
    start date is truthy and parses, and the end date is absent or parses to
    a date that is not before the start date. The record it returns then
    holds the trimmed strings, the parsed dates and the clock reading, and
    nothing else. *)
Theorem createProject_accepts_iff :
  ∀ (newDate : jsval → DateResult) (now : Z) (data : Body.t)
    (r : ProjectProps.t),
    ProjectValidator.createProject newDate now data = Ok r ↔
    ∃ start,
      passes_up_to_startDate newDate data start ∧
      (Body.endDate data = JUndefined ∨
       ∃ e, newDate (Body.endDate data) = ValidDate e ∧ start <= e) ∧
      r = ProjectProps.mk None
            (JsString.trim (JsValue.text (Body.name data)))
            (JsString.trim (JsValue.text (Body.clientName data)))
            (JsValue.text (Body.status data))
            (if JsValue.defined (Body.description data)
             then Some (JsString.trim (JsValue.text (Body.description data)))
             else None)
            start
            (if JsValue.defined (Body.endDate data)
             then time_value (newDate (Body.endDate data)) else None)
            now None.
Proof.
  intros newDate now data r. split.
  - intros Hr.
    destruct (createProject_accepted _ _ _ _ Hr)
      as (c & n & d & s & start & e & Hc & Hn & Hd & Hs & Ht & He & ->).
    apply check_clientName_inv in Hc as [Hc ->].
    apply check_name_inv in Hn as [Hn ->].
    pose proof (check_description_inv _ _ Hd) as Hd'.
    apply check_description_ok in Hd as ->.
    apply check_status_inv in Hs as [Hs ->].
    apply check_startDate_inv in Ht as [Ht Hp].
    exists start. split_and!.
    + by repeat split.
    + pose proof (check_endDate_ok _ _ _ _ He) as Hok.
      destruct e as [e|]; [right | by left].
      destruct Hok as (_ & Hv & Hle). eauto.
    + by rewrite (check_endDate_value _ _ _ _ He).
  - intros (start & Hpass & Hend & ->).
    rewrite (createProject_up_to_startDate _ now _ _ Hpass).
    unfold ProjectValidator.check_endDate.
    destruct Hend as [-> | (e & He & Hle)]; [reflexivity|].
    destruct (JsValue.defined (Body.endDate data)) eqn:Hdef.
    + rewrite He. by rewrite (proj2 (Z.ltb_ge e start) Hle).
    + reflexivity.
Qed.

Lemma check_status_cases v :
  (∃ c, ProjectValidator.check_status v = Ok c) ∨
  ProjectValidator.check_status v =
    ProjectValidator.invalid "Invalid or missing project status".
Proof.
  unfold ProjectValidator.check_status. destruct (_ || _); eauto.
Qed.

Lemma check_startDate_cases newDate v :
  (∃ c, ProjectValidator.check_startDate newDate v = Ok c) ∨
  ProjectValidator.check_startDate newDate v =
    ProjectValidator.invalid "Start date is required" ∨
  ProjectValidator.check_startDate newDate v =
    ProjectValidator.invalid "Start date must be a valid ISO date" ∨
  ∃ message,
    JsValue.truthy v = true ∧ newDate v = DateThrows message ∧
    ProjectValidator.check_startDate newDate v = Throw (TypeError message).
Proof.
  unfold ProjectValidator.check_startDate.
  destruct (JsValue.truthy v); simpl; [|by eauto].
  destruct (newDate v); eauto 10.
Qed.

Lemma check_endDate_cases newDate start v :
  (∃ c, ProjectValidator.check_endDate newDate start v = Ok c) ∨
  ProjectValidator.check_endDate newDate start v =
    ProjectValidator.invalid "End date must be a valid ISO date" ∨
  ProjectValidator.check_endDate newDate start v =
    ProjectValidator.invalid "End date cannot be before start date" ∨
  ∃ message,
    v ≠ JUndefined ∧ newDate v = DateThrows message ∧
    ProjectValidator.check_endDate newDate start v = Throw (TypeError message).
Proof.
  unfold ProjectValidator.check_endDate.
  destruct (JsValue.defined v) eqn:Hd; [|eauto].
  assert (v ≠ JUndefined) by (by intros ->).
  destruct (newDate v); [|eauto|eauto 10]. destruct (_ <? _); eauto.
Qed.

(** Every refusal has code 400, title VALIDATION_ERROR and one of the eight
    messages, unless it is the [TypeError] that [new Date] threw on the
    start date or on the end date. *)
Lemma createProject_refusal newDate now data e :
  ProjectValidator.createProject newDate now data = Throw e →
  (∃ message,
     e = ThrowError 400 "VALIDATION_ERROR" message ∧
     message ∈ validation_messages) ∨
  (∃ message,
     e = TypeError message ∧
     (JsValue.truthy (Body.startDate data) = true ∧
      newDate (Body.startDate data) = DateThrows message ∨
      Body.endDate data ≠ JUndefined ∧
      newDate (Body.endDate data) = DateThrows message)).
Proof.
  unfold ProjectValidator.createProject, validation_messages.
  unfold mbind, outcome_bind, mret, outcome_ret.
  destruct (check_clientName_cases (Body.clientName data)) as [[c ->]| ->];
    [|intros [= <-]; left; eexists; split; [reflexivity | set_solver]].
  destruct (check_name_cases (Body.name data)) as [[n ->]| ->];
    [|intros [= <-]; left; eexists; split; [reflexivity | set_solver]].
  destruct (check_description_cases (Body.description data)) as [[d ->]| ->];
    [|intros [= <-]; left; eexists; split; [reflexivity | set_solver]].
  destruct (check_status_cases (Body.status data)) as [[s ->]| ->];
    [|intros [= <-]; left; eexists; split; [reflexivity | set_solver]].
  destruct (check_startDate_cases newDate (Body.startDate data))
    as [[start ->]|[-> |[-> |(m & Ht & Hm & ->)]]];
    try (intros [= <-]; left; eexists; split; [reflexivity | set_solver]).
  2:{ intros [= <-]. right. exists m. split; [reflexivity|]. by left. }
  destruct (check_endDate_cases newDate start (Body.endDate data))
    as [[en ->]|[-> |[-> |(m & Hu & Hm & ->)]]];
    try (intros [= <-]; left; eexists; split; [reflexivity | set_solver]).
  - discriminate.
  - intros [= <-]. right. exists m. split; [reflexivity|]. by right.
Qed.



(** A start date, or an end date, that is a JSON object with a [toString]
    property: [new Date] throws and so does the validator, with no
    validation message. *)
Lemma createProject_date_object :
  let object := JObject [("valueOf", JNum (Fin 1)); ("toString", JNum (Fin 1))] in
  ProjectValidator.createProject Sample.newDate 1700000000000
    (Sample.body (JStr "Acme") (JStr "Website") (JStr "active")
       object JUndefined) =
    Throw (TypeError "Cannot convert object to primitive value") ∧
  ProjectValidator.createProject Sample.newDate 1700000000000
    (Sample.body (JStr "Acme") (JStr "Website") (JStr "active")
       (JStr "2024-01-10") object) =
    Throw (TypeError "Cannot convert object to primitive value") ∧
  (ProjectController.createProject (C := Sample.collection) Sample.newDate
     1700000000000
     (Sample.body (JStr "Acme") (JStr "Website") (JStr "active")
        (JStr "2024-01-10") object) Sample.three).1 =
    Ok (sendError 500 "Internal Server Error"
          "Cannot convert object to primitive value").
Proof. vm_compute. split_and!; reflexivity. Qed.

Lemma check_clientName_blank v :
  ¬ nonblank v →
  ProjectValidator.check_clientName v =
    ProjectValidator.invalid "Client name is required".
Proof.
  intros H. destruct (check_clientName_cases v) as [[c Hc]|Hc]; [|done].
  by apply check_clientName_inv in Hc as [Hc _].
Qed.

Lemma check_name_blank v :
  ¬ nonblank v →
  ProjectValidator.check_name v =
    ProjectValidator.invalid "Project name is required".
Proof.
  intros H. destruct (check_name_cases v) as [[c Hc]|Hc]; [|done].
  by apply check_name_inv in Hc as [Hc _].
Qed.

Lemma check_description_blank v :
  v ≠ JUndefined → ¬ nonblank v →
  ProjectValidator.check_description v =
    ProjectValidator.invalid "Description must be a non-empty string if provided".
Proof.
  intros Hu H. destruct (check_description_cases v) as [[c Hc]|Hc]; [|done].
  by apply check_description_inv in Hc as [Hc|Hc].
Qed.

(** X3. The validator reports the first rule that fails, in the order of the
    source: a blank client name before anything else; then a blank name;
    then a description that is present (even [null]) but not a non-blank
    string; then, after the status, a falsy start date - absent, [null],
    [false], [0] or [""] - as "Start date is required"; then a start date
    for which [new Date] returns an invalid date. When [new Date] throws on
    the start date, the validator throws that [TypeError] instead. *)
Theorem createProject_first_violation :
  ∀ (newDate : jsval → DateResult) (now : Z) (data : Body.t),
    let refused message :=
      ProjectValidator.createProject newDate now data =
        Throw (ThrowError 400 "VALIDATION_ERROR" message) in
    (¬ nonblank (Body.clientName data) → refused "Client name is required") ∧
    (nonblank (Body.clientName data) → ¬ nonblank (Body.name data) →
     refused "Project name is required") ∧
    (nonblank (Body.clientName data) → nonblank (Body.name data) →
     Body.description data ≠ JUndefined →
     ¬ nonblank (Body.description data) →
     refused "Description must be a non-empty string if provided") ∧
    (nonblank (Body.clientName data) → nonblank (Body.name data) →
     Body.description data = JUndefined ∨ nonblank (Body.description data) →
     allowed_status (Body.status data) →
     (JsValue.truthy (Body.startDate data) = false →
      refused "Start date is required") ∧
     (JsValue.truthy (Body.startDate data) = true →
      newDate (Body.startDate data) = InvalidDate →
      refused "Start date must be a valid ISO date") ∧
     (∀ message,
        JsValue.truthy (Body.startDate data) = true →
        newDate (Body.startDate data) = DateThrows message →
        ProjectValidator.createProject newDate now data =
          Throw (TypeError message))).
Proof.
  intros newDate now data refused. unfold refused.
  unfold ProjectValidator.createProject. split_and!.
  - intros H. by rewrite (check_clientName_blank _ H).
  - intros Hc H.
    by rewrite (check_clientName_nonblank _ Hc), (check_name_blank _ H).
  - intros Hc Hn Hu H.
    by rewrite (check_clientName_nonblank _ Hc), (check_name_nonblank _ Hn),
      (check_description_blank _ Hu H).
  - intros Hc Hn Hd Hs.
    rewrite (check_clientName_nonblank _ Hc), (check_name_nonblank _ Hn),
      (check_description_given _ Hd), (check_status_allowed _ Hs).
    unfold ProjectValidator.check_startDate. split_and!.
    + by intros ->.
    + by intros -> ->.
    + by intros message -> ->.
Qed.

Lemma createProject_first_violation_witness :
  ProjectValidator.createProject Sample.newDate 1700000000000
    (Body.mk (JStr "Acme") (JStr "Website") JNull (JStr "active")
       (JStr "2024-01-10") JUndefined) =
    Throw (ThrowError 400 "VALIDATION_ERROR"
             "Description must be a non-empty string if provided") ∧
  ProjectValidator.createProject Sample.newDate 1700000000000
    (Sample.body (JStr "Acme") (JStr "Website") (JStr "active")
       (JNum (Fin 0)) JUndefined) =
    Throw (ThrowError 400 "VALIDATION_ERROR" "Start date is required").
Proof.
  assert (Ha : nonblank (JStr "Acme")).
  { exists "Acme". split; [reflexivity | vm_compute; discriminate]. }
  assert (Hw : nonblank (JStr "Website")).
  { exists "Website". split; [reflexivity | vm_compute; discriminate]. }
  split.
  - refine (proj1 (proj2 (proj2 (createProject_first_violation Sample.newDate
      1700000000000
      (Body.mk (JStr "Acme") (JStr "Website") JNull (JStr "active")
         (JStr "2024-01-10") JUndefined)))) Ha Hw _ _).
    + discriminate.
    + intros (s & Hs & _). discriminate Hs.
  - refine (proj1 (proj2 (proj2 (proj2 (createProject_first_violation
      Sample.newDate 1700000000000
      (Sample.body (JStr "Acme") (JStr "Website") (JStr "active")
         (JNum (Fin 0)) JUndefined)))) Ha Hw _ _) _).
    + by left.
    + by left.
    + reflexivity.
Defined.

(** ** Reading and writing one document of the in-memory collection *)

Section ById.
Variable rx : string → string → bool.

Lemma getProjectDataById_mem id oid (st : MemStore) :
  ObjectId.create id = Ok oid →
  ProjectRepository.getProjectDataById (C := Mem.collection rx) id st =
    (Ok ((λ p, ProjectRepository.to_details (oid, p)) <$> documents st !! oid),
     st).
Proof.
  intros Hc. unfold ProjectRepository.getProjectDataById.
  unfold ProjectRepository.collection, mbind, M_bind, lift. simpl.
  rewrite Hc. simpl. unfold Mem.mem_findOne. rewrite selected_by_id.
  unfold ObjectId.t in *. by destruct (documents st !! oid).
Qed.

Lemma getProjectExistanceById_mem id oid (st : MemStore) :
  ObjectId.create id = Ok oid →
  ProjectRepository.getProjectExistanceById (C := Mem.collection rx) id st =
    (Ok (bool_decide (is_Some (documents st !! oid))), st).
Proof.
  intros Hc. unfold ProjectRepository.getProjectExistanceById.
  assert (ObjectId.isValid id = true) as ->.
  { unfold ObjectId.create in Hc. by destruct (ObjectId.isValid id). }
  simpl. unfold ProjectRepository.collection, mbind, M_bind, lift. simpl.
  rewrite Hc. simpl.
  unfold Mem.mem_countDocuments. rewrite selected_by_id.
  unfold ObjectId.t in *. by destruct (documents st !! oid).
Qed.

Lemma deleteProjectById_mem id oid (st : MemStore) :
  ObjectId.create id = Ok oid →
  ProjectRepository.deleteProjectById (C := Mem.collection rx) id st =
    match documents st !! oid with
    | Some _ => (Ok true, mkStore (delete oid (documents st)) (generated st))
    | None => (Ok false, st)
    end.
Proof.
  intros Hc. unfold ProjectRepository.deleteProjectById.
  unfold ProjectRepository.collection, mbind, M_bind, lift. simpl.
  rewrite Hc. simpl. unfold Mem.mem_deleteOne. rewrite selected_by_id.
  unfold ObjectId.t in *. by destruct (documents st !! oid).
Qed.

(** The document after [{ $set: { status, updatedAt } }]. *)
Lemma updateProjectStatusById_repo_mem now id oid status (st : MemStore) :
  ObjectId.create id = Ok oid →
  ProjectRepository.updateProjectStatusById (C := Mem.collection rx)
    now id status st =
    match documents st !! oid with
    | Some p =>
        let p' := ProjectProps.mk (ProjectProps._id p) (ProjectProps.name p)
                    (ProjectProps.clientName p) status
                    (ProjectProps.description p) (ProjectProps.startDate p)
                    (ProjectProps.endDate p) (ProjectProps.createdAt p)
                    (Some now) in
        if decide (p' = p) then (Ok false, st)
        else (Ok true, mkStore (<[oid := p']> (documents st)) (generated st))
    | None => (Ok false, st)
    end.
Proof.
  intros Hc.
  unfold ProjectRepository.updateProjectStatusById.
  unfold ProjectRepository.collection, mbind, M_bind, lift. simpl.
  rewrite Hc. simpl. unfold Mem.mem_updateOne. rewrite selected_by_id.
  unfold ObjectId.t in *. destruct (documents st !! oid) as [p|]; [|done].
  simpl. by destruct (decide _).
Qed.

Lemma projectDeatilsById_mem id oid (st : MemStore) :
  ObjectId.create id = Ok oid →
  ProjectService.projectDeatilsById (C := Mem.collection rx) id st =
    match documents st !! oid with
    | Some p => (Ok (ProjectRepository.to_details (oid, p)), st)
    | None => (Throw (ThrowError 404 "NOT_FOUND" "Project not found"), st)
    end.
Proof.
  intros Hc. unfold ProjectService.projectDeatilsById.
  assert (ObjectId.isValid id = true) as ->.
  { unfold ObjectId.create in Hc. by destruct (ObjectId.isValid id). }
  simpl. unfold mbind, M_bind. rewrite (getProjectDataById_mem id oid st Hc).
  by destruct (documents st !! oid).
Qed.

Lemma create_valid id oid : ObjectId.create id = Ok oid → well_formed id.
Proof.
  unfold ObjectId.create, well_formed. by destruct (ObjectId.isValid id).
Qed.

Lemma removeProjectById_mem id oid (st : MemStore) :
  ObjectId.create id = Ok oid →
  ProjectService.removeProjectById (C := Mem.collection rx) id st =
    match documents st !! oid with
    | Some _ => (Ok (), mkStore (delete oid (documents st)) (generated st))
    | None => (Throw (ThrowError 404 "NOT_FOUND" "Project not found"), st)
    end.
Proof.
  intros Hc.
  rewrite (removeProjectById_well_formed id oid st (create_valid _ _ Hc) Hc).
  reach_mem. unfold Mem.mem_countDocuments, Mem.mem_deleteOne.
  rewrite !selected_by_id. unfold ObjectId.t in *.
  by destruct (documents st !! oid).
Qed.

Lemma updateProjectStatusById_mem now id oid status (st : MemStore) :
  ObjectId.create id = Ok oid → allowed_status status →
  ProjectService.updateProjectStatusById (C := Mem.collection rx)
    now id status st =
    match documents st !! oid with
    | Some p =>
        let p' := ProjectProps.mk (ProjectProps._id p) (ProjectProps.name p)
                    (ProjectProps.clientName p) (JsValue.text status)
                    (ProjectProps.description p) (ProjectProps.startDate p)
                    (ProjectProps.endDate p) (ProjectProps.createdAt p)
                    (Some now) in
        if decide (p' = p)
        then (Throw (ThrowError 500 "FAILURE"
                       "Failed to update status of a  project"), st)
        else (Ok (), mkStore (<[oid := p']> (documents st)) (generated st))
    | None => (Throw (ThrowError 404 "NOT_FOUND" "Project not found"), st)
    end.
Proof.
  intros Hc Hs.
  rewrite (updateProjectStatusById_well_formed now id oid status st
             (create_valid _ _ Hc) Hc Hs).
  reach_mem. unfold Mem.mem_countDocuments, Mem.mem_updateOne.
  rewrite !selected_by_id. unfold ObjectId.t in *.
  destruct (documents st !! oid) as [p|]; [|done].
  simpl. by destruct (decide _).
Qed.
End ById.

(** X4. On the in-memory collection and for every well-formed identifier, the
    repository's [getProjectDataById] returns the details of the document
    stored under the identifier (in lower case) or [null],
    [getProjectExistanceById] returns [true] exactly when there is one, the
    service's [projectDeatilsById] returns the same details or fails with
    404, and none of the three changes the store. *)
Theorem reads_by_identifier :
  ∀ (rx : string → string → bool) (id : string) (st : MemStore),
    well_formed id →
    ∃ oid,
      ObjectId.create id = Ok oid ∧
      let found := (λ p, ProjectRepository.to_details (oid, p)) <$>
                   documents st !! oid in
      ProjectRepository.getProjectDataById (C := Mem.collection rx) id st =
        (Ok found, st) ∧
      ProjectRepository.getProjectExistanceById (C := Mem.collection rx) id st =
        (Ok (bool_decide (is_Some found)), st) ∧
      ProjectService.projectDeatilsById (C := Mem.collection rx) id st =
        match found with
        | Some details => (Ok details, st)
        | None => (Throw (ThrowError 404 "NOT_FOUND" "Project not found"), st)
        end.
Proof.
  intros rx id st Hid. destruct (create_well_formed id Hid) as [oid Hc].
  exists oid. split; [exact Hc|]. simpl. split_and!.
  - by apply getProjectDataById_mem.
  - rewrite (getProjectExistanceById_mem rx id oid st Hc).
    by destruct (documents st !! oid).
  - rewrite (projectDeatilsById_mem rx id oid st Hc).
    by destruct (documents st !! oid).
Qed.

Lemma reads_by_identifier_witness :
  ∃ details,
    ProjectService.projectDeatilsById (C := Sample.collection)
      "000000000000000000000002" Sample.three = (Ok details, Sample.three) ∧
    ProjectDetails.name details = "Migration" ∧
    ProjectRepository.getProjectExistanceById (C := Sample.collection)
      "000000000000000000000002" Sample.three = (Ok true, Sample.three).
Proof.
  destruct (reads_by_identifier Sample.regex_test "000000000000000000000002"
              Sample.three eq_refl) as (oid & Hc & _ & He & H).
  injection Hc as <-.
  eexists. split_and!; [exact H | reflexivity | exact He].
Defined.

(** ** Creating, then reading *)

(** X5. Round trip on the in-memory collection: when [createProject]
    succeeds, the identifier it returns is well formed, the project exists,
    and [projectDeatilsById] on that identifier returns exactly the fields of
    the returned record, with no [updatedAt]. *)
Theorem create_then_read :
  ∀ (rx : string → string → bool) (newDate : jsval → DateResult) (now : Z)
    (data : Body.t) (st st' : MemStore) (res : ProjectProps.t),
    ProjectService.createProject (C := Mem.collection rx) newDate now data st =
      (Ok res, st') →
    ∃ id,
      ProjectProps._id res = Some id ∧
      well_formed id ∧
      ProjectRepository.getProjectExistanceById (C := Mem.collection rx) id st' =
        (Ok true, st') ∧
      ProjectService.projectDeatilsById (C := Mem.collection rx) id st' =
        (Ok (ProjectDetails.mk id (ProjectProps.name res)
               (ProjectProps.clientName res) (ProjectProps.status res)
               (ProjectProps.description res) (ProjectProps.startDate res)
               (ProjectProps.endDate res) (ProjectProps.createdAt res) None),
         st').
Proof.
  intros rx newDate now data st st' res Hcreate.
  destruct (createProject_mem _ _ _ _ _ _ _ Hcreate)
    as (v & Hv & Hres & Hfresh & Hst').
  set (id := Mem.hex24 (generated st)) in *.
  destruct (createProject_accepted _ _ _ _ Hv)
    as (c & n & d & s & start & e & _ & _ & _ & _ & _ & _ & Ev).
  assert (Hlook : documents st' !! id = Some res).
  { subst st'. simpl. apply lookup_insert_eq. }
  exists id. split_and!.
  - by subst res.
  - apply hex24_well_formed.
  - rewrite (getProjectExistanceById_mem rx id id st' (hex24_create _)).
    unfold ObjectId.t in *. by rewrite Hlook.
  - rewrite (projectDeatilsById_mem rx id id st' (hex24_create _)).
    unfold ObjectId.t in *. rewrite Hlook. by subst res v.
Qed.

Lemma create_then_read_witness :
  ∃ res st' details,
    ProjectService.createProject (C := Sample.collection) Sample.newDate
      1700000000000
      (Sample.body (JStr " Acme ") (JStr "Website") (JStr "active")
         (JStr "2024-01-10") (JStr "2024-03-01")) Sample.three =
      (Ok res, st') ∧
    ProjectService.projectDeatilsById (C := Sample.collection)
      "000000000000000000000003" st' = (Ok details, st') ∧
    ProjectDetails.clientName details = "Acme".
Proof.
  destruct (ProjectService.createProject (C := Sample.collection)
              Sample.newDate 1700000000000
              (Sample.body (JStr " Acme ") (JStr "Website") (JStr "active")
                 (JStr "2024-01-10") (JStr "2024-03-01")) Sample.three)
    as [[res|e] st'] eqn:E; [|vm_compute in E; discriminate].
  destruct (create_then_read Sample.regex_test Sample.newDate _ _ _ _ _ E)
    as (id & Hid & _ & _ & Hread).
  assert (id = "000000000000000000000003") as ->.
  { vm_compute in E. injection E as <- _. by injection Hid as <-. }
  exists res, st'. eexists. split_and!; [reflexivity | exact Hread |].
  vm_compute in E. by injection E as <- _.
Defined.

(** X6. Creation never disturbs what is stored: when [createProject] succeeds
    on the in-memory collection the new identifier was not in use, the stored
    document is the returned record, every other document is as it was and
    the collection has one document more; when it fails, for whatever
    reason, the store is unchanged. *)
Theorem create_frame :
  ∀ (rx : string → string → bool) (newDate : jsval → DateResult) (now : Z)
    (data : Body.t) (st st' : MemStore),
    (∀ res,
       ProjectService.createProject (C := Mem.collection rx) newDate now data st =
         (Ok res, st') →
       ∃ id,
         ProjectProps._id res = Some id ∧
         documents st !! id = None ∧
         documents st' !! id = Some res ∧
         (∀ k, k ≠ id → documents st' !! k = documents st !! k) ∧
         size (documents st') = Datatypes.S (size (documents st))) ∧
    (∀ e,
       ProjectService.createProject (C := Mem.collection rx) newDate now data st =
         (Throw e, st') →
       st' = st).
Proof.
  intros rx newDate now data st st'. split.
  - intros res Hcreate.
    destruct (createProject_mem _ _ _ _ _ _ _ Hcreate)
      as (v & Hv & Hres & Hfresh & Hst').
    set (id := Mem.hex24 (generated st)) in *.
    exists id. subst st'. simpl. split_and!.
    + by subst res.
    + exact Hfresh.
    + apply lookup_insert_eq.
    + intros k Hk. by apply lookup_insert_ne.
    + by apply map_size_insert_None.
  - intros e.
    unfold ProjectService.createProject, ProjectRepository.createProject.
    unfold mbind, M_bind, lift, mret, M_ret. simpl.
    destruct (ProjectValidator.createProject newDate now data) as [v|e'];
      [|by intros [= _ <-]].
    unfold Mem.mem_insertOne.
    destruct (documents st !! Mem.hex24 (generated st)); [by intros [= _ <-]|].
    cbn [ProjectProps._id ProjectProps.with_id]. unfold ObjectId.toString.
    rewrite hex24_truthy. discriminate.
Qed.

Lemma create_frame_witness :
  ∃ res st',
    ProjectService.createProject (C := Sample.collection) Sample.newDate
      1700000000000
      (Sample.body (JStr "Acme") (JStr "Website") (JStr "active")
         (JStr "2024-01-10") JUndefined) Sample.three = (Ok res, st') ∧
    size (documents st') = 4%nat ∧
    documents st' !! "000000000000000000000001" =
      documents Sample.three !! "000000000000000000000001".
Proof.
  destruct (ProjectService.createProject (C := Sample.collection)
              Sample.newDate 1700000000000
              (Sample.body (JStr "Acme") (JStr "Website") (JStr "active")
                 (JStr "2024-01-10") JUndefined) Sample.three)
    as [[res|e] st'] eqn:E; [|vm_compute in E; discriminate].
  destruct (proj1 (create_frame Sample.regex_test Sample.newDate _ _ _ _) _ E)
    as (id & Hid & _ & _ & Hothers & Hsize).
  exists res, st'. split_and!; [reflexivity | |].
  - rewrite Hsize. vm_compute. reflexivity.
  - apply Hothers. vm_compute in E. injection E as <- _.
    injection Hid as <-. discriminate.
Defined.

(** ** Updating the status *)

(** X7. [updateProjectStatusById] on the in-memory collection, for a
    well-formed identifier and a status of the enumeration: without a
    document under the identifier it fails with 404 NOT_FOUND and the store
    is unchanged; with a document that the update changes (another status,
    or another [updatedAt] than the clock reading) it succeeds, and
    [projectDeatilsById] then returns the new status, [updatedAt] equal to
    the clock reading and every other field as before; with a document the
    update would leave as it is, the driver reports no modification and the
    call fails with 500 FAILURE. *)
Theorem update_status_round_trip :
  ∀ (rx : string → string → bool) (now : Z) (id : string) (oid : ObjectId.t)
    (status : string) (st : MemStore),
    ObjectId.create id = Ok oid →
    allowed_status (JStr status) →
    match documents st !! oid with
    | None =>
        ProjectService.updateProjectStatusById (C := Mem.collection rx)
          now id (JStr status) st =
          (Throw (ThrowError 404 "NOT_FOUND" "Project not found"), st)
    | Some p =>
        (ProjectProps.status p ≠ status ∨ ProjectProps.updatedAt p ≠ Some now →
         ∃ st',
           ProjectService.updateProjectStatusById (C := Mem.collection rx)
             now id (JStr status) st = (Ok (), st') ∧
           ProjectService.projectDeatilsById (C := Mem.collection rx) id st' =
             (Ok (ProjectDetails.mk oid (ProjectProps.name p)
                    (ProjectProps.clientName p) status
                    (ProjectProps.description p) (ProjectProps.startDate p)
                    (ProjectProps.endDate p) (ProjectProps.createdAt p)
                    (Some now)), st')) ∧
        (ProjectProps.status p = status ∧ ProjectProps.updatedAt p = Some now →
         ProjectService.updateProjectStatusById (C := Mem.collection rx)
           now id (JStr status) st =
           (Throw (ThrowError 500 "FAILURE"
                     "Failed to update status of a  project"), st))
    end.
Proof.
  intros rx now id oid status st Hc Hs.
  rewrite (updateProjectStatusById_mem rx now id oid (JStr status) st Hc Hs).
  destruct (documents st !! oid) as [p|] eqn:E; [|reflexivity].
  simpl. split.
  - intros Hdiff. destruct (decide _) as [Heq|Hne].
    + exfalso. destruct p; simpl in *. injection Heq as H1 H2.
      destruct Hdiff; congruence.
    + eexists. split; [reflexivity|].
      rewrite (projectDeatilsById_mem rx id oid _ Hc). simpl.
      by rewrite lookup_insert_eq.
  - intros [Hst Hup]. destruct (decide _) as [Heq|Hne]; [reflexivity|].
    exfalso. apply Hne. destruct p; simpl in *. by subst.
Qed.

Lemma update_status_round_trip_witness :
  ∃ st' details,
    ProjectService.updateProjectStatusById (C := Sample.collection)
      1700000100000 "000000000000000000000000" (JStr "completed")
      Sample.three = (Ok (), st') ∧
    ProjectService.projectDeatilsById (C := Sample.collection)
      "000000000000000000000000" st' = (Ok details, st') ∧
    ProjectDetails.status details = "completed" ∧
    ProjectDetails.updatedAt details = Some 1700000100000.
Proof.
  pose proof (update_status_round_trip Sample.regex_test 1700000100000
    "000000000000000000000000" "000000000000000000000000" "completed"
    Sample.three eq_refl ltac:(by right; right)) as H.
  destruct (documents Sample.three !! "000000000000000000000000")
    as [p|] eqn:E; [|vm_compute in E; discriminate].
  destruct (proj1 H) as (st' & Hu & Hd).
  - left. vm_compute in E. injection E as <-. discriminate.
  - exists st'. eexists. split_and!; [exact Hu | exact Hd | done | done].
Defined.

(** ** What an operation leaves alone *)

(** X8. On the in-memory collection [projectDeatilsById] and [listProjects]
    never change the store, whatever they return; [removeProjectById] and
    [updateProjectStatusById] leave every document other than the one their
    identifier denotes as it was, whatever they return, and change nothing
    at all when the identifier is malformed. *)
Theorem operations_frame :
  ∀ (rx : string → string → bool) (st : MemStore),
    (∀ id,
       (ProjectService.projectDeatilsById (C := Mem.collection rx) id st).2 =
         st) ∧
    (∀ params,
       (ProjectService.listProjects (C := Mem.collection rx) params st).2 =
         st) ∧
    (∀ id k,
       ObjectId.create id ≠ Ok k →
       documents
         (ProjectService.removeProjectById (C := Mem.collection rx) id st).2
         !! k = documents st !! k) ∧
    (∀ now id status k,
       ObjectId.create id ≠ Ok k →
       documents
         (ProjectService.updateProjectStatusById (C := Mem.collection rx)
            now id status st).2 !! k = documents st !! k).
Proof.
  intros rx st. split_and!.
  - intros id. destruct (ObjectId.create id) as [oid|e] eqn:Hc.
    + rewrite (projectDeatilsById_mem rx id oid st Hc).
      by destruct (documents st !! oid).
    + rewrite projectDeatilsById_malformed; [done|].
      unfold malformed, ObjectId.create in *.
      by destruct (ObjectId.isValid id).
  - intros params.
    destruct (ProjectService.sortOption_of (ListProjectsParams.sort params))
      as [spec|e] eqn:Hs.
    + rewrite (listProjects_mem rx params spec st Hs). cbv zeta.
      destruct (Mem.skip _ _); [|done]. by destruct (Mem.limit _ _).
    + by rewrite (listProjects_rejected rx params e st Hs).
  - intros id k Hk. destruct (ObjectId.create id) as [oid|e] eqn:Hc.
    + rewrite (removeProjectById_mem rx id oid st Hc).
      destruct (documents st !! oid); [|done]. simpl.
      apply lookup_delete_ne. congruence.
    + rewrite removeProjectById_malformed; [done|].
      unfold malformed, ObjectId.create in *.
      by destruct (ObjectId.isValid id).
  - intros now id status k Hk.
    destruct (ObjectId.create id) as [oid|e] eqn:Hc.
    + destruct (negb (JsValue.truthy status) ||
                negb (JsValue.included ProjectService.ALLOWED_STATUSES status))
        eqn:Est.
      * rewrite (updateProjectStatusById_rejects_status now id status st
                   (create_valid _ _ Hc)); [done|].
        intros Hal. apply status_test_spec in Hal. congruence.
      * apply status_test_spec in Est.
        rewrite (updateProjectStatusById_mem rx now id oid status st Hc Est).
        destruct (documents st !! oid); [|done]. simpl.
        destruct (decide _); [done|]. simpl.
        apply lookup_insert_ne. congruence.
    + rewrite updateProjectStatusById_malformed; [done|].
      unfold malformed, ObjectId.create in *.
      by destruct (ObjectId.isValid id).
Qed.

Lemma operations_frame_witness :
  documents
    (ProjectService.removeProjectById (C := Sample.collection)
       "000000000000000000000001" Sample.three).2
    !! "000000000000000000000002" =
  documents Sample.three !! "000000000000000000000002".
Proof.
  apply (operations_frame Sample.regex_test Sample.three).
  vm_compute. discriminate.
Defined.

(** ** What a listing returns *)

Lemma by_spec_permutation spec (l : list WithId) : Cursor.by_spec spec l ≡ₚ l.
Proof.
  induction spec as [|[key order] spec IH]; simpl; [done|].
  by rewrite sort_permutation.
Qed.

Lemma page_sublist n m (L l l' : list WithId) :
  Mem.skip n L = Ok l → Mem.limit m l = Ok l' → l' `sublist_of` L.
Proof.
  intros Hs Hl. apply skip_ok in Hs as [k ->].
  apply limit_ok in Hl as [-> | [k' ->]].
  - apply sublist_drop.
  - etransitivity; [apply sublist_take | apply sublist_drop].
Qed.

Lemma filter_fst_NoDup {A B} (f : A * B → bool) (l : list (A * B)) :
  NoDup l.*1 → NoDup (List.filter f l).*1.
Proof.
  induction l as [|x l IH]; simpl; [done|].
  intros Hnd. apply NoDup_cons in Hnd as [Hx Hnd].
  destruct (f x); simpl; [|by apply IH].
  apply NoDup_cons. split; [|by apply IH].
  intros Hin. apply Hx. apply list_elem_of_fmap in Hin as (y & -> & Hy).
  apply list_elem_of_fmap. exists y. split; [done|].
  apply list_elem_of_In in Hy. apply filter_In in Hy as [Hy _].
  by apply list_elem_of_In.
Qed.

Lemma sublist_fst {A B} (l1 l2 : list (A * B)) :
  l1 `sublist_of` l2 → l1.*1 `sublist_of` l2.*1.
Proof. induction 1; simpl; by constructor. Qed.

Lemma selected_stored rx f (st : MemStore) (d : WithId) :
  d ∈ Mem.selected rx f st →
  documents st !! d.1 = Some d.2 ∧ Mem.matches rx f d = true.
Proof.
  unfold Mem.selected. intros H. apply list_elem_of_In, filter_In in H as [H Hm].
  split; [|done]. apply list_elem_of_In in H. destruct d as [k p].
  by apply elem_of_map_to_list in H.
Qed.

(** X9. Every item a listing of the in-memory collection returns is a stored
    document: its [id] is the identifier of the document and its [name],
    [clientName], [status], [startDate], [endDate] and [createdAt] are those
    of the document; the item has the status the call filters on and
    matches the search pattern on its name or client name, when the call
    has them; no document is returned twice; and the page is never longer
    than the total it reports. *)
Theorem listed_items_are_stored :
  ∀ (rx : string → string → bool) (params : ListProjectsParams.t)
    (st st' : MemStore) (r : ProjectList),
    ProjectService.listProjects (C := Mem.collection rx) params st =
      (Ok r, st') →
    (∀ item, item ∈ list_data r →
       (∃ p,
          documents st !! ProjectListItem.id item = Some p ∧
          ProjectListItem.name item = ProjectProps.name p ∧
          ProjectListItem.clientName item = ProjectProps.clientName p ∧
          ProjectListItem.status item = ProjectProps.status p ∧
          ProjectListItem.startDate item = ProjectProps.startDate p ∧
          ProjectListItem.endDate item = ProjectProps.endDate p ∧
          ProjectListItem.createdAt item = ProjectProps.createdAt p) ∧
       (∀ s, ProjectService.given (ListProjectsParams.status params) = Some s →
             ProjectListItem.status item = s) ∧
       (∀ pattern,
          ProjectService.given (ListProjectsParams.search params) =
            Some pattern →
          rx pattern (ProjectListItem.name item) = true ∨
          rx pattern (ProjectListItem.clientName item) = true)) ∧
    NoDup (ProjectListItem.id <$> list_data r) ∧
    (length (list_data r) <= total (pagination r))%nat.
Proof.
  intros rx params st st' r Hr.
  destruct (ProjectService.sortOption_of (ListProjectsParams.sort params))
    as [spec|e] eqn:Hs.
  2:{ rewrite (listProjects_rejected rx params e st Hs) in Hr. discriminate. }
  rewrite (listProjects_mem rx params spec st Hs) in Hr. cbv zeta in Hr.
  set (found := Mem.selected rx (ProjectService.filter_of params) st) in *.
  destruct (Mem.skip _ _) as [l|] eqn:Hskip; [|discriminate].
  destruct (Mem.limit _ l) as [l'|] eqn:Hlimit; [|discriminate].
  injection Hr as <- <-. simpl.
  pose proof (page_sublist _ _ _ _ _ Hskip Hlimit) as Hsub.
  split_and!.
  - intros item Hitem. apply list_elem_of_fmap in Hitem as ([id p] & -> & Hd).
    assert (Hin : (id, p) ∈ found).
    { rewrite <-(by_spec_permutation spec found).
      by eapply elem_of_sublist. }
    apply selected_stored in Hin as [Hlook Hm]. simpl in Hlook.
    split_and!; [by exists p | |].
    + intros s Hgiven. unfold Mem.matches, ProjectService.filter_of in Hm.
      simpl in Hm. rewrite Hgiven in Hm.
      apply andb_prop in Hm as [Hm _]. by apply String.eqb_eq in Hm.
    + intros pattern Hgiven.
      unfold Mem.matches, ProjectService.filter_of in Hm.
      simpl in Hm. rewrite Hgiven in Hm.
      apply andb_prop in Hm as [_ Hm]. by apply orb_prop in Hm.
  - rewrite <-list_fmap_compose.
    change (ProjectListItem.id ∘ ProjectRepository.to_list_item)
      with (@fst ObjectId.t ProjectProps.t).
    eapply sublist_NoDup; [|exact (sublist_fst _ _ Hsub)].
    rewrite (by_spec_permutation spec found).
    apply filter_fst_NoDup, NoDup_fst_map_to_list.
  - rewrite length_map. etransitivity; [apply sublist_length, Hsub|].
    by rewrite by_spec_length.
Qed.

Lemma listed_items_are_stored_witness :
  ∃ r,
    ProjectService.listProjects (C := Sample.collection)
      (ListProjectsParams.mk (Fin 1) (Fin 10) (Some "active") (Some "acm") None)
      Sample.three = (Ok r, Sample.three) ∧
    length (list_data r) = 1%nat ∧
    NoDup (ProjectListItem.id <$> list_data r).
Proof.
  eexists. split; [vm_compute; reflexivity|]. split; [reflexivity|].
  refine (proj1 (proj2 (listed_items_are_stored Sample.regex_test
    (ListProjectsParams.mk (Fin 1) (Fin 10) (Some "active") (Some "acm") None)
    Sample.three Sample.three _ _))).
  vm_compute. reflexivity.
Defined.

(** ** Pages *)

(** One page of a listing with whole numbers. *)
Lemma page_items_whole rx params (st : MemStore) (p l : nat) spec :
  ListProjectsParams.limit params = JsNumber.of_nat l →
  (1 <= p)%nat → (1 <= l)%nat →
  ProjectService.sortOption_of (ListProjectsParams.sort params) = Ok spec →
  page_items rx params st p =
    map ProjectRepository.to_list_item
      (take l (drop ((p - 1) * l)
         (Cursor.by_spec spec
            (Mem.selected rx (ProjectService.filter_of params) st)))).
Proof.
  intros Hl Hp1 Hl1 Hs. unfold page_items.
  rewrite (listProjects_mem rx (at_page params p) spec st Hs). cbv zeta.
  change (ListProjectsParams.page (at_page params p)) with (JsNumber.of_nat p).
  change (ListProjectsParams.limit (at_page params p))
    with (ListProjectsParams.limit params).
  change (ProjectService.filter_of (at_page params p))
    with (ProjectService.filter_of params).
  rewrite Hl, (skip_of_nat p l Hp1), skip_nat, (limit_nat l _ Hl1).
  reflexivity.
Qed.

(** X10. Paging the in-memory collection with a whole [limit >= 1] cuts the
    ordered selection into consecutive pieces: pages 1 to [n] put one after
    the other are its first [n * limit] items (all of them, once [n * limit]
    reaches the total), page [p] holds
    [min limit (total - (p - 1) * limit)] items, and a page past the end is
    empty. *)
Theorem pages_partition :
  ∀ (rx : string → string → bool) (params : ListProjectsParams.t)
    (st : MemStore) (l : nat) (spec : SortOption),
    ListProjectsParams.limit params = JsNumber.of_nat l →
    (1 <= l)%nat →
    ProjectService.sortOption_of (ListProjectsParams.sort params) = Ok spec →
    let all :=
      map ProjectRepository.to_list_item
        (Cursor.by_spec spec
           (Mem.selected rx (ProjectService.filter_of params) st)) in
    (∀ n, flat_map (page_items rx params st) (seq 1 n) = take (n * l) all) ∧
    (∀ n, (length all <= n * l)%nat →
          flat_map (page_items rx params st) (seq 1 n) = all) ∧
    (∀ p, (1 <= p)%nat →
          length (page_items rx params st p) =
            Nat.min l (length all - (p - 1) * l)) ∧
    (∀ p, (1 <= p)%nat → (length all <= (p - 1) * l)%nat →
          page_items rx params st p = []).
Proof.
  intros rx params st l spec Hl Hl1 Hs all.
  assert (Hpage : ∀ p, (1 <= p)%nat →
            page_items rx params st p = take l (drop ((p - 1) * l) all)).
  { intros p Hp. rewrite (page_items_whole rx params st p l spec Hl Hp Hl1 Hs).
    unfold all. by rewrite <-fmap_drop, <-fmap_take. }
  assert (Hcat : ∀ n,
            flat_map (page_items rx params st) (seq 1 n) = take (n * l) all).
  { induction n as [|n IH]; [done|].
    rewrite seq_S, flat_map_app, IH. cbn [flat_map]. rewrite app_nil_r.
    rewrite Hpage by lia.
    replace ((1 + n - 1) * l)%nat with (n * l)%nat by lia.
    rewrite take_take_drop. f_equal. lia. }
  split_and!.
  - exact Hcat.
  - intros n Hn. rewrite Hcat. by apply take_ge.
  - intros p Hp. rewrite (Hpage p Hp). by rewrite length_take, length_drop.
  - intros p Hp Hend. rewrite (Hpage p Hp).
    rewrite (drop_ge all) by done. by destruct l.
Qed.

Lemma pages_partition_witness :
  flat_map
    (page_items Sample.regex_test
       (ListProjectsParams.mk (Fin 1) (Fin 10) None None None)
       Sample.twenty_five) (seq 1 3) =
  map ProjectRepository.to_list_item
    (Cursor.by_spec [("createdAt", -1)]
       (Mem.selected Sample.regex_test
          (ProjectService.filter_of
             (ListProjectsParams.mk (Fin 1) (Fin 10) None None None))
          Sample.twenty_five)).
Proof.
  refine (proj1 (proj2 (pages_partition Sample.regex_test
    (ListProjectsParams.mk (Fin 1) (Fin 10) None None None)
    Sample.twenty_five 10 [("createdAt", -1)] _ _ _)) 3%nat _).
  - reflexivity.
  - lia.
  - reflexivity.
  - vm_compute. lia.
Defined.

(** ** The order of a listing, and the sort token *)

(** X11. On the in-memory collection, for a sort token that starts with
    ['-'] or has no ['-'] at all: when the field after the leading ['-'] is
    neither createdAt nor startDate the call fails with 400 "Sorting not
    allowed on this field" and the store is unchanged; otherwise every page
    returned is ordered on that field, descending exactly when the token
    starts with ['-']. Without a token (or with an empty one) every page is
    in descending order of createdAt. *)
Theorem listing_order :
  ∀ (rx : string → string → bool) (params : ListProjectsParams.t)
    (st : MemStore),
    (∀ s, ListProjectsParams.sort params = Some s → s ≠ "" →
       JsString.startsWith s "-" = true ∨ no_dash s = true →
       let field := strip_leading_dash s in
       (field ≠ "createdAt" → field ≠ "startDate" →
        ProjectService.listProjects (C := Mem.collection rx) params st =
          (Throw (ThrowError 400 "Invalid Sort Field"
                    "Sorting not allowed on this field"), st)) ∧
       (field = "createdAt" ∨ field = "startDate" →
        ∀ r st',
          ProjectService.listProjects (C := Mem.collection rx) params st =
            (Ok r, st') →
          ordered_on field (JsString.startsWith s "-") (list_data r))) ∧
    (ListProjectsParams.sort params = None ∨
     ListProjectsParams.sort params = Some "" →
     ∀ r st',
       ProjectService.listProjects (C := Mem.collection rx) params st =
         (Ok r, st') →
       ordered_on "createdAt" true (list_data r)).
Proof. exact listProjects_regular_token. Qed.

Lemma listing_order_witness :
  ∃ r,
    ProjectService.listProjects (C := Sample.collection)
      (ListProjectsParams.mk (Fin 1) (Fin 10) None None (Some "-startDate"))
      Sample.three = (Ok r, Sample.three) ∧
    map ProjectListItem.startDate (list_data r) =
      [1706745600000; 1704844800000; 1701388800000] ∧
    ordered_on "startDate" true (list_data r).
Proof.
  eexists. split; [vm_compute; reflexivity|]. split; [reflexivity|].
  refine (proj2 (proj1 (listing_order Sample.regex_test
    (ListProjectsParams.mk (Fin 1) (Fin 10) None None (Some "-startDate"))
    Sample.three) "-startDate" eq_refl _ _) _ _ Sample.three _).
  - discriminate.
  - by left.
  - by right.
  - vm_compute. reflexivity.
Defined.

(** X12. On every store, a list request that gives each parameter at most
    once and whose sort token, a string, is not empty and does not become
    createdAt or startDate when its first ['-'] is removed is answered with
    code 400, title "Invalid Sort Field" and message "Sorting not allowed on
    this field", whatever the other parameters are, and the store is not
    touched - not even [Database.getDB()] is called. *)
Theorem list_bad_sort :
  ∀ (S : Type) (C : Collection S) (query : Query.t) (s : string) (st : S),
    Query.sort query = Some s →
    s ≠ "" →
    JsString.replace_first "-" s ≠ "createdAt" →
    JsString.replace_first "-" s ≠ "startDate" →
    ProjectController.listProjects query st =
      (Ok (sendError 400 "Invalid Sort Field"
             "Sorting not allowed on this field"), st).
Proof.
  intros S C query s st Hs Hne H1 H2.
  apply (listProjects_failure query
           (ThrowError 400 "Invalid Sort Field"
              "Sorting not allowed on this field") st st).
  unfold ProjectService.listProjects, mbind, M_bind, lift.
  change (ListProjectsParams.sort (ProjectController.list_params query))
    with (Query.sort query).
  rewrite Hs, (sortOption_of_token s Hne).
  destruct (JsString.includes _ _) eqn:E; [|reflexivity].
  apply includes_allowedSortFields in E as [E|E]; contradiction.
Qed.

Lemma list_bad_sort_witness :
  ProjectController.listProjects (C := Sample.collection)
    (Query.mk (Some "2") (Some "abc") (Some "active") None (Some "-name"))
    Sample.three =
    (Ok (sendError 400 "Invalid Sort Field"
           "Sorting not allowed on this field"), Sample.three).
Proof.
  apply (list_bad_sort MemStore Sample.collection
           (Query.mk (Some "2") (Some "abc") (Some "active") None
              (Some "-name")) "-name" Sample.three);
    [reflexivity | discriminate | discriminate | discriminate].
Defined.

(** ** The numbers of the list handler *)

Lemma or_truthy a d : JsNumber.truthy d = true → JsNumber.truthy (JsNumber.or a d) = true.
Proof. intros Hd. unfold JsNumber.or. by destruct (JsNumber.truthy a) eqn:E. Qed.

Lemma ceil_div_defined (t : nat) limit :
  JsNumber.truthy limit = true →
  JsNumber.ceil (JsNumber.div (JsNumber.of_nat t) limit) ≠ NaN.
Proof.
  destruct limit as [|s|l]; simpl; [discriminate| |].
  - intros _. discriminate.
  - intros Hl. apply negb_true_iff in Hl. rewrite Hl. discriminate.
Qed.

(** X13. On every store, in every successful answer of the list handler the
    page and the limit are numbers other than [NaN] and zero (the handler
    replaces those by 1 and 10), and totalPages is not [NaN]: the handler
    never divides by zero, nor zero by zero. *)
Theorem list_numbers_defined :
  ∀ (S : Type) (C : Collection S) (query : Query.t) (st st' : S)
    (response : Response ProjectList) (r : ProjectList),
    ProjectController.listProjects query st = (Ok response, st') →
    data response = Some r →
    JsNumber.truthy (page (pagination r)) = true ∧
    JsNumber.truthy (limit (pagination r)) = true ∧
    totalPages (pagination r) ≠ NaN.
Proof.
  intros S C query st st' response r Hrun Hdata.
  destruct (ProjectService.listProjects (ProjectController.list_params query)
              st) as [[r0|e] st0] eqn:Hsvc.
  - rewrite (listProjects_success query r0 st st0 Hsvc) in Hrun.
    injection Hrun as <- <-. simpl in Hdata. injection Hdata as ->.
    destruct (listProjects_returns _ _ _ _ Hsvc)
      as (spec & raw & st1 & t & _ & _ & _ & ->).
    simpl. split_and!.
    + by apply or_truthy.
    + by apply or_truthy.
    + apply ceil_div_defined. by apply or_truthy.
  - rewrite (listProjects_failure query e st st0 Hsvc) in Hrun.
    injection Hrun as <- <-. by destruct e.
Qed.

Lemma list_numbers_defined_witness :
  ∃ response r,
    (ProjectController.listProjects (C := Sample.collection)
       (Query.mk (Some "0") (Some "abc") None None None)
       Sample.three).1 = Ok response ∧
    data response = Some r ∧
    page (pagination r) = Fin 1 ∧
    limit (pagination r) = Fin 10 ∧
    totalPages (pagination r) ≠ NaN.
Proof.
  destruct (ProjectController.listProjects (C := Sample.collection)
              (Query.mk (Some "0") (Some "abc") None None None)
              Sample.three) as [[response|e] st'] eqn:E;
    [|vm_compute in E; discriminate E].
  destruct (data response) as [r|] eqn:Hd;
    [|vm_compute in E; injection E as <- _; discriminate Hd].
  destruct (list_numbers_defined MemStore Sample.collection _ _ _ _ _ E Hd)
    as (_ & _ & Hq).
  exists response, r. split_and!; [done | done | | | exact Hq];
    vm_compute in E; injection E as <- _; by injection Hd as <-.
Defined.

(** ** Requests, one after the other *)

Section Handlers.
Context {S : Type} {C : Collection S}.

(** A handler answers with what its service call returned or threw, and
    leaves the store as the call left it. *)
Lemma handler_runs {A D} (m : M S A) (f : A → Response D) (st : S) :
  try_catch (a ← m; mret (f a))
    (λ error, mret (ProjectController.on_error error)) st =
  match m st with
  | (Ok a, st') => (Ok (f a), st')
  | (Throw e, st') => (Ok (ProjectController.on_error e), st')
  end.
Proof.
  unfold try_catch, mbind, M_bind, mret, M_ret.
  by destruct (m st) as [[a|e] st'].
Qed.

Lemma guarded_handler_runs {A D} (id : string) (m : M S A)
    (f : A → Response D) (st : S) :
  try_catch
    (if negb (JsString.truthy id)
     then mret (sendError 400 "VALIDATION_ERROR" "Id is required")
     else a ← m; mret (f a))
    (λ error, mret (ProjectController.on_error error)) st =
  if negb (JsString.truthy id)
  then (Ok (sendError 400 "VALIDATION_ERROR" "Id is required"), st)
  else
    match m st with
    | (Ok a, st') => (Ok (f a), st')
    | (Throw e, st') => (Ok (ProjectController.on_error e), st')
    end.
Proof.
  destruct (negb (JsString.truthy id)); [reflexivity|]. apply handler_runs.
Qed.
End Handlers.

Lemma create_malformed_id id e : ObjectId.create id = Throw e → malformed id.
Proof.
  unfold ObjectId.create, malformed. by destruct (ObjectId.isValid id).
Qed.

Section RequestsMem.
Variable rx : string → string → bool.
Variable newDate : jsval → DateResult.

Lemma createProject_service_mem now body (st : MemStore) :
  ProjectService.createProject (C := Mem.collection rx) newDate now body st =
    match ProjectValidator.createProject newDate now body with
    | Throw e => (Throw e, st)
    | Ok v =>
        let id := Mem.hex24 (generated st) in
        match documents st !! id with
        | Some _ => (Throw (MongoError "E11000 duplicate key error"), st)
        | None =>
            (Ok (ProjectProps.with_id v id),
             mkStore (<[id := ProjectProps.with_id v id]> (documents st))
                     (generated st + 1))
        end
    end.
Proof.
  unfold ProjectService.createProject, ProjectRepository.createProject.
  unfold mbind, M_bind, lift, mret, M_ret. simpl.
  destruct (ProjectValidator.createProject newDate now body) as [v|e];
    [|reflexivity].
  unfold Mem.mem_insertOne.
  destruct (documents st !! Mem.hex24 (generated st)); [reflexivity|].
  cbn [ProjectProps._id ProjectProps.with_id]. unfold ObjectId.toString.
  by rewrite hex24_truthy.
Qed.

(** What a request does on the in-memory collection: its answer, and the
    store it leaves. *)
Lemma dispatch_mem request (st : MemStore) :
  ∃ a st',
    Router.dispatch (C := Mem.collection rx) newDate request st = (Ok a, st') ∧
    status_code a ∈ route_codes request ∧
    match request with
    | GET_projects _ | GET_project _ => st' = st
    | POST_projects now body =>
        (status_code a ≠ 201 ∧ st' = st) ∨
        (status_code a = 201 ∧
         ∃ v, ProjectValidator.createProject newDate now body = Ok v ∧
              let id := Mem.hex24 (generated st) in
              documents st !! id = None ∧
              st' = mkStore (<[id := ProjectProps.with_id v id]> (documents st))
                            (generated st + 1))
    | PATCH_project_status now id status =>
        (status_code a ≠ 200 ∧ st' = st) ∨
        (status_code a = 200 ∧
         ∃ oid p, ObjectId.create id = Ok oid ∧
                  allowed_status status ∧
                  documents st !! oid = Some p ∧
                  st' = mkStore (<[oid := with_status p (JsValue.text status)
                                            now]> (documents st))
                                (generated st))
    | DELETE_project id =>
        (status_code a ≠ 200 ∧ st' = st) ∨
        (status_code a = 200 ∧
         ∃ oid, ObjectId.create id = Ok oid ∧
                st' = mkStore (delete oid (documents st)) (generated st))
    end.
Proof.
  destruct request as [query|now body|id|now id status|id];
    unfold Router.dispatch, fmap, M_fmap.
  - unfold ProjectController.listProjects. rewrite handler_runs.
    destruct (ProjectService.sortOption_of
                (ListProjectsParams.sort (ProjectController.list_params query)))
      as [spec|e] eqn:Hs.
    + rewrite (listProjects_mem rx _ spec st Hs). cbv zeta.
      destruct (Mem.skip _ _) as [l|e] eqn:Hskip.
      * destruct (Mem.limit _ l) as [l'|e] eqn:Hlimit.
        -- eexists _, _. split; [reflexivity|]. simpl. set_solver.
        -- eexists _, _. split; [reflexivity|]. split; [|done].
           unfold Mem.limit in Hlimit.
           destruct (JsNumber.to_Z _) as [[| |]|]; try discriminate.
           injection Hlimit as <-. simpl. set_solver.
      * eexists _, _. split; [reflexivity|]. split; [|done].
        unfold Mem.skip in Hskip.
        destruct (JsNumber.to_nat _); try discriminate.
        injection Hskip as <-. simpl. set_solver.
    + rewrite (listProjects_rejected rx _ e st Hs).
      eexists _, _. split; [reflexivity|]. split; [|done].
      unfold ProjectService.sortOption_of in Hs.
      destruct (ProjectService.given _); [|discriminate].
      destruct (JsString.includes _ _); [discriminate|].
      injection Hs as <-. simpl. set_solver.
  - unfold ProjectController.createProject. rewrite handler_runs.
    rewrite createProject_service_mem.
    destruct (ProjectValidator.createProject newDate now body) as [v|e] eqn:Hv.
    + cbv zeta. destruct (documents st !! Mem.hex24 (generated st)) eqn:Hfresh.
      * eexists _, _. split; [reflexivity|]. simpl.
        split; [set_solver|]. by left.
      * eexists _, _. split; [reflexivity|]. simpl.
        split; [set_solver|]. right. split; [done|]. by exists v.
    + destruct (createProject_refusal _ _ _ _ Hv)
        as [(m & -> & _)|(m & -> & _)];
        (eexists _, _; split; [reflexivity|]; simpl;
         split; [set_solver|]; by left).
  - unfold ProjectController.projectDetailsById.
    rewrite guarded_handler_runs.
    destruct (negb (JsString.truthy id)).
    { eexists _, _. split; [reflexivity|]. simpl. set_solver. }
    destruct (ObjectId.create id) as [oid|e] eqn:Hc.
    + rewrite (projectDeatilsById_mem rx id oid st Hc).
      destruct (documents st !! oid);
        (eexists _, _; split; [reflexivity|]; simpl; set_solver).
    + rewrite (projectDeatilsById_malformed id st (create_malformed_id _ _ Hc)).
      eexists _, _. split; [reflexivity|]. simpl. set_solver.
  - unfold ProjectController.updateProjectStatusById.
    rewrite guarded_handler_runs.
    destruct (negb (JsString.truthy id)).
    { eexists _, _. split; [reflexivity|]. simpl. split; [set_solver|].
      by left. }
    destruct (ObjectId.create id) as [oid|e] eqn:Hc.
    + destruct (negb (JsValue.truthy status) ||
                negb (JsValue.included ProjectService.ALLOWED_STATUSES status))
        eqn:Est.
      * rewrite (updateProjectStatusById_rejects_status now id status st
                   (create_valid _ _ Hc)).
        -- eexists _, _. split; [reflexivity|]. simpl. split; [set_solver|].
           by left.
        -- intros Hal. apply status_test_spec in Hal. congruence.
      * apply status_test_spec in Est.
        rewrite (updateProjectStatusById_mem rx now id oid status st Hc Est).
        destruct (documents st !! oid) as [p|] eqn:Hp.
        -- cbv zeta. destruct (decide _) as [Heq|Hne].
           ++ eexists _, _. split; [reflexivity|]. simpl.
              split; [set_solver|]. by left.
           ++ eexists _, _. split; [reflexivity|]. simpl.
              split; [set_solver|]. right. split; [done|].
              by exists oid, p.
        -- eexists _, _. split; [reflexivity|]. simpl. split; [set_solver|].
           by left.
    + rewrite (updateProjectStatusById_malformed now id status st
                 (create_malformed_id _ _ Hc)).
      eexists _, _. split; [reflexivity|]. simpl. split; [set_solver|].
      by left.
  - unfold ProjectController.removeProjectById.
    rewrite guarded_handler_runs.
    destruct (negb (JsString.truthy id)).
    { eexists _, _. split; [reflexivity|]. simpl. split; [set_solver|].
      by left. }
    destruct (ObjectId.create id) as [oid|e] eqn:Hc.
    + rewrite (removeProjectById_mem rx id oid st Hc).
      destruct (documents st !! oid) as [p|] eqn:Hp.
      * eexists _, _. split; [reflexivity|]. simpl. split; [set_solver|].
        right. split; [done|]. by exists oid.
      * eexists _, _. split; [reflexivity|]. simpl. split; [set_solver|].
        by left.
    + rewrite (removeProjectById_malformed id st (create_malformed_id _ _ Hc)).
      eexists _, _. split; [reflexivity|]. simpl. split; [set_solver|].
      by left.
Qed.
End RequestsMem.

(** The record the validator returns, stored under a generated identifier,
    is as the data model wants it. *)
Lemma validated_record_ok newDate now body v (n : N) :
  ProjectValidator.createProject newDate now body = Ok v →
  record_ok (Mem.hex24 n) (ProjectProps.with_id v (Mem.hex24 n)).
Proof.
  intros Hv.
  destruct (createProject_accepted _ _ _ _ Hv)
    as (c & nm & d & s & start & e & Hc & Hn & Hd & Hs & Ht & He & ->).
  apply check_clientName_inv in Hc as [(sc & Ec & Hc) ->].
  apply check_name_inv in Hn as [(sn & En & Hn) ->].
  pose proof (check_description_inv _ _ Hd) as Hd'.
  apply check_description_ok in Hd as ->.
  apply check_status_inv in Hs as [Hs ->].
  apply check_endDate_ok in He.
  unfold record_ok. simpl. split_and!.
  - reflexivity.
  - apply hex24_well_formed.
  - destruct Hs as [-> | [-> | ->]]; simpl; red; auto.
  - by rewrite En.
  - by rewrite Ec.
  - destruct Hd' as [-> | (sd & -> & Hne)]; simpl; [discriminate|].
    congruence.
  - intros e' ->. by destruct He as (_ & _ & Hle).
Qed.

Lemma with_status_ok id p status now :
  record_ok id p → allowed_status status →
  record_ok id (with_status p (JsValue.text status) now).
Proof.
  intros (H1 & H2 & _ & H4 & H5 & H6 & H7) Hs.
  unfold record_ok. simpl. split_and!; try done.
  destruct Hs as [-> | [-> | ->]]; simpl; red; auto.
Qed.

Lemma dispatch_store_ok rx newDate request (st : MemStore) :
  store_ok st →
  store_ok (Router.dispatch (C := Mem.collection rx) newDate request st).2.
Proof.
  intros Hst.
  destruct (dispatch_mem rx newDate request st) as (a & st' & -> & _ & H).
  simpl. destruct request as [query|now body|id|now id status|id].
  - by subst.
  - destruct H as [[_ ->]|(_ & v & Hv & Hfresh & ->)]; [done|].
    intros k p. simpl. destruct (decide (k = Mem.hex24 (generated st))) as [->|Hk].
    + rewrite lookup_insert_eq. intros [= <-].
      by eapply validated_record_ok.
    + rewrite lookup_insert_ne by done. apply Hst.
  - by subst.
  - destruct H as [[_ ->]|(_ & oid & p & Hc & Hs & Hp & ->)]; [done|].
    intros k q. simpl. destruct (decide (k = oid)) as [->|Hk].
    + rewrite lookup_insert_eq. intros [= <-].
      apply with_status_ok; [by apply Hst | done].
    + rewrite lookup_insert_ne by done. apply Hst.
  - destruct H as [[_ ->]|(_ & oid & Hc & ->)]; [done|].
    intros k q. simpl. intros Hk. apply lookup_delete_Some in Hk as [_ Hk].
    by apply Hst.
Qed.

(** X14. The requests of the router keep the in-memory collection as the
    data model wants it: when every stored project carries its own
    well-formed identifier, a status of the enumeration, a name and a client
    name that are not empty, no empty description and an end date that is
    not before its start date, the same holds after any sequence of
    requests, whatever their bodies, identifiers and query strings. *)
Theorem served_store_ok :
  ∀ (rx : string → string → bool) (newDate : jsval → DateResult)
    (requests : list Request) (st : MemStore),
    store_ok st →
    store_ok (Router.serve (C := Mem.collection rx) newDate requests st).
Proof.
  intros rx newDate requests. unfold Router.serve.
  induction requests as [|request requests IH]; intros st Hst; [done|].
  simpl. apply IH. by apply dispatch_store_ok.
Qed.

Lemma served_store_ok_witness :
  store_ok
    (Router.serve (C := Sample.collection) Sample.newDate
       [ POST_projects 1700000000000
           (Sample.body (JStr " Acme ") (JStr "Website") (JStr "active")
              (JStr "2024-01-10") (JStr "2024-03-01"));
         POST_projects 1700000001000
           (Sample.body (JStr "Globex") (JStr "") (JStr "active")
              (JStr "2024-01-10") JUndefined);
         PATCH_project_status 1700000100000 "000000000000000000000000"
           (JStr "completed");
         GET_projects (Query.mk None None None None None);
         DELETE_project "000000000000000000000007" ]
       Sample.empty).
Proof.
  apply served_store_ok. intros id p H. simpl in H.
  by rewrite lookup_empty in H.
Defined.

(** X15. On the in-memory collection every request of the router is
    answered (no handler lets an error escape), and with a status code of
    its route: 200, 400 or 500 for the list, 201, 400 or 500 for a creation,
    200, 400 or 404 for the details and for a removal, 200, 400, 404 or 500
    for a status update. *)
Theorem answer_codes :
  ∀ (rx : string → string → bool) (newDate : jsval → DateResult)
    (request : Request) (st : MemStore),
    ∃ a,
      (Router.dispatch (C := Mem.collection rx) newDate request st).1 = Ok a ∧
      status_code a ∈ route_codes request.
Proof.
  intros rx newDate request st.
  destruct (dispatch_mem rx newDate request st) as (a & st' & -> & Hcode & _).
  by exists a.
Qed.

(** X16. On the in-memory collection a request that is not answered with 200
    or 201 has changed nothing: the store after it is the store before it. *)
Theorem refused_request_changes_nothing :
  ∀ (rx : string → string → bool) (newDate : jsval → DateResult)
    (request : Request) (st st' : MemStore) (a : Answer),
    Router.dispatch (C := Mem.collection rx) newDate request st = (Ok a, st') →
    status_code a ≠ 200 →
    status_code a ≠ 201 →
    st' = st.
Proof.
  intros rx newDate request st st' a Hrun H200 H201.
  destruct (dispatch_mem rx newDate request st) as (a0 & st0 & E & _ & H).
  rewrite Hrun in E. injection E as <- <-.
  destruct request; [done| |done| |]; by destruct H as [[_ ->]|[? _]].
Qed.

Lemma refused_request_changes_nothing_witness :
  (Router.dispatch (C := Sample.collection) Sample.newDate
     (PATCH_project_status 1700000100000 "000000000000000000000001"
        (JStr "done")) Sample.three).2 = Sample.three.
Proof.
  destruct (Router.dispatch (C := Sample.collection) Sample.newDate
              (PATCH_project_status 1700000100000 "000000000000000000000001"
                 (JStr "done")) Sample.three) as [[a|e] st'] eqn:E;
    [|vm_compute in E; discriminate E].
  simpl.
  apply (refused_request_changes_nothing Sample.regex_test Sample.newDate
           _ _ _ a E);
    vm_compute in E; injection E as <- _; discriminate.
Defined.

(** ** Requests before the database is connected *)

(** X21. Before [Database.connect()] has succeeded no request is served from
    the store: on every store whose database is not connected, each of the
    five routes answers with 400 (a validation failed before the repository
    was called) or with 500 (the error of [Database.getDB()], or a
    [TypeError] of the validator), never with 200, 201 or 404, and the
    store is left as it was. *)
Theorem disconnected_requests :
  ∀ (S : Type) (C : Collection S) (newDate : jsval → DateResult)
    (request : Request) (st : S),
    connected st = false →
    ∃ a,
      Router.dispatch newDate request st = (Ok a, st) ∧
      (status_code a = 400 ∨ status_code a = 500).
Proof.
  intros S C newDate request st Hdb.
  destruct request as [query|now body|id|now id status|id];
    unfold Router.dispatch, fmap, M_fmap.
  - unfold ProjectController.listProjects. rewrite handler_runs.
    unfold ProjectService.listProjects, ProjectRepository.listProjects.
    unfold mbind, M_bind, lift.
    destruct (ProjectService.sortOption_of _) as [spec|e] eqn:Hs; simpl.
    + rewrite (collection_disconnected st Hdb).
      eexists. split; [reflexivity|]. by right.
    + unfold ProjectService.sortOption_of in Hs.
      destruct (ProjectService.given _); [|discriminate].
      destruct (JsString.includes _ _); [discriminate|].
      injection Hs as <-. eexists. split; [reflexivity|]. by left.
  - unfold ProjectController.createProject. rewrite handler_runs.
    unfold ProjectService.createProject, ProjectRepository.createProject.
    unfold mbind, M_bind, lift.
    destruct (ProjectValidator.createProject newDate now body) as [v|e] eqn:Hv;
      simpl.
    + rewrite (collection_disconnected st Hdb).
      eexists. split; [reflexivity|]. by right.
    + destruct (createProject_refusal _ _ _ _ Hv)
        as [(m & -> & _)|(m & -> & _)];
        (eexists; split; [reflexivity|]); [by left | by right].
  - unfold ProjectController.projectDetailsById.
    rewrite guarded_handler_runs.
    destruct (negb (JsString.truthy id)).
    { eexists. split; [reflexivity|]. by left. }
    destruct (ObjectId.isValid id) eqn:Hid.
    + rewrite (proj1 (service_disconnected 0 id JUndefined st Hid Hdb)).
      eexists. split; [reflexivity|]. by right.
    + rewrite (projectDeatilsById_malformed id st Hid).
      eexists. split; [reflexivity|]. by left.
  - unfold ProjectController.updateProjectStatusById.
    rewrite guarded_handler_runs.
    destruct (negb (JsString.truthy id)).
    { eexists. split; [reflexivity|]. by left. }
    destruct (ObjectId.isValid id) eqn:Hid.
    + destruct (negb (JsValue.truthy status) ||
                negb (JsValue.included ProjectService.ALLOWED_STATUSES status))
        eqn:Est.
      * rewrite (updateProjectStatusById_rejects_status now id status st Hid).
        -- eexists. split; [reflexivity|]. by left.
        -- intros Hal. apply status_test_spec in Hal. congruence.
      * apply status_test_spec in Est.
        rewrite (proj2 (proj2 (service_disconnected now id status st Hid Hdb))
                   Est).
        eexists. split; [reflexivity|]. by right.
    + rewrite (updateProjectStatusById_malformed now id status st Hid).
      eexists. split; [reflexivity|]. by left.
  - unfold ProjectController.removeProjectById.
    rewrite guarded_handler_runs.
    destruct (negb (JsString.truthy id)).
    { eexists. split; [reflexivity|]. by left. }
    destruct (ObjectId.isValid id) eqn:Hid.
    + rewrite (proj1 (proj2 (service_disconnected 0 id JUndefined st Hid Hdb))).
      eexists. split; [reflexivity|]. by right.
    + rewrite (removeProjectById_malformed id st Hid).
      eexists. split; [reflexivity|]. by left.
Qed.

Lemma disconnected_requests_witness :
  ∃ a,
    Router.dispatch (C := Sample.disconnected) Sample.newDate
      (GET_project "000000000000000000000001") Sample.empty =
      (Ok a, Sample.empty) ∧
    status_code a = 500.
Proof.
  destruct (disconnected_requests MemStore Sample.disconnected Sample.newDate
              (GET_project "000000000000000000000001") Sample.empty eq_refl)
    as (a & E & H).
  exists a. split; [exact E|].
  vm_compute in E. injection E as <-. reflexivity.
Defined.

(** ** The database connection *)

Lemma connect_connected env s d :
  Database.db s = Some d → Database.connect env s = (inr (), s).
Proof. unfold Database.connect. by intros ->. Qed.

Lemma connections_close closes s :
  connections (Database.close closes s).2 = connections s.
Proof.
  unfold connections, Database.close. destruct (Database.client s); [|done].
  destruct closes; [|done]. simpl. rewrite filter_app, length_app.
  change (length (filter _ ["Mongodb connection is closed"])) with 0%nat. lia.
Qed.

Lemma db_close closes s :
  Database.db (Database.close closes s).2 = Database.db s.
Proof.
  unfold Database.close. destruct (Database.client s); [|done].
  by destruct closes.
Qed.

(** Once the handle is set, no call changes it, and no call connects again. *)
Lemma after_calls_connected calls s d :
  Database.db s = Some d →
  Database.db (after_calls calls s) = Some d ∧
  connections (after_calls calls s) = connections s.
Proof.
  revert s. induction calls as [|[env|closes] calls IH]; intros s Hd; [done| |].
  - change (after_calls (Connect env :: calls) s)
      with (after_calls calls (Database.connect env s).2).
    rewrite (connect_connected env s d Hd). by apply IH.
  - change (after_calls (Close closes :: calls) s)
      with (after_calls calls (Database.close closes s).2).
    destruct (IH (Database.close closes s).2) as [H1 H2];
      [by rewrite db_close|].
    split; [exact H1|]. by rewrite H2, connections_close.
Qed.


(** In every state the calls can reach, a handle comes with its client. *)
Lemma after_calls_client calls s :
  (is_Some (Database.db s) → is_Some (Database.client s)) →
  is_Some (Database.db (after_calls calls s)) →
  is_Some (Database.client (after_calls calls s)).
Proof.
  revert s. induction calls as [|[env|closes] calls IH]; intros s Hs; [done| |].
  - change (after_calls (Connect env :: calls) s)
      with (after_calls calls (Database.connect env s).2).
    apply IH. unfold Database.connect.
    destruct (Database.db s) eqn:Hd; [by simpl; rewrite Hd|].
    destruct (Database.accepts env (Database.MONGO_URI env)); simpl;
      [|by rewrite Hd].
    destruct (Database.reachable env); simpl; [|by intros [? [=]]].
    destruct (Database.names env (Database.DB_NAME env)); simpl; by eauto.
  - change (after_calls (Close closes :: calls) s)
      with (after_calls calls (Database.close closes s).2).
    apply IH. rewrite db_close. intros H. destruct (Hs H) as [c Hc].
    unfold Database.close. rewrite Hc. destruct closes; simpl; by eauto.
Qed.

(** A closed client with a handle stays closed. *)
Lemma after_calls_closed calls s d c :
  Database.db s = Some d →
  Database.client s = Some c → Database.is_open c = false →
  ∃ c', Database.client (after_calls calls s) = Some c' ∧
        Database.is_open c' = false.
Proof.
  revert s c. induction calls as [|[env|closes] calls IH]; intros s c Hd Hc Ho.
  - by exists c.
  - change (after_calls (Connect env :: calls) s)
      with (after_calls calls (Database.connect env s).2).
    rewrite (connect_connected env s d Hd). by eapply IH.
  - change (after_calls (Close closes :: calls) s)
      with (after_calls calls (Database.close closes s).2).
    destruct closes.
    + eapply (IH _ (Database.mkClient (Database.uri c) false)).
      * by rewrite db_close.
      * unfold Database.close. by rewrite Hc.
      * done.
    + eapply (IH _ c); [by rewrite db_close| |done].
      unfold Database.close. by rewrite Hc.
Qed.


(** X18. [close()] does not reset the class: once a [connect] has succeeded
    and a [close] has gone through, [getDB] goes on returning the same
    handle and the client stays closed whatever calls follow; a later
    [connect] does not reconnect. *)
Theorem database_closed_for_good :
  ∀ (calls calls' : list DatabaseCall) (d : Database.Db),
    Database.getDB (after_calls calls Database.initial) = inr d →
    let s := after_calls (calls ++ Close true :: calls') Database.initial in
    Database.getDB s = inr d ∧
    ∃ c, Database.client s = Some c ∧ Database.is_open c = false.
Proof.
  intros calls calls' d Hget s. subst s. unfold after_calls in *.
  rewrite foldl_app. simpl foldl.
  set (s1 := foldl after_call Database.initial calls) in *.
  assert (Hd : Database.db s1 = Some d).
  { unfold Database.getDB in Hget. destruct (Database.db s1); congruence. }
  destruct (after_calls_client calls Database.initial) as [c Hc].
  { by intros [? [=]]. }
  { fold s1. unfold after_calls. fold s1. by rewrite Hd. }
  unfold after_calls in Hc. fold s1 in Hc.
  assert (Hd' : Database.db (Database.close true s1).2 = Some d)
    by by rewrite db_close.
  split.
  - destruct (after_calls_connected calls' _ d Hd') as [H _].
    unfold after_calls in H. unfold Database.getDB. by rewrite H.
  - eapply (after_calls_closed calls' (Database.close true s1).2 d
              (Database.mkClient (Database.uri c) false)); [done| |done].
    unfold Database.close. by rewrite Hc.
Qed.

Lemma database_closed_for_good_witness :
  let s := after_calls
             [ Connect (local_env "projects" false);
               Connect (local_env "projects" true);
               Close true;
               Connect (local_env "archive" true) ] Database.initial in
  Database.getDB s = inr (Database.mkDb (Some "projects")) ∧
  ∃ c, Database.client s = Some c ∧ Database.is_open c = false.
Proof.
  apply (database_closed_for_good
           [ Connect (local_env "projects" false);
             Connect (local_env "projects" true) ]
           [ Connect (local_env "archive" true) ]
           (Database.mkDb (Some "projects"))).
  reflexivity.
Defined.

(** ** Identifiers in upper case *)

Lemma lower_hex (c : ascii) :
  ObjectId.is_hex c = true →
  ObjectId.is_hex (ObjectId.lower c) = true ∧
  ObjectId.lower (ObjectId.lower c) = ObjectId.lower c.
Proof.
  destruct c as [[] [] [] [] [] [] [] []]; vm_compute;
    first [discriminate | by split].
Qed.

(** The identifier [new ObjectId] makes is well formed, and making one of it
    gives it back. *)
Lemma create_normal id oid :
  ObjectId.create id = Ok oid → ObjectId.create oid = Ok oid.
Proof.
  unfold ObjectId.create, ObjectId.isValid.
  destruct (_ && _) eqn:E; [|discriminate]. intros [= <-].
  apply andb_prop in E as [Hlen Hhex].
  unfold JsString.chars, JsString.of_chars in *.
  rewrite String.list_ascii_of_string_of_list_ascii.
  rewrite length_map, Hlen. simpl.
  assert (H : ∀ l, forallb ObjectId.is_hex l = true →
              forallb ObjectId.is_hex (map ObjectId.lower l) = true ∧
              map ObjectId.lower (map ObjectId.lower l) = map ObjectId.lower l).
  { induction l as [|c l IH]; simpl; [done|]. intros Hc.
    apply andb_prop in Hc as [Hc Hl].
    destruct (lower_hex c Hc) as [-> ->]. destruct (IH Hl) as [-> ->]. done. }
  destruct (H _ Hhex) as [-> ->]. reflexivity.
Qed.

(** X20. Identifiers are read without regard to the case of their
    hexadecimal letters: on every store, for an identifier [new ObjectId]
    accepts, the three by-identifier operations of the service do with it
    exactly what they do with the identifier written in lower case. *)
Theorem identifiers_ignore_case :
  ∀ (S : Type) (C : Collection S) (id : string) (oid : ObjectId.t) (st : S),
    ObjectId.create id = Ok oid →
    ProjectService.projectDeatilsById id st =
      ProjectService.projectDeatilsById oid st ∧
    ProjectService.removeProjectById id st =
      ProjectService.removeProjectById oid st ∧
    ∀ now status,
      ProjectService.updateProjectStatusById now id status st =
        ProjectService.updateProjectStatusById now oid status st.
Proof.
  intros S C id oid st Hc.
  pose proof (create_normal id oid Hc) as Hc'.
  pose proof (create_valid _ _ Hc) as Hv.
  pose proof (create_valid _ _ Hc') as Hv'.
  split_and!.
  - by rewrite (projectDeatilsById_well_formed id oid st Hv Hc),
      (projectDeatilsById_well_formed oid oid st Hv' Hc').
  - by rewrite (removeProjectById_well_formed id oid st Hv Hc),
      (removeProjectById_well_formed oid oid st Hv' Hc').
  - intros now status.
    destruct (negb (JsValue.truthy status) ||
              negb (JsValue.included ProjectService.ALLOWED_STATUSES status))
      eqn:Est.
    + assert (Hna : ¬ allowed_status status).
      { intros Hal. apply status_test_spec in Hal. congruence. }
      by rewrite (updateProjectStatusById_rejects_status now id status st Hv Hna),
        (updateProjectStatusById_rejects_status now oid status st Hv' Hna).
    + apply status_test_spec in Est.
      by rewrite
        (updateProjectStatusById_well_formed now id oid status st Hv Hc Est),
        (updateProjectStatusById_well_formed now oid oid status st Hv' Hc' Est).
Qed.

Lemma identifiers_ignore_case_witness :
  ProjectService.projectDeatilsById (C := Sample.collection)
    "00000000000000000000000A" Sample.twenty_five =
  ProjectService.projectDeatilsById (C := Sample.collection)
    "00000000000000000000000a" Sample.twenty_five.
Proof.
  apply (identifiers_ignore_case MemStore Sample.collection
           "00000000000000000000000A" "00000000000000000000000a"
           Sample.twenty_five).
  reflexivity.
Defined.
